(** * BUUCTF_Agent: session memory, response normaliser and step loop

    A shallow embedding of [agent/memory.py], [agent/utils.py],
    [agent/analyzer.py] and [agent/solve_agent.py].

    Python values are a small universe of JSON-like values; a raised
    exception is the [Raise] case of a result type and the mutable objects
    ([Memory], the outside world) are threaded explicitly, so that a state
    change made before an exception is raised stays visible after it, as in
    Python.  Whatever lies outside the repository (the JSON parser, the model
    behind [litellm.completion], the template engine, the tools, the person
    at the keyboard) is a variable of the section [Agent]. *)

From Stdlib Require Import ZArith List String Ascii Bool Lia DecimalString.
Import ListNotations.

Open Scope string_scope.
Open Scope Z_scope.

Set Warnings "-register-all,-abstract-large-number".

(** ** Python values *)

(** JSON-like values.  A dict is an association list in insertion order, with
    string keys (every dict of the program is built from JSON text or from a
    literal with string keys).  Floats are left out. *)
Inductive pyval : Type :=
| VNone
| VBool (b : bool)
| VInt (z : Z)
| VStr (s : string)
| VList (l : list pyval)
| VDict (d : list (string * pyval)).

Definition pydict : Type := list (string * pyval).

(** The exception classes the program can meet, with [str(e)]. *)
Inductive exn_class : Type :=
| JSONDecodeError | KeyError | TypeError | AttributeError | IndexError
| UnboundLocalError | RecursionError | OtherException.

Record exn : Type := MkExn { exn_cls : exn_class; exn_str : string }.

Inductive result (A : Type) : Type :=
| Ok (a : A)
| Raise (e : exn).
Arguments Ok {A} a.
Arguments Raise {A} e.

Definition is_ok {A} (r : result A) : bool :=
  match r with Ok _ => true | Raise _ => false end.

Definition exn_class_eqb (a b : exn_class) : bool :=
  match a, b with
  | JSONDecodeError, JSONDecodeError | KeyError, KeyError
  | TypeError, TypeError | AttributeError, AttributeError
  | IndexError, IndexError | UnboundLocalError, UnboundLocalError
  | RecursionError, RecursionError | OtherException, OtherException => true
  | _, _ => false
  end.

(** ** Strings *)

Module Str.

Definition dquote : ascii := ascii_of_nat 34.
Definition dq : string := String dquote EmptyString.
Definition nl : string := String (ascii_of_nat 10) EmptyString.

Fixpoint join (sep : string) (l : list string) : string :=
  match l with
  | [] => ""
  | [x] => x
  | x :: rest => x ++ sep ++ join sep rest
  end.

(** [''.join(l)]. *)
Fixpoint cat (l : list string) : string :=
  match l with
  | [] => ""
  | x :: rest => x ++ cat rest
  end.

Fixpoint take (n : nat) (s : string) : string :=
  match n, s with
  | S k, String c r => String c (take k r)
  | _, _ => ""
  end.

Fixpoint chars (s : string) : list string :=
  match s with
  | "" => []
  | String c r => String c "" :: chars r
  end.

Fixpoint contains (needle hay : string) : bool :=
  if String.prefix needle hay then true
  else match hay with
       | "" => false
       | String _ r => contains needle r
       end.

Definition lower_ascii (c : ascii) : ascii :=
  let n := nat_of_ascii c in
  if (Nat.leb 65 n && Nat.leb n 90)%bool then ascii_of_nat (n + 32) else c.

Fixpoint lower (s : string) : string :=
  match s with
  | "" => ""
  | String c r => String (lower_ascii c) (lower r)
  end.

(** [str.isspace] on one ASCII character. *)
Definition is_space (c : ascii) : bool :=
  let n := nat_of_ascii c in
  ((Nat.leb 9 n && Nat.leb n 13) || (Nat.leb 28 n && Nat.leb n 32))%bool.

Fixpoint lstrip (s : string) : string :=
  match s with
  | String c r => if is_space c then lstrip r else s
  | "" => ""
  end.

Fixpoint rev_onto (s acc : string) : string :=
  match s with
  | "" => acc
  | String c r => rev_onto r (String c acc)
  end.

Definition rev (s : string) : string := rev_onto s "".

Definition strip (s : string) : string := rev (lstrip (rev (lstrip s))).

Definition len (s : string) : Z := Z.of_nat (String.length s).

Definition of_Z (z : Z) : string := NilZero.string_of_int (Z.to_int z).

End Str.

(** ** Lists, the Python way *)

(** [l[start:]] for any integer [start]. *)
Definition slice_from {A} (start : Z) (l : list A) : list A :=
  let n := Z.of_nat (List.length l) in
  if start <? 0 then skipn (Z.to_nat (Z.max 0 (n + start))) l
  else skipn (Z.to_nat (Z.min start n)) l.

(** [l[-k:]]. *)
Definition last_n {A} (k : Z) (l : list A) : list A := slice_from (- k) l.

(** [enumerate(l)], counting from [i]. *)
Fixpoint enumerate_from {A} (i : Z) (l : list A) : list (Z * A) :=
  match l with
  | [] => []
  | x :: r => (i, x) :: enumerate_from (i + 1) r
  end.

(** ** Dicts *)

Module Dict.

Fixpoint get {V} (k : string) (d : list (string * V)) : option V :=
  match d with
  | [] => None
  | (k', v) :: r => if String.eqb k k' then Some v else get k r
  end.

Definition has {V} (k : string) (d : list (string * V)) : bool :=
  match get k d with Some _ => true | None => false end.

(** [d[k] = v]: an existing key keeps its place. *)
Fixpoint set {V} (k : string) (v : V) (d : list (string * V)) : list (string * V) :=
  match d with
  | [] => [(k, v)]
  | (k', v') :: r => if String.eqb k k' then (k, v) :: r else (k', v') :: set k v r
  end.

Definition get_default {V} (k : string) (dflt : V) (d : list (string * V)) : V :=
  match get k d with Some v => v | None => dflt end.

Definition setdefault {V} (k : string) (dflt : V) (d : list (string * V)) : list (string * V) :=
  if has k d then d else set k dflt d.

End Dict.

(** ** Operators on values *)

Module Py.

Definition type_name (v : pyval) : string :=
  match v with
  | VNone => "NoneType" | VBool _ => "bool" | VInt _ => "int"
  | VStr _ => "str" | VList _ => "list" | VDict _ => "dict"
  end.

Definition truthy (v : pyval) : bool :=
  match v with
  | VNone => false
  | VBool b => b
  | VInt z => negb (z =? 0)
  | VStr s => negb (String.eqb s "")
  | VList l => match l with [] => false | _ => true end
  | VDict d => match d with [] => false | _ => true end
  end.

Definition hashable (v : pyval) : bool :=
  match v with VList _ | VDict _ => false | _ => true end.

(** [==] between two hashable values: [True == 1] and [False == 0]. *)
Definition key_eqb (a b : pyval) : bool :=
  match a, b with
  | VNone, VNone => true
  | VStr s, VStr t => String.eqb s t
  | VInt x, VInt y => x =? y
  | VBool x, VBool y => Bool.eqb x y
  | VBool x, VInt y | VInt y, VBool x => (if x then 1 else 0) =? y
  | _, _ => false
  end.

Definition hex_digit (n : nat) : ascii :=
  if Nat.ltb n 10 then ascii_of_nat (48 + n) else ascii_of_nat (87 + n).

Definition escape_char (q : ascii) (c : ascii) : string :=
  let n := nat_of_ascii c in
  if Ascii.eqb c "\" then "\\"
  else if Ascii.eqb c q then String "\" (String q "")
  else if Nat.eqb n 10 then "\n"
  else if Nat.eqb n 13 then "\r"
  else if Nat.eqb n 9 then "\t"
  else if (Nat.ltb n 32 || Nat.eqb n 127)%bool
       then "\x" ++ String (hex_digit (Nat.div n 16)) (String (hex_digit (Nat.modulo n 16)) "")
  else String c "".

Fixpoint escape (q : ascii) (s : string) : string :=
  match s with
  | "" => ""
  | String c r => escape_char q c ++ escape q r
  end.

(** [repr] of a str: single quotes unless the text has a single quote and
    no double quote. *)
Definition repr_str (s : string) : string :=
  let q := if (Str.contains "'" s && negb (Str.contains Str.dq s))%bool
           then Str.dquote else "'"%char in
  String q (escape q s ++ String q "").

Fixpoint repr (v : pyval) : string :=
  match v with
  | VNone => "None"
  | VBool true => "True"
  | VBool false => "False"
  | VInt z => Str.of_Z z
  | VStr s => repr_str s
  | VList l => "[" ++ Str.join ", " (map repr l) ++ "]"
  | VDict d =>
      "{" ++ Str.join ", " (map (fun kv => repr_str (fst kv) ++ ": " ++ repr (snd kv)) d) ++ "}"
  end.

(** [str(v)], what an f-string prints. *)
Definition str (v : pyval) : string :=
  match v with
  | VStr s => s
  | _ => repr v
  end.

(** ["k" in v]. *)
Definition contains (k : string) (v : pyval) : result bool :=
  match v with
  | VDict d => Ok (Dict.has k d)
  | VStr s => Ok (Str.contains k s)
  | VList l => Ok (existsb (key_eqb (VStr k)) l)
  | _ => Raise (MkExn TypeError
                  ("argument of type '" ++ type_name v ++ "' is not iterable"))
  end.

(** [v["k"]]. *)
Definition getitem (v : pyval) (k : string) : result pyval :=
  match v with
  | VDict d => match Dict.get k d with
               | Some x => Ok x
               | None => Raise (MkExn KeyError (repr_str k))
               end
  | VStr _ => Raise (MkExn TypeError "string indices must be integers")
  | VList _ => Raise (MkExn TypeError "list indices must be integers or slices, not str")
  | _ => Raise (MkExn TypeError ("'" ++ type_name v ++ "' object is not subscriptable"))
  end.

(** [v.get("k", dflt)]. *)
Definition get (v : pyval) (k : string) (dflt : pyval) : result pyval :=
  match v with
  | VDict d => Ok (Dict.get_default k dflt d)
  | _ => Raise (MkExn AttributeError
                  ("'" ++ type_name v ++ "' object has no attribute 'get'"))
  end.

(** [len(v)]. *)
Definition len (v : pyval) : result Z :=
  match v with
  | VStr s => Ok (Str.len s)
  | VList l => Ok (Z.of_nat (List.length l))
  | VDict d => Ok (Z.of_nat (List.length d))
  | _ => Raise (MkExn TypeError ("object of type '" ++ type_name v ++ "' has no len()"))
  end.

(** [v[:n]], for a literal [n >= 0]. *)
Definition slice_to (n : nat) (v : pyval) : result pyval :=
  match v with
  | VStr s => Ok (VStr (Str.take n s))
  | VList l => Ok (VList (firstn n l))
  | VDict _ => Raise (MkExn TypeError "unhashable type: 'slice'")
  | _ => Raise (MkExn TypeError ("'" ++ type_name v ++ "' object is not subscriptable"))
  end.

(** [v[0]]. *)
Definition first (v : pyval) : result pyval :=
  match v with
  | VList (x :: _) => Ok x
  | VList [] => Raise (MkExn IndexError "list index out of range")
  | VStr (String c _) => Ok (VStr (String c ""))
  | VStr "" => Raise (MkExn IndexError "string index out of range")
  | VDict _ => Raise (MkExn KeyError "0")
  | _ => Raise (MkExn TypeError ("'" ++ type_name v ++ "' object is not subscriptable"))
  end.

(** The items a [for] loop over [v] visits. *)
Definition iter (v : pyval) : result (list pyval) :=
  match v with
  | VList l => Ok l
  | VStr s => Ok (map VStr (Str.chars s))
  | VDict d => Ok (map (fun kv => VStr (fst kv)) d)
  | _ => Raise (MkExn TypeError ("'" ++ type_name v ++ "' object is not iterable"))
  end.

Fixpoint all_str (i : nat) (l : list pyval) : result (list string) :=
  match l with
  | [] => Ok []
  | VStr s :: r =>
      match all_str (S i) r with
      | Ok ss => Ok (s :: ss)
      | Raise e => Raise e
      end
  | v :: _ =>
      Raise (MkExn TypeError
               ("sequence item " ++ Str.of_Z (Z.of_nat i) ++ ": expected str instance, "
                ++ type_name v ++ " found"))
  end.

(** [sep.join(v)]. *)
Definition join (sep : string) (v : pyval) : result string :=
  match iter v with
  | Raise _ => Raise (MkExn TypeError "can only join an iterable")
  | Ok items =>
      match all_str 0 items with
      | Ok ss => Ok (Str.join sep ss)
      | Raise e => Raise e
      end
  end.

(** [v.setdefault("k", dflt)], for the value of [v] afterwards. *)
Definition setdefault (v : pyval) (k : string) (dflt : pyval) : result pyval :=
  match v with
  | VDict d => Ok (VDict (Dict.setdefault k dflt d))
  | _ => Raise (MkExn AttributeError
                  ("'" ++ type_name v ++ "' object has no attribute 'setdefault'"))
  end.

(** [v + s] for a str [s]. *)
Definition add_str (v : pyval) (s : string) : result string :=
  match v with
  | VStr t => Ok (t ++ s)
  | VList _ =>
      Raise (MkExn TypeError
               ("can only concatenate list (not " ++ Str.dq ++ "str" ++ Str.dq ++ ") to list"))
  | _ => Raise (MkExn TypeError
                  ("unsupported operand type(s) for +: '" ++ type_name v ++ "' and 'str'"))
  end.

End Py.

(** ** Results and the state-and-exception monad *)

Definition rbind {A B} (r : result A) (k : A -> result B) : result B :=
  match r with
  | Ok a => k a
  | Raise e => Raise e
  end.

Notation "'let*' x ':=' r 'in' k" := (rbind r (fun x => k))
  (at level 10, x name, r at level 100, k at level 200).

(** A computation over a mutable state [S]: the state it leaves is returned
    whether it ends normally or by an exception. *)
Definition M (S A : Type) : Type := S -> result A * S.

Definition ret {S A} (a : A) : M S A := fun s => (Ok a, s).

Definition bind {S A B} (c : M S A) (k : A -> M S B) : M S B :=
  fun s => match c s with
           | (Ok a, s') => k a s'
           | (Raise e, s') => (Raise e, s')
           end.

Definition raise {S A} (e : exn) : M S A := fun s => (Raise e, s).

Definition lift {S A} (r : result A) : M S A := fun s => (r, s).

Definition modify {S} (f : S -> S) : M S unit := fun s => (Ok tt, f s).

(** [try: c except Exception as e: ...]: the outcome of [c] as a value. *)
Definition attempt {S A} (c : M S A) : M S (result A) :=
  fun s => match c s with (r, s') => (Ok r, s') end.

Declare Scope py_scope.
Delimit Scope py_scope with py.
Notation "x <- c ;; k" := (bind c (fun x => k))
  (at level 61, c at next level, right associativity) : py_scope.
Notation "c ;; k" := (bind c (fun _ => k))
  (at level 61, right associativity) : py_scope.
Open Scope py_scope.

Fixpoint for_each {S A} (l : list A) (body : A -> M S unit) : M S unit :=
  match l with
  | [] => ret tt
  | x :: r => body x ;; for_each r body
  end.

(** A computation with a [while True] loop in it runs on fuel: [None] says
    that the loop was still turning when the fuel ran out. *)
Definition L (S A : Type) : Type := M S (option A).

Definition bindL {S A B} (c : L S A) (k : A -> L S B) : L S B :=
  o <- c ;;
  match o with
  | Some a => k a
  | None => ret None
  end.

Definition once {S A} (c : M S A) : L S A := a <- c ;; ret (Some a).

Definition finish {S A} (a : A) : L S A := ret (Some a).

Notation "x <~ c ;; k" := (bindL c (fun x => k))
  (at level 61, c at next level, right associativity) : py_scope.

(** ** The objects *)

(** [choices[0].message] of a completion: its [tool_calls] ([None] and the
    empty list are both the empty list here) and its [content]. *)
Record ToolCall : Type := MkToolCall { fn_name : string; fn_arguments : string }.

Record Reply : Type := MkReply { msg_tool_calls : list ToolCall; msg_content : option string }.

(** The outside world, as far as the program changes it: the prompts
    submitted to [litellm.completion] (latest first), the [time.sleep]
    delays, the number of lines read by [input], the tool runs and the
    candidates put to the confirmation callback. *)
Record World : Type := MkWorld {
  sent : list string;
  slept : list Z;
  typed : nat;
  ran : list (string * pyval);
  confirmed : list pyval
}.

Definition World0 : World := MkWorld [] [] 0%nat [] [].

(** [class Memory]. *)
Record Memory : Type := MkMemory {
  max_steps : Z;
  compression_threshold : Z;
  history : list pydict;
  compressed_memory : list pydict;
  key_facts : list (string * string);
  failed_attempts : list (pyval * Z)
}.

(** [Memory(config, max_steps, compression_threshold)]. *)
Definition Memory_init (max_steps compression_threshold : Z) : Memory :=
  MkMemory max_steps compression_threshold [] [] [] [].

Definition with_history (h : list pydict) (m : Memory) : Memory :=
  MkMemory (max_steps m) (compression_threshold m) h (compressed_memory m)
           (key_facts m) (failed_attempts m).

Definition with_compressed_memory (c : list pydict) (m : Memory) : Memory :=
  MkMemory (max_steps m) (compression_threshold m) (history m) c
           (key_facts m) (failed_attempts m).

Definition with_key_facts (k : list (string * string)) (m : Memory) : Memory :=
  MkMemory (max_steps m) (compression_threshold m) (history m) (compressed_memory m)
           k (failed_attempts m).

Definition with_failed_attempts (f : list (pyval * Z)) (m : Memory) : Memory :=
  MkMemory (max_steps m) (compression_threshold m) (history m) (compressed_memory m)
           (key_facts m) f.

Record State : Type := MkState { memory : Memory; world : World }.

Definition on_memory (f : Memory -> Memory) : M State unit :=
  modify (fun s => MkState (f (memory s)) (world s)).

Definition on_world (f : World -> World) : M State unit :=
  modify (fun s => MkState (memory s) (f (world s))).

Definition the_memory : M State Memory := fun s => (Ok (memory s), s).

(** The failure counters: a dict whose keys are any hashable values. *)
Module Counters.

Fixpoint get (k : pyval) (d : list (pyval * Z)) : option Z :=
  match d with
  | [] => None
  | (k', n) :: r => if Py.key_eqb k' k then Some n else get k r
  end.

Fixpoint set (k : pyval) (n : Z) (d : list (pyval * Z)) : list (pyval * Z) :=
  match d with
  | [] => [(k, n)]
  | (k', n') :: r => if Py.key_eqb k' k then (k', n) :: r else (k', n') :: set k n r
  end.

Definition unhashable (k : pyval) : exn :=
  MkExn TypeError ("unhashable type: '" ++ Py.type_name k ++ "'").

(** [k in d]. *)
Definition mem (k : pyval) (d : list (pyval * Z)) : result bool :=
  if Py.hashable k
  then Ok (match get k d with Some _ => true | None => false end)
  else Raise (unhashable k).

(** [d[k]]. *)
Definition getitem (k : pyval) (d : list (pyval * Z)) : result Z :=
  if Py.hashable k
  then match get k d with
       | Some n => Ok n
       | None => Raise (MkExn KeyError (Py.repr k))
       end
  else Raise (unhashable k).

(** [d[k] = d.get(k, 0) + 1]. *)
Definition bump (k : pyval) (d : list (pyval * Z)) : result (list (pyval * Z)) :=
  if Py.hashable k
  then Ok (set k (match get k d with Some n => n | None => 0 end + 1) d)
  else Raise (unhashable k).

End Counters.

(** ** agent/utils.py: [optimize_text] *)

Module Utils.

Definition flush (c : ascii) (least : nat) (rep : ascii) (pending : nat) : string :=
  match pending with
  | O => ""
  | _ => if Nat.leb least pending then String rep ""
         else string_of_list_ascii (repeat c pending)
  end.

(** [re.sub] of the runs of at least [least] characters [c] by [rep]. *)
Fixpoint sub_runs (c : ascii) (least : nat) (rep : ascii) (pending : nat) (s : string) : string :=
  match s with
  | "" => flush c least rep pending
  | String d r =>
      if Ascii.eqb d c then sub_runs c least rep (S pending) r
      else flush c least rep pending ++ String d (sub_runs c least rep O r)
  end.

Fixpoint replace_char (a b : ascii) (s : string) : string :=
  match s with
  | "" => ""
  | String d r => String (if Ascii.eqb d a then b else d) (replace_char a b r)
  end.

Definition is_line_end (c : ascii) : bool :=
  let n := nat_of_ascii c in
  (Nat.eqb n 10 || Nat.eqb n 11 || Nat.eqb n 12 || Nat.eqb n 13
   || Nat.eqb n 28 || Nat.eqb n 29 || Nat.eqb n 30)%bool.

(** [str.splitlines], with [cur] the line being read. *)
Fixpoint splitlines (cur : string) (s : string) : list string :=
  match s with
  | "" => if String.eqb cur "" then [] else [cur]
  | String c r =>
      if is_line_end c then
        match r with
        | String c2 r2 =>
            if (Nat.eqb (nat_of_ascii c) 13 && Nat.eqb (nat_of_ascii c2) 10)%bool
            then cur :: splitlines "" r2
            else cur :: splitlines "" r
        | "" => [cur]
        end
      else splitlines (cur ++ String c "") r
  end.

Definition space : ascii := ascii_of_nat 32.
Definition nul : ascii := ascii_of_nat 0.
Definition lf : ascii := ascii_of_nat 10.

Definition optimize_text (text : string) : string :=
  let text := sub_runs space 2 nul 0 text in
  let text := replace_char nul space text in
  let text := sub_runs lf 1 lf 0 text in
  let lines := filter (fun line => negb (String.eqb (Str.strip line) ""))
                      (splitlines "" text) in
  Str.join Str.nl lines.

End Utils.

(** ** The agent *)

Section Agent.

(** [json.loads]. *)
Variable json_loads : string -> result pyval.

(** [hash] on a str. *)
Variable py_hash : string -> Z.

(** [litellm.completion]: the outcome of the request number [n] (counting
    from 0) for the given prompt. *)
Variable completion : nat -> string -> result Reply.

Definition with_sent (l : list string) (w : World) : World :=
  MkWorld l (slept w) (typed w) (ran w) (confirmed w).

Definition request (prompt : string) : M State Reply :=
  fun s =>
    let w := world s in
    (completion (List.length (sent w)) prompt,
     MkState (memory s) (with_sent (prompt :: sent w) w)).

(** *** agent/memory.py *)

Definition quoted (s : string) : string := Str.dq ++ s ++ Str.dq.

Definition compress_instructions : string :=
  "You are a CTF solving assistant. Compress the solving history by completing these tasks:" ++ Str.nl
  ++ "1. Identify key technical findings and discoveries." ++ Str.nl
  ++ "2. Record solutions that were attempted but failed." ++ Str.nl
  ++ "3. Summarise the current progress and suggest next steps." ++ Str.nl
  ++ "4. Return a JSON object with the structure:" ++ Str.nl
  ++ "{" ++ Str.nl
  ++ "  " ++ quoted "key_findings" ++ ": [" ++ quoted "Finding 1" ++ ", " ++ quoted "Finding 2" ++ "]," ++ Str.nl
  ++ "  " ++ quoted "failed_attempts" ++ ": [" ++ quoted "Command 1" ++ ", " ++ quoted "Command 2" ++ "]," ++ Str.nl
  ++ "  " ++ quoted "current_status" ++ ": " ++ quoted "Status description" ++ "," ++ Str.nl
  ++ "  " ++ quoted "next_steps" ++ ": [" ++ quoted "Suggestion 1" ++ ", " ++ quoted "Suggestion 2" ++ "]" ++ Str.nl
  ++ "}" ++ Str.nl ++ Str.nl
  ++ "History:" ++ Str.nl.

Definition fact_line (kv : string * string) : string := "- " ++ snd kv ++ Str.nl.

(** The lines [compress_memory] adds to its prompt for one step. *)
Definition prompt_step (i : Z) (step : pydict) : result string :=
  let head := Str.nl ++ "Step " ++ Str.of_Z (i + 1) ++ ":" ++ Str.nl
              ++ "- Purpose: " ++ Py.str (Dict.get_default "purpose" (VStr "unspecified") step)
              ++ Str.nl in
  let* command := Py.getitem (VDict step) "content" in
  let head := head ++ "- Command: " ++ Py.str command ++ Str.nl in
  match Dict.get "analysis" step with
  | Some a =>
      let* analysis := Py.get a "analysis" (VStr "No analysis") in
      Ok (head ++ "- Analysis: " ++ Py.str analysis ++ Str.nl)
  | None => Ok head
  end.

Fixpoint concat_results (l : list (result string)) : result string :=
  match l with
  | [] => Ok ""
  | r :: rest =>
      let* s := r in
      let* t := concat_results rest in
      Ok (s ++ t)
  end.

(** The prompt built by [compress_memory] before its [try]. *)
Definition compress_prompt (m : Memory) : result string :=
  let facts := Str.cat (map fact_line (last_n 5 (key_facts m))) in
  let* steps :=
    concat_results
      (map (fun p => prompt_step (fst p) (snd p))
           (enumerate_from 0 (last_n (compression_threshold m) (history m)))) in
  Ok (compress_instructions ++ "Key facts summary:" ++ Str.nl ++ facts ++ steps).

Definition history_len (m : Memory) : Z := Z.of_nat (List.length (history m)).

Definition append_block (b : pydict) : M State unit :=
  on_memory (fun m => with_compressed_memory (compressed_memory m ++ [b]) m).

Definition bump_failed (k : pyval) : M State unit :=
  m <- the_memory ;;
  f <- lift (Counters.bump k (failed_attempts m)) ;;
  on_memory (with_failed_attempts f).

(** [response.choices[0].message.content.strip()]. *)
Definition content_strip (response : Reply) : result string :=
  match msg_content response with
  | Some s => Ok (Str.strip s)
  | None => Raise (MkExn AttributeError "'NoneType' object has no attribute 'strip'")
  end.

(** The body of the [try] of [compress_memory] after the completion. *)
Definition compress_store (response : Reply) : M State unit :=
  json_str <- lift (content_strip response) ;;
  compressed_data <- lift (json_loads json_str) ;;
  attempts <- lift (Py.get compressed_data "failed_attempts" (VList [])) ;;
  items <- lift (Py.iter attempts) ;;
  for_each items bump_failed ;;
  match compressed_data with
  | VDict d =>
      m <- the_memory ;;
      let d := Dict.set "source_steps" (VInt (history_len m)) d in
      append_block d ;;
      findings <- lift (Py.getitem (VDict d) "key_findings") ;;
      _ <- lift (Py.len findings) ;;
      ret tt
  | _ => raise (MkExn TypeError
                  ("'" ++ Py.type_name compressed_data
                   ++ "' object does not support item assignment"))
  end.

(** The two [except] clauses of [compress_memory]; [response] is what
    [locals()] holds under that name. *)
Definition compress_except (e : exn) (response : option Reply) : M State unit :=
  m <- the_memory ;;
  if (exn_class_eqb (exn_cls e) JSONDecodeError || exn_class_eqb (exn_cls e) KeyError)%bool
  then
    fallback <- lift (match response with
                      | Some r => content_strip r
                      | None => Ok "Compression failed"
                      end) ;;
    append_block [("fallback_summary", VStr fallback);
                  ("source_steps", VInt (history_len m))]
  else
    append_block [("error", VStr ("Compression failed: " ++ exn_str e));
                  ("source_steps", VInt (history_len m))].

(** The [try] statement of [compress_memory]. *)
Definition compress_attempt (prompt : string) : M State unit :=
  r <- attempt (request (Utils.optimize_text prompt)) ;;
  match r with
  | Raise e => compress_except e None
  | Ok response =>
      r' <- attempt (compress_store response) ;;
      match r' with
      | Raise e => compress_except e (Some response)
      | Ok _ => ret tt
      end
  end.

(** [self.history = self.history[-keep_last:]]. *)
Definition retain (m : Memory) : Memory :=
  let keep_last := Z.min 4 (history_len m) in
  with_history (last_n keep_last (history m)) m.

Definition compress_memory : M State unit :=
  m <- the_memory ;;
  match history m with
  | [] => ret tt
  | _ =>
      prompt <- lift (compress_prompt m) ;;
      compress_attempt prompt ;;
      on_memory retain
  end.

Definition set_fact (k v : string) : M State unit :=
  on_memory (fun m => with_key_facts (Dict.set k v (key_facts m)) m).

(** [_extract_key_facts]. *)
Definition _extract_key_facts (step : pydict) : M State unit :=
  (if (Dict.has "content" step && Dict.has "output" step)%bool then
     command <- lift (Py.getitem (VDict step) "content") ;;
     output <- lift (Py.getitem (VDict step) "output") ;;
     head <- lift (Py.slice_to 256 output) ;;
     n <- lift (Py.len output) ;;
     output_summary <- lift (Py.add_str head (if 256 <? n then "..." else "")) ;;
     set_fact "command" ("Command: " ++ Py.str command ++ ", Result: " ++ output_summary)
   else ret tt) ;;
  match Dict.get "analysis" step with
  | None => ret tt
  | Some a =>
      present <- lift (Py.contains "analysis" a) ;;
      if present then
        analysis <- lift (Py.getitem a "analysis") ;;
        match analysis with
        | VStr text =>
            if (Str.contains "key finding" (Str.lower text)
                || Str.contains "key findings" (Str.lower text))%bool
            then set_fact ("finding:" ++ Str.of_Z (py_hash text)) text
            else ret tt
        | _ => ret tt
        end
      else ret tt
  end.

(** Whether [add_step] counts the step as a failed attempt. *)
Definition step_failed (step : pydict) : result bool :=
  match Dict.get "analysis" step with
  | None => Ok false
  | Some a =>
      let* present := Py.contains "success" a in
      if present then
        let* ok := Py.getitem a "success" in
        Ok (negb (Py.truthy ok))
      else Ok false
  end.

(** The block [# Track failed attempts] of [add_step]. *)
Definition track_failure (step : pydict) : M State unit :=
  failed <- lift (step_failed step) ;;
  if failed
  then bump_failed (Dict.get_default "content" (VStr "") step)
  else ret tt.

Definition add_step (step : pydict) : M State unit :=
  on_memory (fun m => with_history (history m ++ [step]) m) ;;
  _extract_key_facts step ;;
  track_failure step ;;
  m <- the_memory ;;
  if compression_threshold m <=? history_len m
  then compress_memory
  else ret tt.

Definition block_list (label : string) (v : pyval) : result string :=
  let* shown := Py.slice_to 3 v in
  let* joined := Py.join ", " shown in
  let* n := Py.len v in
  Ok ("- " ++ label ++ ": " ++ joined
      ++ (if 3 <? n then " and " ++ Str.of_Z (n - 3) ++ " more" else "")
      ++ Str.nl).

(** What [get_summary] prints for one compressed block; [total] is
    [len(self.compressed_memory)]. *)
Definition summary_block (total : Z) (i : Z) (blk : pydict) : result string :=
  let head := "Block #" ++ Str.of_Z (total - i) ++ ":" ++ Str.nl in
  let* findings :=
    match Dict.get "key_findings" blk with
    | Some v =>
        let* l := block_list "Key findings" v in
        Ok ("- Status: " ++ Py.str (Dict.get_default "current_status" (VStr "unknown") blk)
            ++ Str.nl ++ l)
    | None => Ok ""
    end in
  let* failed :=
    match Dict.get "failed_attempts" blk with
    | Some v => block_list "Failed attempts" v
    | None => Ok ""
    end in
  let* next :=
    match Dict.get "next_steps" blk with
    | Some v =>
        let* x := Py.first v in
        Ok ("- Suggested next step: " ++ Py.str x ++ Str.nl)
    | None => Ok ""
    end in
  let* n := Py.getitem (VDict blk) "source_steps" in
  Ok (head ++ findings ++ failed ++ next
      ++ "- Source: based on " ++ Py.str n ++ " historical steps" ++ Str.nl ++ Str.nl).

(** What [get_summary] prints for one step of the history. *)
Definition summary_step (m : Memory) (i : Z) (step : pydict) : result string :=
  let head := "Step " ++ Str.of_Z (history_len m - i) ++ ":" ++ Str.nl
              ++ "- Purpose: " ++ Py.str (Dict.get_default "purpose" (VStr "unspecified") step)
              ++ Str.nl in
  let* command := Py.getitem (VDict step) "content" in
  let head := head ++ "- Command: " ++ Py.str command ++ Str.nl in
  let* out :=
    match Dict.get "output" step with
    | Some output =>
        let* shown := Py.slice_to 512 output in
        let* n := Py.len output in
        Ok ("- Output: " ++ Py.str shown ++ (if 512 <? n then "..." else "") ++ Str.nl)
    | None => Ok ""
    end in
  let* ana :=
    match Dict.get "analysis" step with
    | Some a =>
        let* analysis := Py.get a "analysis" (VStr "No analysis") in
        Ok ("- Analysis: " ++ Py.str analysis ++ Str.nl)
    | None => Ok ""
    end in
  let* known := Counters.mem command (failed_attempts m) in
  let* fails :=
    if known then
      let* n := Counters.getitem command (failed_attempts m) in
      Ok ("- Historical failure count: " ++ Str.of_Z n ++ Str.nl)
    else Ok "" in
  Ok (head ++ out ++ ana ++ fails ++ Str.nl).

Definition get_summary (include_key_facts : bool) (m : Memory) : result string :=
  let facts :=
    if (include_key_facts && match key_facts m with [] => false | _ => true end)%bool
    then "Key facts:" ++ Str.nl
         ++ Str.cat (map fact_line (last_n 10 (key_facts m))) ++ Str.nl
    else "" in
  let* blocks :=
    match compressed_memory m with
    | [] => Ok ""
    | _ =>
        let total := Z.of_nat (List.length (compressed_memory m)) in
        let* s := concat_results
                    (map (fun p => summary_block total (fst p) (snd p))
                         (enumerate_from 0 (last_n 3 (compressed_memory m)))) in
        Ok ("Compressed memory blocks:" ++ Str.nl ++ s)
    end in
  let* steps :=
    match history m with
    | [] => Ok ""
    | _ =>
        let* s := concat_results
                    (map (fun p => summary_step m (fst p) (snd p))
                         (enumerate_from 0 (history m))) in
        Ok ("Recent detailed steps:" ++ Str.nl ++ s)
    end in
  let summary := facts ++ blocks ++ steps in
  Ok (if String.eqb summary "" then "No history" else summary).

(** *** agent/utils.py: [fix_json_with_llm] *)

Definition repair_prompt (json_str err_content : string) : string :=
  "The following string is invalid JSON. Repair it so that it becomes valid JSON." ++ Str.nl
  ++ "Return only the corrected JSON—do not add any extra narration." ++ Str.nl
  ++ "Preserve every original key and value without altering their meaning." ++ Str.nl ++ Str.nl
  ++ "Malformed JSON: " ++ json_str ++ Str.nl
  ++ "Error message: " ++ err_content.

(** The [while True] of [fix_json_with_llm].  An exception of the
    completion leaves the function; one of [json.loads] (a [TypeError] when
    the content is [None]) is swallowed and the loop goes on. *)
Fixpoint fix_json_loop (fuel : nat) (prompt : string) : L State string :=
  match fuel with
  | O => ret None
  | S fuel' =>
      response <- request prompt ;;
      match msg_content response with
      | Some fixed_json =>
          match json_loads fixed_json with
          | Ok _ => finish fixed_json
          | Raise _ => fix_json_loop fuel' prompt
          end
      | None => fix_json_loop fuel' prompt
      end
  end.

(** [fix_json_with_llm] from its prompt on.  The two lines that read the
    configuration first ([Config.load_config()] and
    [config["llm"]["pre_processor"]]) touch neither the memory nor the
    requests; they are not part of this definition, which stands for the calls
    in which the configuration file holds that entry. *)
Definition fix_json_with_llm (fuel : nat) (json_str err_content : string)
  : L State string :=
  fix_json_loop fuel (repair_prompt json_str err_content).

(** *** agent/solve_agent.py *)

(** The template engine: the prompts of [generate_next_step] (from the
    category, the plan and the summary), of [reflection] (from the
    purpose, the feedback and the summary) and of [analyze_step_output]
    (from the step number, the content, the output, the plan and the
    summary). *)
Variable render_next : string -> string -> string -> string.
Variable render_reflection : pyval -> string -> string -> string.
Variable render_analysis : Z -> pyval -> string -> string -> string -> string.

(** [input]: the line typed at the [n]-th call. *)
Variable user_input : nat -> string.

(** [self.tools]: for a registered name, what [execute] does at its
    [n]-th run overall with the given arguments. *)
Variable tools : string -> option (nat -> pyval -> result (string * string)).

(** [self.confirm_flag_callback], if one was injected: its answer to the
    [n]-th candidate. *)
Variable confirm_flag_callback : option (nat -> pyval -> bool).

Variable auto_mode : bool.

Definition unbound (name : string) : exn :=
  MkExn UnboundLocalError
        ("cannot access local variable '" ++ name
         ++ "' where it is not associated with a value").

(** [func_name] and [args] after the first branch of
    [parse_tool_response]. *)
Definition parse_structured (fuel : nat) (tool_call : ToolCall)
  : L State (pyval * pyval) :=
  let func_name := VStr (fn_name tool_call) in
  args <~ match json_loads (fn_arguments tool_call) with
          | Ok v => finish v
          | Raise e =>
              if exn_class_eqb (exn_cls e) JSONDecodeError
              then fixed <~ fix_json_with_llm fuel (fn_arguments tool_call) (exn_str e) ;;
                   finish (VStr fixed)
              else raise e
          end ;;
  args <- lift (Py.setdefault args "purpose" (VStr "Execute action")) ;;
  args <- lift (Py.setdefault args "content" (VStr "")) ;;
  finish (func_name, args).

(** The names bound by the [if] at the end of the second branch. *)
Definition parse_document (data : pyval) : result (option pyval * option pyval) :=
  let* present := Py.contains "tool_calls" data in
  let* calls := if present then Py.getitem data "tool_calls" else Ok (VBool false) in
  if Py.truthy calls then
    let* tool_call := Py.first calls in
    let* func_name := Py.get tool_call "name" (VStr "tool_parse_failed") in
    let* args := Py.get tool_call "arguments" (VDict []) in
    let* args := Py.setdefault args "purpose" (VStr "Execute action") in
    let* args := Py.setdefault args "content" (VStr "") in
    Ok (Some func_name, Some args)
  else Ok (None, None).

(** The three log lines and the [return] that end [parse_tool_response]. *)
Definition parse_finish (func_name args : option pyval) : result pyval :=
  let* func_name := match func_name with Some v => Ok v | None => Raise (unbound "func_name") end in
  let* args := match args with Some v => Ok v | None => Raise (unbound "args") end in
  let* _ := Py.getitem args "purpose" in
  let* _ := Py.getitem args "content" in
  Ok (VDict [("tool_name", func_name); ("arguments", args)]).

Definition parse_tool_response (fuel : nat) (response : Reply) : L State pyval :=
  match msg_tool_calls response with
  | tool_call :: _ =>
      p <~ parse_structured fuel tool_call ;;
      once (lift (parse_finish (Some (fst p)) (Some (snd p))))
  | [] =>
      content <- lift (content_strip response) ;;
      match json_loads content with
      | Ok data =>
          p <- lift (parse_document data) ;;
          once (lift (parse_finish (fst p) (snd p)))
      | Raise e =>
          if exn_class_eqb (exn_cls e) JSONDecodeError then
            content <~ fix_json_with_llm fuel content (exn_str e) ;;
            data <- lift (json_loads content) ;;
            p <- lift (parse_document data) ;;
            once (lift (parse_finish (fst p) (snd p)))
          else finish (VDict [])
      end
  end.

Definition summary : M State string :=
  m <- the_memory ;; lift (get_summary true m).

Definition generate_next_step (fuel : nat) (problem_class solution_plan : string)
  : L State pyval :=
  history_summary <- summary ;;
  let prompt := render_next problem_class solution_plan history_summary in
  response <- request (Utils.optimize_text prompt) ;;
  parse_tool_response fuel response.

Definition reflection (fuel : nat) (purpose : pyval) (feedback : string)
  : L State pyval :=
  history_summary <- summary ;;
  let prompt := render_reflection purpose feedback history_summary in
  response <- request (Utils.optimize_text prompt) ;;
  parse_tool_response fuel response.

Definition sleep (seconds : Z) : M State unit :=
  on_world (fun w => MkWorld (sent w) (seconds :: slept w) (typed w) (ran w) (confirmed w)).

Definition input : M State string :=
  fun s =>
    let w := world s in
    (Ok (user_input (typed w)),
     MkState (memory s) (MkWorld (sent w) (slept w) (S (typed w)) (ran w) (confirmed w))).

(** The inner [while next_step is None] of [solve]. *)
Fixpoint generating (fuel : nat) (problem_class solution_plan : string) : L State pyval :=
  match fuel with
  | O => ret None
  | S fuel' =>
      next_step <~ generate_next_step fuel' problem_class solution_plan ;;
      if Py.truthy next_step then finish next_step
      else
        sleep 10 ;;
        match next_step with
        | VNone => generating fuel' problem_class solution_plan
        | _ => finish next_step
        end
  end.

Fixpoint manual_approval_step (fuel : nat) (next_step : pyval) : L State (bool * pyval) :=
  match fuel with
  | O => ret None
  | S fuel' =>
      arguments <- lift (Py.get next_step "arguments" (VDict [])) ;;
      purpose <- lift (Py.get arguments "purpose" (VStr "unspecified")) ;;
      line <- input ;;
      let choice := Str.strip line in
      if String.eqb choice "1" then finish (true, next_step)
      else if String.eqb choice "2" then
        line <- input ;;
        let feedback := Str.strip line in
        next_step <~ reflection fuel' purpose feedback ;;
        manual_approval_step fuel' next_step
      else if String.eqb choice "3" then finish (false, VNone)
      else manual_approval_step fuel' next_step
  end.

(** [tool.execute(arguments)]. *)
Definition run_tool (name : string) (tool : nat -> pyval -> result (string * string))
           (arguments : pyval) : M State (string * string) :=
  fun s =>
    let w := world s in
    (tool (List.length (ran w)) arguments,
     MkState (memory s)
             (MkWorld (sent w) (slept w) (typed w)
                      ((name, arguments) :: ran w)
                      (confirmed w))).

(** The block [# Execute the command] of [solve]: the value of [output]. *)
Definition executing (tool_name arguments : pyval) : M State string :=
  if Py.hashable tool_name then
    match match tool_name with VStr name => option_map (pair name) (tools name) | _ => None end with
    | Some (name, tool) =>
        r <- attempt (run_tool name tool arguments) ;;
        match r with
        | Ok (stdout, stderr) => ret (stdout ++ stderr)
        | Raise e => ret ("Tool execution error: " ++ exn_str e)
        end
    | None => ret ("Error: tool '" ++ Py.str tool_name ++ "' was not found")
    end
  else raise (Counters.unhashable tool_name).

(** [Analyzer.analyze_step_output]. *)
Definition analyze_step_output (fuel : nat) (step_num : Z) (content : pyval)
           (output solution_plan : string) : L State pyval :=
  history_summary <- summary ;;
  let prompt := render_analysis step_num content (Str.take 4096 output)
                                solution_plan history_summary in
  response <- request (Utils.optimize_text prompt) ;;
  match msg_content response with
  | None => raise (MkExn TypeError
                     "the JSON object must be str, bytes or bytearray, not NoneType")
  | Some text =>
      match json_loads text with
      | Ok (VDict d) => finish (VDict d)
      | Ok _ => finish VNone
      | Raise e =>
          if (exn_class_eqb (exn_cls e) JSONDecodeError
              || exn_class_eqb (exn_cls e) KeyError)%bool then
            content <~ fix_json_with_llm fuel text (exn_str e) ;;
            result <- lift (json_loads content) ;;
            finish result
          else raise e
      end
  end.

(** [self.confirm_flag_callback and self.confirm_flag_callback(flag)]. *)
Definition confirm (flag_candidate : pyval) : M State bool :=
  match confirm_flag_callback with
  | None => ret false
  | Some callback =>
      fun s =>
        let w := world s in
        (Ok (callback (List.length (confirmed w)) flag_candidate),
         MkState (memory s)
                 (MkWorld (sent w) (slept w) (typed w) (ran w)
                          (flag_candidate :: confirmed w)))
  end.

(** How one turn of the [while True] of [solve] ends. *)
Inductive turn_end : Type :=
| Return (v : pyval)
| Continue.

(** The record [solve] hands to [add_step]. *)
Definition step_record (step_count : Z) (arguments content : pyval) (output : string)
           (analysis_result : pyval) : result pydict :=
  let* purpose := Py.get arguments "purpose" (VStr "unspecified") in
  Ok [("step", VInt step_count); ("purpose", purpose); ("content", content);
      ("output", VStr output); ("analysis", analysis_result)].

(** A turn from the flag check on. *)
Definition conclude (step_count : Z) (arguments content : pyval) (output : string)
           (analysis_result : pyval) : M State turn_end :=
  flag_found <- lift (Py.get analysis_result "flag_found" (VBool false)) ;;
  accepted <-
    (if Py.truthy flag_found then
       flag_candidate <- lift (Py.get analysis_result "flag" (VStr "")) ;;
       yes <- confirm flag_candidate ;;
       ret (if yes then Some flag_candidate else None)
     else ret None) ;;
  match accepted with
  | Some flag_candidate => ret (Return flag_candidate)
  | None =>
      step <- lift (step_record step_count arguments content output analysis_result) ;;
      add_step step ;;
      terminate <- lift (Py.get analysis_result "terminate" (VBool false)) ;;
      if Py.truthy terminate
      then ret (Return (VStr "Flag not found: terminated early"))
      else ret Continue
  end.

(** A turn from the analysis on. *)
Definition analyzing (fuel : nat) (solution_plan : string) (step_count : Z)
           (arguments content : pyval) (output : string) : L State turn_end :=
  analysis_result <~ analyze_step_output fuel step_count content output solution_plan ;;
  once (conclude step_count arguments content output analysis_result).

(** A turn from the execution on. *)
Definition run_action (fuel : nat) (solution_plan : string) (step_count : Z)
           (tool_name arguments content : pyval) : L State turn_end :=
  output <- executing tool_name arguments ;;
  analyzing fuel solution_plan step_count arguments content output.

(** [tool_name], [arguments] and [content] of an action. *)
Definition action_fields (next_step : pyval) : result (pyval * pyval * pyval) :=
  let* tool_name := Py.get next_step "tool_name" VNone in
  let* arguments := Py.get next_step "arguments" (VDict []) in
  let* content := Py.get arguments "content" (VStr "") in
  Ok (tool_name, arguments, content).

(** A turn from the action produced by the generation on. *)
Definition act (fuel : nat) (solution_plan : string) (step_count : Z)
           (next_step : pyval) : L State turn_end :=
  f <- lift (action_fields next_step) ;;
  if auto_mode then
    let '(tool_name, arguments, content) := f in
    run_action fuel solution_plan step_count tool_name arguments content
  else
    p <~ manual_approval_step fuel next_step ;;
    if fst p then
      f <- lift (action_fields (snd p)) ;;
      let '(tool_name, arguments, content) := f in
      run_action fuel solution_plan step_count tool_name arguments content
    else finish (Return (VStr "Solving aborted")).

(** One turn of the [while True] of [solve]. *)
Definition solve_turn (fuel : nat) (problem_class solution_plan : string)
           (step_count : Z) : L State turn_end :=
  next_step <~ generating fuel problem_class solution_plan ;;
  act fuel solution_plan step_count next_step.

Fixpoint solve_loop (fuel : nat) (problem_class solution_plan : string)
         (step_count : Z) : L State pyval :=
  match fuel with
  | O => ret None
  | S fuel' =>
      let step_count := step_count + 1 in
      e <~ solve_turn fuel' problem_class solution_plan step_count ;;
      match e with
      | Return v => finish v
      | Continue => solve_loop fuel' problem_class solution_plan step_count
      end
  end.

Definition solve (fuel : nat) (problem_class solution_plan : string) : L State pyval :=
  solve_loop fuel problem_class solution_plan 0.

End Agent.

(** * Concrete collaborators

    Inputs on which the program is run below. *)

Module Examples.

(** JSON text, written with ['] where JSON has a double quote. *)
Definition json (s : string) : string := Utils.replace_char "'"%char Str.dquote s.

Definition not_json : result pyval :=
  Raise (MkExn JSONDecodeError
               "Expecting property name enclosed in double quotes: line 1 column 2 (char 1)").

(** A summary with the four fields. *)
Definition summary_text : string :=
  json "{'key_findings': ['port 80 open'], 'failed_attempts': ['nmap -sU'], 'current_status': 'recon', 'next_steps': ['try curl']}".

(** A summary that is a JSON object without [key_findings]. *)
Definition status_only_text : string := json "{'current_status': 'exploring'}".

(** A summary with the four fields and nothing to suggest. *)
Definition stuck_text : string :=
  json "{'key_findings': [], 'failed_attempts': [], 'current_status': 'stuck', 'next_steps': []}".

(** Arguments written as a Python dict, which is not JSON, and their
    repair. *)
Definition quoted_arguments : string := "{'content': 'ls'}".
Definition repaired_arguments : string := json "{'content': 'ls'}".

(** A free-text action with the same flaw, and its repair. *)
Definition quoted_action : string :=
  "{'tool_calls': [{'name': 'execute_shell_command', 'arguments': {'content': 'ls'}}]}".
Definition repaired_action : string := json quoted_action.

(** A JSON document with no tool call in it. *)
Definition no_call_text : string := json "{'tool_calls': []}".

(** A hundred thousand opening brackets. *)
Definition deep_text : string := string_of_list_ascii (repeat "["%char 100000).

(** An analysis that reports a flag and asks to stop. *)
Definition flag_and_stop : pyval :=
  VDict [("analysis", VStr "the page prints the flag"); ("success", VBool true);
         ("flag_found", VBool true); ("flag", VStr "flag{demo}");
         ("terminate", VBool true)].

(** An analysis that reports a flag and does not ask to stop. *)
Definition flag_only : pyval :=
  VDict [("analysis", VStr "the page prints the flag"); ("success", VBool true);
         ("flag_found", VBool true); ("flag", VStr "flag{demo}");
         ("terminate", VBool false)].

(** An analysis with nothing to report, as text. *)
Definition dull_analysis_text : string :=
  json "{'analysis': 'nothing yet', 'success': true, 'flag_found': false, 'terminate': false}".

(** [json.loads] on the texts above; any other text counts as not being
    JSON. *)
Definition table : list (string * result pyval) :=
  [ (summary_text,
     Ok (VDict [("key_findings", VList [VStr "port 80 open"]);
                ("failed_attempts", VList [VStr "nmap -sU"]);
                ("current_status", VStr "recon");
                ("next_steps", VList [VStr "try curl"])]));
    (status_only_text, Ok (VDict [("current_status", VStr "exploring")]));
    (stuck_text,
     Ok (VDict [("key_findings", VList []); ("failed_attempts", VList []);
                ("current_status", VStr "stuck"); ("next_steps", VList [])]));
    (repaired_arguments, Ok (VDict [("content", VStr "ls")]));
    (repaired_action,
     Ok (VDict [("tool_calls",
                 VList [VDict [("name", VStr "execute_shell_command");
                               ("arguments", VDict [("content", VStr "ls")])]])]));
    (no_call_text, Ok (VDict [("tool_calls", VList [])]));
    (dull_analysis_text,
     Ok (VDict [("analysis", VStr "nothing yet"); ("success", VBool true);
                ("flag_found", VBool false); ("terminate", VBool false)]));
    (deep_text,
     Raise (MkExn RecursionError
                  "maximum recursion depth exceeded while decoding a JSON array from a unicode string")) ].

Definition loads (s : string) : result pyval :=
  match Dict.get s table with
  | Some r => r
  | None => not_json
  end.

(** A hash: any function will do. *)
Definition hash (s : string) : Z := Z.of_nat (String.length s).

(** A model that answers every request with the same free text. *)
Definition says (text : string) (n : nat) (prompt : string) : result Reply :=
  Ok (MkReply [] (Some text)).

(** A model that answers the requests in turn from a list, and is out of
    reach after that. *)
Definition script (l : list Reply) (n : nat) (prompt : string) : result Reply :=
  match nth_error l n with
  | Some r => Ok r
  | None => Raise (MkExn OtherException "Connection error.")
  end.

Definition text_reply (text : string) : Reply := MkReply [] (Some text).

(** The record of a step, as [solve] builds it. *)
Definition step_of (n : Z) (command : string) : pydict :=
  [("step", VInt n); ("purpose", VStr "look around"); ("content", VStr command);
   ("output", VStr "uid=0(root)");
   ("analysis", VDict [("analysis", VStr "nothing yet"); ("success", VBool true);
                       ("flag_found", VBool false); ("terminate", VBool false)])].

Definition six_steps : list pydict :=
  [step_of 1 "id"; step_of 2 "ls"; step_of 3 "pwd"; step_of 4 "ps"; step_of 5 "env";
   step_of 6 "df"].

Definition start (threshold : Z) : State := MkState (Memory_init 10 threshold) World0.

(** The templates. *)
Definition next_template (problem_class solution_plan history_summary : string) : string :=
  "Category: " ++ problem_class ++ Str.nl ++ "Plan: " ++ solution_plan ++ Str.nl
  ++ history_summary.

Definition reflection_template (purpose : pyval) (feedback history_summary : string) : string :=
  "Purpose: " ++ Py.str purpose ++ Str.nl ++ "Feedback: " ++ feedback ++ Str.nl
  ++ history_summary.

Definition analysis_template (step_num : Z) (content : pyval)
           (output solution_plan history_summary : string) : string :=
  "Step " ++ Str.of_Z step_num ++ Str.nl ++ "Command: " ++ Py.str content ++ Str.nl
  ++ "Output: " ++ output ++ Str.nl ++ "Plan: " ++ solution_plan ++ Str.nl
  ++ history_summary.

(** Nobody at the keyboard: every line read is empty. *)
Definition silent (n : nat) : string := "".

(** A registry with a shell that answers and an interpreter that breaks. *)
Definition registry (name : string) : option (nat -> pyval -> result (string * string)) :=
  if String.eqb name "execute_shell_command"
  then Some (fun _ _ => Ok ("uid=0(root)", ""))
  else if String.eqb name "execute_python_code"
  then Some (fun _ _ => Raise (MkExn OtherException "timed out"))
  else None.

(** A judge who turns every candidate down. *)
Definition rejects (n : nat) (candidate : pyval) : bool := false.

End Examples.

(** * Vocabulary of the statements *)

(** A computation [keeps] a relation between the state it starts from and
    the state it leaves, however it ends. *)
Definition keeps {S A} (R : S -> S -> Prop) (c : M S A) : Prop :=
  forall s r s', c s = (r, s') -> R s s'.

(** The history and the threshold are left alone. *)
Definition same_history (s s' : State) : Prop :=
  history (memory s') = history (memory s)
  /\ compression_threshold (memory s') = compression_threshold (memory s).

(** The whole memory is left alone. *)
Definition same_memory (s s' : State) : Prop := memory s' = memory s.

(** The threshold is left alone. *)
Definition same_threshold (s s' : State) : Prop :=
  compression_threshold (memory s') = compression_threshold (memory s).

(** The compressed blocks are left alone. *)
Definition same_blocks (s s' : State) : Prop :=
  compressed_memory (memory s') = compressed_memory (memory s).

(** A block that records [n] source steps. *)
Definition stamped (n : Z) (b : pydict) : Prop :=
  Dict.get "source_steps" b = Some (VInt n).

(** A prompt that shows the purpose, the command and, if the step has one,
    the analysis text of a step. *)
Definition embeds_step (step : pydict) (prompt : string) : Prop :=
  exists command,
    Dict.get "content" step = Some command
    /\ Str.contains
         ("- Purpose: " ++ Py.str (Dict.get_default "purpose" (VStr "unspecified") step)
          ++ Str.nl) prompt = true
    /\ Str.contains ("- Command: " ++ Py.str command ++ Str.nl) prompt = true
    /\ (forall a, Dict.get "analysis" step = Some a ->
          exists text,
            Py.get a "analysis" (VStr "No analysis") = Ok text
            /\ Str.contains ("- Analysis: " ++ Py.str text ++ Str.nl) prompt = true).

(** The world is left alone. *)
Definition same_world (s s' : State) : Prop := world s' = world s.

(** A reply the repair loop rejects: no text, or text that does not parse. *)
Definition rejected (json_loads : string -> result pyval) (r : Reply) : Prop :=
  match msg_content r with
  | Some text => is_ok (json_loads text) = false
  | None => True
  end.

(** The state after the first [n] of the six example steps. *)
Definition after_steps (threshold : Z) (text : string) (n : nat) : result unit * State :=
  for_each (firstn n Examples.six_steps)
           (add_step Examples.loads Examples.hash (Examples.says text))
           (Examples.start threshold).


(** The state once a candidate has been put to the confirmation callback. *)
Definition asked (flag_candidate : pyval) (s : State) : State :=
  let w := world s in
  MkState (memory s)
          (MkWorld (sent w) (slept w) (typed w) (ran w) (flag_candidate :: confirmed w)).

(** The arguments and the record of the turn used for C5. *)
Definition curl_arguments : pyval :=
  VDict [("purpose", VStr "read the page"); ("content", VStr "curl http://target/")].

Definition curl_record (analysis : pyval) : pydict :=
  [("step", VInt 1); ("purpose", VStr "read the page");
   ("content", VStr "curl http://target/"); ("output", VStr "flag{demo}");
   ("analysis", analysis)].

(** What [solve_turn] and [solve] do in automatic mode with the example
    collaborators and the given replies of the model. *)
Definition example_turn (replies : list Reply) : result (option turn_end) * State :=
  solve_turn Examples.loads Examples.hash (Examples.script replies)
             Examples.next_template Examples.reflection_template Examples.analysis_template
             Examples.silent Examples.registry (Some Examples.rejects) true
             5 "Web" "enumerate the site" 1 (Examples.start 5).

Definition example_solve (replies : list Reply) : result (option pyval) * State :=
  solve Examples.loads Examples.hash (Examples.script replies)
        Examples.next_template Examples.reflection_template Examples.analysis_template
        Examples.silent Examples.registry (Some Examples.rejects) true
        5 "Web" "enumerate the site" (Examples.start 5).

(** * More vocabulary *)

(** Two states whose values of [f] are related by [Q]. *)
Definition related {A} (f : State -> A) (Q : A -> A -> Prop) (s s' : State) : Prop :=
  Q (f s) (f s').

Definition facts_of (s : State) : list (string * string) := key_facts (memory s).
Definition counters_of (s : State) : list (pyval * Z) := failed_attempts (memory s).
Definition blocks_of (s : State) : list pydict := compressed_memory (memory s).

(** Every counter of [a] is in [b] with a value that is not smaller. *)
Definition counters_le (a b : list (pyval * Z)) : Prop :=
  forall k n, Counters.get k a = Some n ->
              exists n', Counters.get k b = Some n' /\ n <= n'.

(** [b] is [a] with something appended. *)
Definition extends {A} (a b : list A) : Prop := exists new, b = (a ++ new)%list.

(** Every key of [a] is a key of [b]. *)
Definition keys_kept (a b : list (string * string)) : Prop :=
  forall k, Dict.has k a = true -> Dict.has k b = true.

(** A step whose analysis says that it failed, and the state in which it
    and two more steps have been added under a threshold of 5. *)
Definition failed_step (command : string) : pydict :=
  [("step", VInt 1); ("purpose", VStr "scan"); ("content", VStr command);
   ("output", VStr "connection refused");
   ("analysis", VDict [("analysis", VStr "Key finding: the port is closed");
                       ("success", VBool false)])].

Definition after_failures : State :=
  snd (for_each [failed_step "nmap -p 80 target"; failed_step "nmap -p 80 target";
                 Examples.step_of 3 "id"]
                (add_step Examples.loads Examples.hash
                          (Examples.says Examples.summary_text))
                (Examples.start 5)).

(** The block stored when the compaction fails with [e], where [raw] is
    the text the first [except] clause falls back on. *)
Definition degraded_block (e : exn) (raw : string) (source_steps : Z) : pydict :=
  if (exn_class_eqb (exn_cls e) JSONDecodeError || exn_class_eqb (exn_cls e) KeyError)%bool
  then [("fallback_summary", VStr raw); ("source_steps", VInt source_steps)]
  else [("error", VStr ("Compression failed: " ++ exn_str e));
        ("source_steps", VInt source_steps)].



(** ** The dialogues and the first analysis *)

(** [s.replace(old, new)] for a non-empty [old]: the matches are taken
    from the left and do not overlap; [skip] counts the characters of the
    current match that are still to be dropped. *)
Fixpoint replace_from (old new : string) (skip : nat) (s : string) : string :=
  match s with
  | "" => ""
  | String c r =>
      match skip with
      | S k => replace_from old new k r
      | O =>
          if String.prefix old s
          then new ++ replace_from old new (String.length old - 1) r
          else String c (replace_from old new 0 r)
      end
  end.

Definition replace (old new s : string) : string := replace_from old new 0 s.

Section Dialogues.

Variable json_loads : string -> result pyval.
Variable completion : nat -> string -> result Reply.
Variable user_input : nat -> string.

(** [SolveAgent._select_mode]: the value it gives to [self.auto_mode]. *)
Fixpoint _select_mode (fuel : nat) : L State bool :=
  match fuel with
  | O => ret None
  | S fuel' =>
      line <- input user_input ;;
      let choice := Str.strip line in
      if String.eqb choice "1" then finish true
      else if String.eqb choice "2" then finish false
      else _select_mode fuel'
  end.

(** [Workflow.confirm_flag]. *)
Fixpoint confirm_flag (fuel : nat) (flag_candidate : pyval) : L State bool :=
  match fuel with
  | O => ret None
  | S fuel' =>
      line <- input user_input ;;
      let response := Str.lower (Str.strip line) in
      if String.eqb response "y" then finish true
      else if String.eqb response "n" then finish false
      else confirm_flag fuel' flag_candidate
  end.


End Dialogues.

(** The state after [k] more lines have been read from the keyboard. *)
Definition after_typing (k : nat) (s : State) : State :=
  let w := world s in
  MkState (memory s) (MkWorld (sent w) (slept w) (k + typed w) (ran w) (confirmed w)).

(** An answer that the approval dialogue does not know. *)
Definition unknown_choice (line : string) : Prop :=
  Str.strip line <> "1" /\ Str.strip line <> "2" /\ Str.strip line <> "3".


(** The candidate [v] is the last one put to the confirmation callback,
    and the callback accepted it. *)
Definition accepted_flag (callback : option (nat -> pyval -> bool)) (v : pyval)
           (s' : State) : Prop :=
  exists cb rest,
    callback = Some cb
    /\ confirmed (world s') = v :: rest
    /\ cb (List.length rest) v = true.

(** Between [s] and [s'] the memory did not change, or it changed by one
    call of [add_step]. *)
Definition one_step_more (json_loads : string -> result pyval) (py_hash : string -> Z)
           (completion : nat -> string -> result Reply) (s s' : State) : Prop :=
  memory s' = memory s
  \/ exists step s1 r s2,
       memory s1 = memory s
       /\ add_step json_loads py_hash completion step s1 = (r, s2)
       /\ memory s' = memory s2.


(** ** Texts *)

(** [c in s]. *)
Fixpoint has_char (c : ascii) (s : string) : bool :=
  match s with
  | "" => false
  | String a r => (Ascii.eqb a c || has_char c r)%bool
  end.

(** No two occurrences of [c] are next to each other in [s]; [prev] says
    whether the character just before [s] is [c]. *)
Fixpoint apart (c : ascii) (prev : bool) (s : string) : bool :=
  match s with
  | "" => true
  | String a r =>
      if Ascii.eqb a c then (negb prev && apart c true r)%bool else apart c false r
  end.

(** The same with the marker of [optimize_text] counted as a space. *)
Fixpoint apart_marked (prev : bool) (s : string) : bool :=
  match s with
  | "" => true
  | String a r =>
      if (Ascii.eqb a Utils.space || Ascii.eqb a Utils.nul)%bool
      then (negb prev && apart_marked true r)%bool
      else apart_marked false r
  end.


(** ** config.py *)

Section Config.

Variable json_loads : string -> result pyval.

(** The files: [None] where [os.path.exists] says no, and else what
    opening and reading the file gives. *)
Variable read_text : string -> option (result string).

(** ["openai/" + v]. *)
Definition prefix_model (v : pyval) : result pyval :=
  match v with
  | VStr s => Ok (VStr ("openai/" ++ s))
  | _ => Raise (MkExn TypeError
                  ("can only concatenate str (not " ++ Str.dq ++ Py.type_name v ++ Str.dq
                   ++ ") to str"))
  end.

(** The body of the loop over the agents: the agent afterwards. *)
Definition normalize_agent (agent : pyval) : result pyval :=
  let* present := Py.contains "model" agent in
  if present then
    let* model := Py.getitem agent "model" in
    let* model := prefix_model model in
    match agent with
    | VDict d => Ok (VDict (Dict.set "model" model d))
    | _ => Ok agent
    end
  else Ok agent.

(** [for agent in config["llm"].values(): ...], on the items of the
    dict. *)
Fixpoint normalize_agents (agents : pydict) : result pydict :=
  match agents with
  | [] => Ok []
  | (name, agent) :: rest =>
      let* agent := normalize_agent agent in
      let* rest := normalize_agents rest in
      Ok ((name, agent) :: rest)
  end.

(** [v.values()], as the items they come from. *)
Definition values_of (v : pyval) : result pydict :=
  match v with
  | VDict d => Ok d
  | _ => Raise (MkExn AttributeError
                  ("'" ++ Py.type_name v ++ "' object has no attribute 'values'"))
  end.

Definition normalize_config (config : pyval) : result pyval :=
  let* present := Py.contains "llm" config in
  if present then
    let* llm := Py.getitem config "llm" in
    let* agents := values_of llm in
    let* agents := normalize_agents agents in
    match config with
    | VDict d => Ok (VDict (Dict.set "llm" (VDict agents) d))
    | _ => Ok config
    end
  else Ok config.

(** [Config.load_config]; the [ValueError]s are of the class
    [OtherException]. *)
Definition load_config (config_path : string) : result pyval :=
  match read_text config_path with
  | None =>
      Raise (MkExn OtherException
                   ("Configuration file " ++ config_path ++ " was not found"))
  | Some content =>
      match (let* text := content in json_loads text) with
      | Ok config => normalize_config config
      | Raise e =>
          if exn_class_eqb (exn_cls e) JSONDecodeError
          then Raise (MkExn OtherException
                            ("Configuration file " ++ config_path ++ " is not valid JSON"))
          else Raise e
      end
  end.

End Config.

(** The model named [name] under [llm] in a configuration. *)
Definition model_of (name : string) (config : pyval) : option pyval :=
  match config with
  | VDict d =>
      match Dict.get "llm" d with
      | Some (VDict agents) =>
          match Dict.get name agents with
          | Some (VDict agent) => Dict.get "model" agent
          | _ => None
          end
      | _ => None
      end
  | _ => None
  end.


(** ** More examples *)

(** Somebody at the keyboard who types the given lines, and then nothing. *)
Definition keyboard (lines : list string) (n : nat) : string := nth n lines "".

(** A model that is out of reach. *)
Definition unreachable (n : nat) (prompt : string) : result Reply :=
  Raise (MkExn OtherException "Connection error.").

(** A judge who accepts every candidate. *)
Definition accepts (n : nat) (candidate : pyval) : bool := true.

(** An action for the shell of the example registry. *)
Definition ls_action : pyval :=
  VDict [("tool_name", VStr "execute_shell_command");
         ("arguments", VDict [("purpose", VStr "list the files"); ("content", VStr "ls")])].

(** An analysis that reports a flag, a JSON text that is not an object,
    and [json.loads] on them and on the examples above. *)
Definition flag_text : string :=
  Examples.json "{'analysis': 'the page prints the flag', 'success': true, 'flag_found': true, 'flag': 'flag{demo}', 'terminate': false}".

Definition list_text : string := "[1, 2]".

Definition loads_more (s : string) : result pyval :=
  if String.eqb s flag_text then Ok Examples.flag_only
  else if String.eqb s list_text then Ok (VList [VInt 1; VInt 2])
  else Examples.loads s.

(** A configuration file and [json.loads] on it. *)
Definition config_text : string :=
  Examples.json "{'llm': {'solve_agent': {'model': 'gpt-4o', 'api_key': 'k'}}, 'compression_threshold': 5}".

Definition config_value : pyval :=
  VDict [("llm", VDict [("solve_agent",
                         VDict [("model", VStr "gpt-4o"); ("api_key", VStr "k")])]);
         ("compression_threshold", VInt 5)].

Definition loads_config (s : string) : result pyval :=
  if String.eqb s config_text then Ok config_value else Examples.not_json.

Definition one_file (path : string) : option (result string) :=
  if String.eqb path "./config.json" then Some (Ok config_text) else None.

Definition broken_file (path : string) : option (result string) := Some (Ok "{").

(** A run in automatic mode with a judge who accepts, and the replies of
    the model given. *)
Definition accepting_solve (replies : list Reply) : result (option pyval) * State :=
  solve loads_more Examples.hash (Examples.script replies)
        Examples.next_template Examples.reflection_template Examples.analysis_template
        Examples.silent Examples.registry (Some accepts) true
        5 "Web" "enumerate the site" (Examples.start 5).


(** ** Texts of ASCII characters, and more examples *)

(** Every character of [s] is an ASCII character: on such a text the
    characters that Python counts, cuts and strips are the [ascii] of this
    development one for one. *)
Fixpoint ascii_text (s : string) : bool :=
  match s with
  | "" => true
  | String c r => (Nat.ltb (nat_of_ascii c) 128 && ascii_text r)%bool
  end.

(** The [count] lines typed from the line number [from] on are texts of
    ASCII characters. *)
Definition ascii_lines (user_input : nat -> string) (from count : nat) : Prop :=
  forall i, (i < count)%nat -> ascii_text (user_input (i + from)%nat) = true.

(** A step without analysis and with the given output, and an output of
    300 characters. *)
Definition step_with_output (output : string) : pydict :=
  [("step", VInt 1); ("purpose", VStr "read the page");
   ("content", VStr "curl http://target/"); ("output", VStr output)].

Definition long_output : string := string_of_list_ascii (repeat "A"%char 300).





(** * Properties *)

(** ** Reasoning on computations *)

Lemma bind_inv {S A B} (c : M S A) (k : A -> M S B) s r s' :
  bind c k s = (r, s') ->
  (exists a s1, c s = (Ok a, s1) /\ k a s1 = (r, s'))
  \/ (exists e, c s = (Raise e, s') /\ r = Raise e).
Proof.
  unfold bind. destruct (c s) as [[a | e] s1]; intros H.
  - left. eauto.
  - right. inversion H; subst. eauto.
Qed.

Lemma bind_lift_inv {S A B} (x : result A) (k : A -> M S B) s r s' :
  bind (lift x) k s = (r, s') ->
  (exists a, x = Ok a /\ k a s = (r, s'))
  \/ (exists e, x = Raise e /\ r = Raise e /\ s' = s).
Proof.
  unfold bind, lift. destruct x as [a | e]; intros H.
  - left. eauto.
  - right. inversion H; subst. eauto.
Qed.

Lemma Ok_inj {A} (a b : A) : Ok a = Ok b -> a = b.
Proof. intros H. injection H. auto. Qed.


Section Keeps.

Context {S : Type}.
Variable R : S -> S -> Prop.
Hypothesis R_refl : forall s, R s s.
Hypothesis R_trans : forall s1 s2 s3, R s1 s2 -> R s2 s3 -> R s1 s3.

Lemma keeps_ret {A} (a : A) : keeps R (ret a).
Proof. intros s r s' H. inversion H; subst. apply R_refl. Qed.

Lemma keeps_raise {A} (e : exn) : keeps R (@raise S A e).
Proof. intros s r s' H. inversion H; subst. apply R_refl. Qed.

Lemma keeps_lift {A} (x : result A) : keeps R (lift x).
Proof. intros s r s' H. inversion H; subst. apply R_refl. Qed.

Lemma keeps_bind {A B} (c : M S A) (k : A -> M S B) :
  keeps R c -> (forall a, keeps R (k a)) -> keeps R (bind c k).
Proof.
  intros Hc Hk s r s' H.
  destruct (bind_inv _ _ _ _ _ H) as [(a & s1 & H1 & H2) | (e & H1 & _)].
  - eapply R_trans; [eapply Hc | eapply Hk]; eassumption.
  - eapply Hc; eassumption.
Qed.

Lemma keeps_attempt {A} (c : M S A) : keeps R c -> keeps R (attempt c).
Proof.
  intros Hc s r s' H. unfold attempt in H.
  destruct (c s) as [r0 s0] eqn:E. inversion H; subst.
  eapply Hc; eassumption.
Qed.

Lemma keeps_for_each {A} (l : list A) (body : A -> M S unit) :
  (forall a, keeps R (body a)) -> keeps R (for_each l body).
Proof.
  intros Hb. induction l as [| x l IH]; simpl.
  - apply keeps_ret.
  - apply keeps_bind; [apply Hb | intros _; exact IH].
Qed.

Lemma keeps_if {A} (b : bool) (c1 c2 : M S A) :
  keeps R c1 -> keeps R c2 -> keeps R (if b then c1 else c2).
Proof. destruct b; auto. Qed.

End Keeps.

Lemma same_history_refl s : same_history s s.
Proof. split; reflexivity. Qed.

Lemma same_history_trans s1 s2 s3 :
  same_history s1 s2 -> same_history s2 s3 -> same_history s1 s3.
Proof. intros [A1 B1] [A2 B2]. split; congruence. Qed.

Lemma same_memory_refl s : same_memory s s.
Proof. reflexivity. Qed.

Lemma same_memory_trans s1 s2 s3 :
  same_memory s1 s2 -> same_memory s2 s3 -> same_memory s1 s3.
Proof. unfold same_memory. congruence. Qed.

Lemma same_memory_history s s' : same_memory s s' -> same_history s s'.
Proof. unfold same_memory. intros H. split; rewrite H; reflexivity. Qed.

Create HintDb keeps.

#[local] Hint Resolve same_history_refl same_history_trans
  same_memory_refl same_memory_trans : keeps.
#[local] Hint Resolve keeps_ret keeps_raise keeps_lift
  keeps_bind keeps_attempt keeps_for_each keeps_if : keeps.

(** ** Strings *)

Lemma append_assoc (a b c : string) : (a ++ b) ++ c = a ++ (b ++ c).
Proof. induction a as [| x a IH]; simpl; [reflexivity | rewrite IH; reflexivity]. Qed.

Lemma prefix_split (n h : string) :
  String.prefix n h = true -> exists b, h = n ++ b.
Proof.
  revert h. induction n as [| x n IH]; intros h H.
  - exists h. reflexivity.
  - destruct h as [| y h]; simpl in H; [discriminate |].
    destruct (ascii_dec x y) as [-> | _]; [| discriminate].
    destruct (IH h H) as [b ->]. exists b. reflexivity.
Qed.

Lemma prefix_append (n b : string) : String.prefix n (n ++ b) = true.
Proof.
  induction n as [| x n IH]; simpl.
  - destruct b; reflexivity.
  - destruct (ascii_dec x x) as [_ | D]; [exact IH | congruence].
Qed.

Lemma contains_unfold (n h : string) :
  Str.contains n h
  = if String.prefix n h then true
    else match h with
         | "" => false
         | String _ r => Str.contains n r
         end.
Proof. destruct h; reflexivity. Qed.

(** [Str.contains] is the substring relation. *)
Lemma contains_iff (n h : string) :
  Str.contains n h = true <-> exists a b, h = a ++ n ++ b.
Proof.
  split.
  - induction h as [| c h IH]; rewrite contains_unfold.
    + destruct (String.prefix n "") eqn:P; [| discriminate].
      intros _. destruct (prefix_split _ _ P) as [b Hb]. exists "", b. exact Hb.
    + destruct (String.prefix n (String c h)) eqn:P.
      * intros _. destruct (prefix_split _ _ P) as [b Hb]. exists "", b. exact Hb.
      * intros H. destruct (IH H) as (a & b & ->). exists (String c a), b. reflexivity.
  - intros (a & b & ->). induction a as [| c a IH].
    + change ("" ++ n ++ b) with (n ++ b).
      rewrite contains_unfold, prefix_append. reflexivity.
    + change (String c a ++ n ++ b) with (String c (a ++ n ++ b)).
      rewrite contains_unfold, IH. destruct (String.prefix n _); reflexivity.
Qed.

Lemma contains_refl (n : string) : Str.contains n n = true.
Proof.
  apply contains_iff. exists "", "". simpl.
  induction n as [| c n IH]; simpl; [reflexivity | rewrite <- IH; reflexivity].
Qed.

Lemma contains_trans (a b c : string) :
  Str.contains a b = true -> Str.contains b c = true -> Str.contains a c = true.
Proof.
  rewrite !contains_iff. intros (p & q & ->) (u & v & ->).
  exists (u ++ p), (q ++ v). rewrite !append_assoc. reflexivity.
Qed.

Lemma contains_left (n a b : string) :
  Str.contains n a = true -> Str.contains n (a ++ b) = true.
Proof.
  rewrite !contains_iff. intros (p & q & ->).
  exists p, (q ++ b). rewrite !append_assoc. reflexivity.
Qed.

Lemma contains_right (n a b : string) :
  Str.contains n b = true -> Str.contains n (a ++ b) = true.
Proof.
  rewrite !contains_iff. intros (p & q & ->).
  exists (a ++ p), q. rewrite !append_assoc. reflexivity.
Qed.

Lemma contains_cat (x : string) (l : list string) :
  In x l -> Str.contains x (Str.cat l) = true.
Proof.
  induction l as [| y l IH]; simpl; [contradiction |].
  intros [-> | H].
  - apply contains_left, contains_refl.
  - apply contains_right, IH, H.
Qed.

(** ** Lists *)

Lemma length_slice_from {A} (start : Z) (l : list A) :
  start < 0 ->
  Z.of_nat (List.length (slice_from start l)) = Z.min (- start) (Z.of_nat (List.length l)).
Proof.
  intros H. unfold slice_from.
  destruct (start <? 0) eqn:E; [| apply Z.ltb_ge in E; lia].
  rewrite length_skipn. lia.
Qed.

Lemma length_last_n {A} (k : Z) (l : list A) :
  0 < k ->
  Z.of_nat (List.length (last_n k l)) = Z.min k (Z.of_nat (List.length l)).
Proof.
  intros H. unfold last_n. rewrite length_slice_from by lia.
  f_equal. lia.
Qed.

Lemma last_n_all {A} (k : Z) (l : list A) :
  Z.of_nat (List.length l) <= k -> last_n k l = l.
Proof.
  intros H. unfold last_n, slice_from.
  destruct (- k <? 0) eqn:E.
  - replace (Z.to_nat (Z.max 0 (Z.of_nat (List.length l) + - k))) with 0%nat by lia.
    reflexivity.
  - apply Z.ltb_ge in E.
    assert (List.length l = 0%nat) as L by lia.
    destruct l; [| discriminate]. rewrite skipn_nil. reflexivity.
Qed.

Lemma last_n_snoc {A} (k : Z) (l : list A) (x : A) :
  0 < k -> exists h, last_n k (l ++ [x])%list = (h ++ [x])%list.
Proof.
  intros H. unfold last_n, slice_from.
  destruct (- k <? 0) eqn:E; [| apply Z.ltb_ge in E; lia].
  rewrite length_app. simpl.
  set (j := Z.to_nat (Z.max 0 (Z.of_nat (List.length l + 1) + - k))).
  assert (j <= List.length l)%nat as Hj by (unfold j; lia).
  exists (skipn j l). rewrite skipn_app.
  replace (j - List.length l)%nat with 0%nat by lia. reflexivity.
Qed.

(** ** The compression prompt *)

Lemma concat_results_ok (l : list (result string)) (t : string) :
  concat_results l = Ok t ->
  forall r, In r l -> exists x, r = Ok x /\ Str.contains x t = true.
Proof.
  revert t. induction l as [| r0 l IH]; intros t H r Hin; [contradiction |].
  simpl in H. destruct r0 as [x0 | e]; simpl in H; [| discriminate].
  destruct (concat_results l) as [t' | e]; simpl in H; [| discriminate].
  inversion H; subst t. destruct Hin as [<- | Hin].
  - exists x0. split; [reflexivity |]. apply contains_left, contains_refl.
  - destruct (IH t' eq_refl r Hin) as (x & -> & Hc).
    exists x. split; [reflexivity |]. apply contains_right, Hc.
Qed.

Lemma In_enumerate_from {A} (x : A) (l : list A) (k : Z) :
  In x l -> exists i, In (i, x) (enumerate_from k l).
Proof.
  revert k. induction l as [| y l IH]; intros k H; [contradiction |].
  destruct H as [-> | H].
  - exists k. left. reflexivity.
  - destruct (IH (k + 1) H) as [i Hi]. exists i. right. exact Hi.
Qed.

(** A part of a text built with [++]. *)
Ltac find_part :=
  solve [ apply contains_refl
        | apply contains_left; find_part
        | apply contains_right; find_part ].

Lemma embeds_step_mono (step : pydict) (x p : string) :
  embeds_step step x -> Str.contains x p = true -> embeds_step step p.
Proof.
  intros (command & Hc & H1 & H2 & H3) Hx.
  exists command. split; [exact Hc |].
  split; [eapply contains_trans; eassumption |].
  split; [eapply contains_trans; eassumption |].
  intros a Ha. destruct (H3 a Ha) as (text & Ht & H4).
  exists text. split; [exact Ht |]. eapply contains_trans; eassumption.
Qed.

Lemma prompt_step_embeds (i : Z) (step : pydict) (x : string) :
  prompt_step i step = Ok x -> embeds_step step x.
Proof.
  unfold prompt_step, embeds_step. unfold Py.getitem.
  destruct (Dict.get "content" step) as [command |]; [| discriminate].
  cbn [rbind]. intros H. exists command. split; [reflexivity |].
  destruct (Dict.get "analysis" step) as [a |].
  - destruct (Py.get a "analysis" (VStr "No analysis")) as [text | e] eqn:G;
      cbn [rbind] in H; [| discriminate].
    apply Ok_inj in H. subst x.
    split; [find_part |]. split; [find_part |].
    intros a' Ha'. inversion Ha'; subst a'.
    exists text. split; [exact G |]. find_part.
  - apply Ok_inj in H. subst x.
    split; [find_part |]. split; [find_part |].
    intros a' Ha'. discriminate.
Qed.

(** The prompt of [compress_memory] shows the last five key facts and the
    last [compression_threshold] steps of the history. *)
Lemma compress_prompt_embeds (m : Memory) (prompt : string) :
  compress_prompt m = Ok prompt ->
  (forall fact, In fact (last_n 5 (key_facts m)) ->
                Str.contains (fact_line fact) prompt = true)
  /\ (forall step, In step (last_n (compression_threshold m) (history m)) ->
                   embeds_step step prompt).
Proof.
  unfold compress_prompt.
  destruct (concat_results _) as [steps | e] eqn:Hs; cbn [rbind]; [| discriminate].
  intros H. apply Ok_inj in H. subst prompt. split.
  - intros fact Hin.
    apply contains_right, contains_right, contains_right, contains_left.
    apply contains_cat. apply in_map. exact Hin.
  - intros step Hin.
    destruct (In_enumerate_from step _ 0 Hin) as [i Hi].
    destruct (concat_results_ok _ _ Hs (prompt_step i step)) as (x & Hx & Hc).
    { apply (in_map (fun p => prompt_step (fst p) (snd p)) _ (i, step)). exact Hi. }
    eapply embeds_step_mono; [apply (prompt_step_embeds i); exact Hx |].
    apply contains_right, contains_right, contains_right, contains_right. exact Hc.
Qed.

(** ** The session memory *)

Lemma same_threshold_refl s : same_threshold s s.
Proof. reflexivity. Qed.

Lemma same_threshold_trans s1 s2 s3 :
  same_threshold s1 s2 -> same_threshold s2 s3 -> same_threshold s1 s3.
Proof. unfold same_threshold. congruence. Qed.

Lemma same_blocks_refl s : same_blocks s s.
Proof. reflexivity. Qed.

Lemma same_blocks_trans s1 s2 s3 :
  same_blocks s1 s2 -> same_blocks s2 s3 -> same_blocks s1 s3.
Proof. unfold same_blocks. congruence. Qed.

Lemma same_world_refl s : same_world s s.
Proof. reflexivity. Qed.

Lemma same_world_trans s1 s2 s3 :
  same_world s1 s2 -> same_world s2 s3 -> same_world s1 s3.
Proof. unfold same_world. congruence. Qed.

#[local] Hint Resolve same_threshold_refl same_threshold_trans
  same_world_refl same_world_trans same_blocks_refl same_blocks_trans : keeps.

Lemma keeps_on_memory (R : State -> State -> Prop) (f : Memory -> Memory) :
  (forall m w, R (MkState m w) (MkState (f m) w)) -> keeps R (on_memory f).
Proof.
  intros H [m w] r s' E. unfold on_memory, modify in E. inversion E; subst. apply H.
Qed.

Lemma keeps_on_world (R : State -> State -> Prop) (f : World -> World) :
  (forall m w, R (MkState m w) (MkState m (f w))) -> keeps R (on_world f).
Proof.
  intros H [m w] r s' E. unfold on_world, modify in E. inversion E; subst. apply H.
Qed.

Lemma keeps_the_memory (R : State -> State -> Prop) :
  (forall s, R s s) -> keeps R the_memory.
Proof. intros H s r s' E. inversion E; subst. apply H. Qed.

#[local] Hint Resolve keeps_the_memory : keeps.

(** Goals [keeps R c] by the structure of [c]. *)
Ltac keeps_tac :=
  repeat first
    [ progress intros
    | apply keeps_ret | apply keeps_raise | apply keeps_lift | apply keeps_the_memory
    | apply keeps_bind | apply keeps_attempt | apply keeps_for_each
    | apply keeps_on_memory | apply keeps_on_world
    | match goal with
      | |- keeps _ (if ?b then _ else _) => destruct b
      | |- keeps _ (match ?x with _ => _ end) => destruct x
      end
    | solve [eauto with keeps]
    | solve [split; reflexivity]
    | reflexivity ].

Section MemoryFacts.

Variable json_loads : string -> result pyval.
Variable py_hash : string -> Z.
Variable completion : nat -> string -> result Reply.

Lemma request_same_memory prompt : keeps same_memory (request completion prompt).
Proof. intros s r s' E. unfold request in E. inversion E; subst. reflexivity. Qed.

Lemma request_same_history prompt : keeps same_history (request completion prompt).
Proof.
  intros s r s' E. apply same_memory_history. eapply request_same_memory; eassumption.
Qed.

Lemma bump_failed_same_history k : keeps same_history (bump_failed k).
Proof. unfold bump_failed. keeps_tac. Qed.

Lemma bump_failed_same_world k : keeps same_world (bump_failed k).
Proof. unfold bump_failed. keeps_tac. Qed.

Lemma bump_failed_same_blocks k : keeps same_blocks (bump_failed k).
Proof. unfold bump_failed. keeps_tac. Qed.

Lemma extract_key_facts_same_blocks step :
  keeps same_blocks (_extract_key_facts py_hash step).
Proof. unfold _extract_key_facts, set_fact. keeps_tac. Qed.

Lemma track_failure_same_blocks step : keeps same_blocks (track_failure step).
Proof. pose proof bump_failed_same_blocks. unfold track_failure. keeps_tac. Qed.

Lemma compress_store_same_history response : keeps same_history (compress_store json_loads response).
Proof.
  pose proof bump_failed_same_history.
  unfold compress_store, append_block. keeps_tac.
Qed.

Lemma compress_except_same_history e response :
  keeps same_history (compress_except e response).
Proof. unfold compress_except, append_block. keeps_tac. Qed.

Lemma compress_attempt_same_history prompt :
  keeps same_history (compress_attempt json_loads completion prompt).
Proof.
  pose proof request_same_history. pose proof compress_store_same_history.
  pose proof compress_except_same_history.
  unfold compress_attempt. keeps_tac.
Qed.

Lemma extract_key_facts_same_history step :
  keeps same_history (_extract_key_facts py_hash step).
Proof. unfold _extract_key_facts, set_fact. keeps_tac. Qed.

Lemma extract_key_facts_same_world step :
  keeps same_world (_extract_key_facts py_hash step).
Proof. unfold _extract_key_facts, set_fact. keeps_tac. Qed.

Lemma track_failure_same_history step : keeps same_history (track_failure step).
Proof. pose proof bump_failed_same_history. unfold track_failure. keeps_tac. Qed.

Lemma track_failure_same_world step : keeps same_world (track_failure step).
Proof. pose proof bump_failed_same_world. unfold track_failure. keeps_tac. Qed.

Lemma dict_get_set {V} (k : string) (v : V) (d : list (string * V)) :
  Dict.get k (Dict.set k v d) = Some v.
Proof.
  induction d as [| [k' v'] d IH]; simpl.
  - rewrite String.eqb_refl. reflexivity.
  - destruct (String.eqb k k') eqn:E; simpl.
    + rewrite String.eqb_refl. reflexivity.
    + rewrite E. exact IH.
Qed.

Lemma for_each_bump_failed_frame items s r s' :
  for_each items bump_failed s = (r, s') ->
  same_history s s' /\ world s' = world s
  /\ compressed_memory (memory s') = compressed_memory (memory s).
Proof.
  intros E. repeat split.
  - eapply (keeps_for_each same_history same_history_refl same_history_trans);
      [apply bump_failed_same_history | exact E].
  - eapply (keeps_for_each same_history same_history_refl same_history_trans);
      [apply bump_failed_same_history | exact E].
  - eapply (keeps_for_each same_world same_world_refl same_world_trans);
      [apply bump_failed_same_world | exact E].
  - eapply (keeps_for_each same_blocks same_blocks_refl same_blocks_trans);
      [apply bump_failed_same_blocks | exact E].
Qed.

(** What the body of the [try] does to the blocks: it appends at most the
    parsed object, stamped with the length of the history, and it has
    appended it if it ends normally. *)
Lemma compress_store_inv response s r s' :
  compress_store json_loads response s = (r, s') ->
  same_history s s' /\ world s' = world s
  /\ exists new,
       compressed_memory (memory s') = (compressed_memory (memory s) ++ new)%list
       /\ Forall (stamped (history_len (memory s))) new
       /\ (r = Ok tt -> new <> []).
Proof.
  assert (forall e, same_history s s /\ world s = world s
            /\ exists new,
                 compressed_memory (memory s) = (compressed_memory (memory s) ++ new)%list
                 /\ Forall (stamped (history_len (memory s))) new
                 /\ (@Raise unit e = Ok tt -> new <> [])) as Nothing.
  { intros e. split; [apply same_history_refl |]. split; [reflexivity |].
    exists []. rewrite app_nil_r. repeat split; [constructor | discriminate]. }
  intros E. unfold compress_store in E.
  apply bind_lift_inv in E as [(json_str & _ & E) | (e & _ & -> & ->)]; [| apply Nothing].
  apply bind_lift_inv in E as [(compressed_data & _ & E) | (e & _ & -> & ->)]; [| apply Nothing].
  apply bind_lift_inv in E as [(attempts & _ & E) | (e & _ & -> & ->)]; [| apply Nothing].
  apply bind_lift_inv in E as [(items & _ & E) | (e & _ & -> & ->)]; [| apply Nothing].
  apply bind_inv in E as [([] & s2 & E2 & E) | (e & E2 & ->)].
  2:{ destruct (for_each_bump_failed_frame _ _ _ _ E2) as (H2 & W2 & B2).
      split; [exact H2 |]. split; [exact W2 |].
      exists []. rewrite app_nil_r. repeat split; [exact B2 | constructor | discriminate]. }
  destruct (for_each_bump_failed_frame _ _ _ _ E2) as ([H2 T2] & W2 & B2). clear E2.
  assert (history_len (memory s2) = history_len (memory s)) as L2
      by (unfold history_len; rewrite H2; reflexivity).
  destruct compressed_data as [| b | z | t | l | d];
    try (unfold raise in E; inversion E; subst;
         split; [split; assumption |]; split; [exact W2 |];
         exists []; rewrite app_nil_r;
         repeat split; [exact B2 | constructor | discriminate]).
  apply bind_inv in E as [(m & s3 & E3 & E) | (e & E3 & _)];
    unfold the_memory in E3; inversion E3; subst m s3. clear E3.
  apply bind_inv in E as [([] & s3 & E3 & E) | (e & E3 & _)];
    unfold append_block, on_memory, modify in E3; inversion E3; subst s3. clear E3.
  assert (s' = MkState
                 (with_compressed_memory
                    (compressed_memory (memory s2)
                     ++ [Dict.set "source_steps" (VInt (history_len (memory s2))) d])%list
                    (memory s2)) (world s2)) as ->.
  { unfold bind, lift, ret in E.
    destruct (Py.getitem _ "key_findings") as [findings | e]; [| inversion E; reflexivity].
    destruct (Py.len findings); inversion E; reflexivity. }
  simpl. split; [split; assumption |]. split; [exact W2 |].
  eexists. split; [rewrite B2; reflexivity |]. split.
  - constructor; [| constructor]. unfold stamped. rewrite <- L2. apply dict_get_set.
  - intros _. discriminate.
Qed.

(** What an [except] clause that ends normally does to the blocks: it
    appends one block, stamped with the length of the history. *)
Lemma compress_except_inv e response s x s' :
  compress_except e response s = (Ok x, s') ->
  same_history s s' /\ world s' = world s
  /\ exists b,
       compressed_memory (memory s') = (compressed_memory (memory s) ++ [b])%list
       /\ stamped (history_len (memory s)) b.
Proof.
  intros E. unfold compress_except in E.
  unfold bind, the_memory, append_block, on_memory, modify, lift in E.
  destruct (exn_class_eqb (exn_cls e) JSONDecodeError || exn_class_eqb (exn_cls e) KeyError)%bool.
  - destruct (match response with
              | Some r => content_strip r
              | None => Ok "Compression failed"
              end) as [fallback | e']; [| discriminate].
    inversion E; subst. simpl.
    split; [split; reflexivity |]. split; [reflexivity |].
    eexists. split; reflexivity.
  - inversion E; subst. simpl.
    split; [split; reflexivity |]. split; [reflexivity |].
    eexists. split; reflexivity.
Qed.

(** The [try] statement, when it ends normally: one request, and one or two
    new blocks, each stamped with the length of the history. *)
Lemma compress_attempt_inv prompt s s' :
  compress_attempt json_loads completion prompt s = (Ok tt, s') ->
  same_history s s'
  /\ sent (world s') = Utils.optimize_text prompt :: sent (world s)
  /\ exists new,
       new <> []
       /\ compressed_memory (memory s') = (compressed_memory (memory s) ++ new)%list
       /\ Forall (stamped (history_len (memory s))) new.
Proof.
  intros E. unfold compress_attempt in E.
  apply bind_inv in E as [(r & s1 & E1 & E) | (e & E1 & D)]; [| discriminate].
  unfold attempt, request in E1. inversion E1; subst r s1. clear E1.
  set (s1 := MkState (memory s)
                     (with_sent (Utils.optimize_text prompt :: sent (world s)) (world s))) in *.
  destruct (completion (List.length (sent (world s))) (Utils.optimize_text prompt))
    as [response | e].
  - apply bind_inv in E as [(r & s2 & E2 & E) | (e & E2 & D)]; [| discriminate].
    unfold attempt in E2.
    destruct (compress_store json_loads response s1) as [r' s2'] eqn:Es.
    inversion E2; subst r s2'. clear E2.
    destruct (compress_store_inv _ _ _ _ Es) as ([H2 T2] & W2 & new & B2 & F2 & N2).
    clear Es. subst s1. cbn [memory world] in *.
    destruct r' as [[] | e].
    + unfold ret in E. inversion E; subst s'.
      split; [split; assumption |]. split; [rewrite W2; reflexivity |].
      exists new. repeat split; [apply N2; reflexivity | exact B2 | exact F2].
    + destruct (compress_except_inv _ _ _ _ _ E) as ([H3 T3] & W3 & b & B3 & S3).
      split; [split; congruence |]. split; [rewrite W3, W2; reflexivity |].
      exists (new ++ [b])%list. repeat split.
      * intros D. apply app_eq_nil in D as [_ D]. discriminate.
      * rewrite B3, B2, <- app_assoc. reflexivity.
      * apply Forall_app. split; [exact F2 |]. constructor; [| constructor].
        unfold history_len in *. rewrite H2 in S3. exact S3.
  - destruct (compress_except_inv _ _ _ _ _ E) as ([H3 T3] & W3 & b & B3 & S3).
    subst s1. cbn [memory world] in *.
    split; [split; assumption |]. split; [rewrite W3; reflexivity |].
    exists [b]. repeat split; [discriminate | exact B3 |].
    constructor; [exact S3 | constructor].
Qed.

(** What a call of [compress_memory] on a history that is not empty does
    to the history. *)
Lemma compress_memory_history s r s' :
  history (memory s) <> [] ->
  compress_memory json_loads completion s = (r, s') ->
  same_threshold s s'
  /\ (r = Ok tt ->
      history (memory s')
      = last_n (Z.min 4 (history_len (memory s))) (history (memory s)))
  /\ (forall e, r = Raise e -> history (memory s') = history (memory s)).
Proof.
  intros Hne E. unfold compress_memory in E.
  apply bind_inv in E as [(m & s1 & E1 & E) | (e & E1 & _)]; [| discriminate].
  unfold the_memory in E1. inversion E1; subst m s1. clear E1.
  destruct (history (memory s)) as [| h0 hs] eqn:Hh; [congruence |].
  rewrite <- Hh in *. clear Hne.
  apply bind_inv in E as [(prompt & s1 & E1 & E) | (e & E1 & ->)].
  - unfold lift in E1. inversion E1; subst s1. clear E1.
    apply bind_inv in E as [([] & s2 & E2 & E) | (e & E2 & ->)].
    + destruct (compress_attempt_same_history _ _ _ _ E2) as [H2 T2].
      unfold on_memory, modify in E. inversion E; subst r s'. simpl.
      repeat split; try discriminate.
      * unfold same_threshold. simpl. exact T2.
      * intros _. unfold history_len. rewrite H2. reflexivity.
    + destruct (compress_attempt_same_history _ _ _ _ E2) as [H2 T2].
      repeat split; try discriminate; try assumption.
      intros _ _. exact H2.
  - unfold lift in E1. inversion E1; subst s'.
    repeat split; try discriminate; reflexivity.
Qed.

Lemma compress_memory_same_threshold :
  keeps same_threshold (compress_memory json_loads completion).
Proof.
  intros s r s' E.
  destruct (history (memory s)) as [| h0 hs] eqn:Hh.
  - unfold compress_memory in E. unfold bind, the_memory in E. rewrite Hh in E.
    inversion E; subst. reflexivity.
  - eapply compress_memory_history; [| eassumption]. congruence.
Qed.

(** After a compaction that returns, at most four records are left. *)
Lemma compress_memory_length s s' :
  compress_memory json_loads completion s = (Ok tt, s') ->
  history_len (memory s') <= 4.
Proof.
  intros E. destruct (history (memory s)) as [| h0 hs] eqn:Hh.
  - unfold compress_memory in E. unfold bind, the_memory in E. rewrite Hh in E.
    inversion E; subst. unfold history_len. rewrite Hh. simpl. lia.
  - assert (history (memory s) <> []) as Hne by congruence.
    destruct (compress_memory_history _ _ _ Hne E) as (_ & H & _).
    unfold history_len at 1. rewrite (H eq_refl). unfold history_len.
    assert (0 < Z.of_nat (List.length (history (memory s)))) by (rewrite Hh; simpl; lia).
    rewrite length_last_n by lia. lia.
Qed.

(** The three ways a call of [add_step] can go, from the state [s3] in
    which the record has been appended and the facts and counters
    updated. *)
Lemma add_step_inv step s r s' :
  add_step json_loads py_hash completion step s = (r, s') ->
  exists s3,
    history (memory s3) = (history (memory s) ++ [step])%list
    /\ same_threshold s s3 /\ world s3 = world s /\ same_blocks s s3
    /\ ((exists e, r = Raise e /\ s' = s3)
        \/ (compression_threshold (memory s) <= history_len (memory s) + 1
            /\ compress_memory json_loads completion s3 = (r, s'))
        \/ (history_len (memory s) + 1 < compression_threshold (memory s)
            /\ r = Ok tt /\ s' = s3)).
Proof.
  intros E. unfold add_step in E.
  apply bind_inv in E as [([] & s1 & E1 & E) | (e & E1 & _)];
    [| unfold on_memory, modify in E1; discriminate].
  assert (history (memory s1) = (history (memory s) ++ [step])%list
          /\ same_threshold s s1 /\ world s1 = world s /\ same_blocks s s1)
    as (H1 & T1 & W1 & B1).
  { unfold on_memory, modify in E1. inversion E1; subst s1. simpl. repeat split. }
  clear E1.
  apply bind_inv in E as [([] & s2 & E2 & E) | (e & E2 & ->)].
  2:{ destruct (extract_key_facts_same_history _ _ _ _ E2) as [H2 T2].
      pose proof (extract_key_facts_same_world _ _ _ _ E2) as W2.
      pose proof (extract_key_facts_same_blocks _ _ _ _ E2) as B2.
      unfold same_threshold, same_world, same_blocks in *.
      exists s'. repeat split; try congruence. left. eauto. }
  destruct (extract_key_facts_same_history _ _ _ _ E2) as [H2 T2].
  pose proof (extract_key_facts_same_world _ _ _ _ E2) as W2.
  pose proof (extract_key_facts_same_blocks _ _ _ _ E2) as B2. clear E2.
  apply bind_inv in E as [([] & s3 & E3 & E) | (e & E3 & ->)].
  2:{ destruct (track_failure_same_history _ _ _ _ E3) as [H3 T3].
      pose proof (track_failure_same_world _ _ _ _ E3) as W3.
      pose proof (track_failure_same_blocks _ _ _ _ E3) as B3.
      unfold same_threshold, same_world, same_blocks in *.
      exists s'. repeat split; try congruence. left. eauto. }
  destruct (track_failure_same_history _ _ _ _ E3) as [H3 T3].
  pose proof (track_failure_same_world _ _ _ _ E3) as W3.
  pose proof (track_failure_same_blocks _ _ _ _ E3) as B3. clear E3.
  unfold same_threshold, same_world, same_blocks in *.
  assert (history_len (memory s3) = history_len (memory s) + 1) as L3.
  { unfold history_len. rewrite H3, H2, H1, length_app. simpl. lia. }
  exists s3. repeat split; try congruence.
  unfold bind, the_memory in E.
  rewrite L3 in E. replace (compression_threshold (memory s3))
    with (compression_threshold (memory s)) in E by congruence.
  destruct (compression_threshold (memory s) <=? history_len (memory s) + 1) eqn:C.
  - apply Z.leb_le in C. right. left. split; assumption.
  - apply Z.leb_gt in C. right. right. inversion E; subst. repeat split. exact C.
Qed.

Lemma add_step_same_threshold step :
  keeps same_threshold (add_step json_loads py_hash completion step).
Proof.
  intros s r s' E.
  destruct (add_step_inv _ _ _ _ E)
    as (s3 & _ & T3 & _ & _ & [(e & _ & ->) | [(_ & C) | (_ & _ & ->)]]);
    try exact T3.
  eapply same_threshold_trans; [exact T3 |].
  eapply compress_memory_same_threshold; eassumption.
Qed.

(** However a call of [add_step] ends, the record is the last one of the
    history after it. *)
Lemma add_step_appends step s r s' :
  add_step json_loads py_hash completion step s = (r, s') ->
  exists h, history (memory s') = (h ++ [step])%list.
Proof.
  intros E.
  destruct (add_step_inv _ _ _ _ E)
    as (s3 & H3 & _ & _ & _ & [(e & _ & ->) | [(_ & Ec) | (_ & _ & ->)]]);
    try (eexists; exact H3).
  assert (history (memory s3) <> []) as Hne.
  { rewrite H3. intros D. apply app_eq_nil in D as [_ D]. discriminate. }
  destruct (compress_memory_history _ _ _ Hne Ec) as (_ & Hok & Hraise).
  destruct r as [[] | e].
  - rewrite (Hok eq_refl), H3. apply last_n_snoc.
    unfold history_len. rewrite H3, length_app. simpl. lia.
  - rewrite (Hraise e eq_refl). eexists; exact H3.
Qed.

Lemma for_each_app {S A} (l1 l2 : list A) (body : A -> M S unit) s :
  for_each (l1 ++ l2) body s = bind (for_each l1 body) (fun _ => for_each l2 body) s.
Proof.
  revert s. induction l1 as [| x l1 IH]; intros s; simpl.
  - reflexivity.
  - unfold bind in *. destruct (body x s) as [[[] | e] s1].
    + apply IH.
    + reflexivity.
Qed.

(** A compaction that returns, on a history that is not empty: the prompt
    was built, one request was sent with it, and one or two blocks were
    appended, each stamped with the length the history had. *)
Lemma compress_memory_inv s s' :
  history (memory s) <> [] ->
  compress_memory json_loads completion s = (Ok tt, s') ->
  exists prompt,
    compress_prompt (memory s) = Ok prompt
    /\ sent (world s') = Utils.optimize_text prompt :: sent (world s)
    /\ exists new,
         new <> []
         /\ compressed_memory (memory s') = (compressed_memory (memory s) ++ new)%list
         /\ Forall (stamped (history_len (memory s))) new.
Proof.
  intros Hne E. unfold compress_memory in E.
  apply bind_inv in E as [(m & s1 & E1 & E) | (e & _ & D)]; [| discriminate].
  unfold the_memory in E1. inversion E1; subst m s1. clear E1.
  destruct (history (memory s)) as [| h0 hs] eqn:Hh; [congruence |].
  apply bind_lift_inv in E as [(prompt & Hp & E) | (e & _ & D & _)]; [| discriminate].
  apply bind_inv in E as [([] & s2 & E2 & E) | (e & _ & D)]; [| discriminate].
  destruct (compress_attempt_inv _ _ _ E2) as (_ & W2 & new & N & B & F).
  unfold on_memory, modify in E. inversion E; subst s'. cbn [memory world].
  exists prompt. split; [exact Hp |]. split; [exact W2 |].
  exists new. repeat split; assumption.
Qed.

(** Steps added while the history stays below the threshold pile up in the
    history; no request is sent and no block is appended. *)
Lemma add_steps_below steps s s' :
  history_len (memory s) + Z.of_nat (List.length steps) < compression_threshold (memory s) ->
  for_each steps (add_step json_loads py_hash completion) s = (Ok tt, s') ->
  history (memory s') = (history (memory s) ++ steps)%list
  /\ world s' = world s
  /\ compressed_memory (memory s') = compressed_memory (memory s)
  /\ compression_threshold (memory s') = compression_threshold (memory s).
Proof.
  revert s. induction steps as [| step steps IH]; intros s Hlen E.
  - simpl in E. inversion E; subst. rewrite app_nil_r. repeat split.
  - simpl in E. simpl List.length in Hlen.
    apply bind_inv in E as [([] & s1 & E1 & E) | (e & _ & D)]; [| discriminate].
    destruct (add_step_inv _ _ _ _ E1)
      as (s3 & H3 & T3 & W3 & B3 & [(e & D & _) | [(C & _) | (_ & _ & ->)]]);
      [discriminate | lia |].
    unfold same_threshold, same_blocks in *.
    assert (history_len (memory s3) = history_len (memory s) + 1) as L3.
    { unfold history_len. rewrite H3, length_app. simpl. lia. }
    destruct (IH s3) as (H & W & B & T); [rewrite L3, T3; lia | exact E |].
    repeat split; try congruence.
    rewrite H, H3, <- app_assoc. reflexivity.
Qed.

End MemoryFacts.

Lemma repeat_shift {A} (x : A) (n : nat) (l : list A) :
  (repeat x n ++ x :: l)%list = (repeat x (S n) ++ l)%list.
Proof.
  change (repeat x (S n)) with (x :: repeat x n).
  rewrite repeat_cons, <- app_assoc. reflexivity.
Qed.

Section RepairFacts.

Variable json_loads : string -> result pyval.
Variable completion : nat -> string -> result Reply.

(** C9: whenever [fix_json_with_llm] returns, the text it returns parses
    as JSON.  It got there by submitting the same prompt, made of the
    malformed text and the error, to the model once or more: every reply
    before the last one failed to parse, and the text returned is the
    content of the last reply.  Nothing but the list of requests
    changes. *)
Theorem fix_json_returns_valid_json fuel json_str err_content s fixed s' :
  fix_json_with_llm json_loads completion fuel json_str err_content s
  = (Ok (Some fixed), s') ->
  is_ok (json_loads fixed) = true
  /\ memory s' = memory s
  /\ exists k,
       sent (world s')
       = (repeat (repair_prompt json_str err_content) (S k) ++ sent (world s))%list
       /\ (exists r, completion (List.length (sent (world s)) + k)%nat
                                (repair_prompt json_str err_content) = Ok r
                     /\ msg_content r = Some fixed)
       /\ (forall i, (i < k)%nat ->
             exists r, completion (List.length (sent (world s)) + i)%nat
                                  (repair_prompt json_str err_content) = Ok r
                       /\ rejected json_loads r).
Proof.
  unfold fix_json_with_llm.
  generalize (repair_prompt json_str err_content) as prompt. intros prompt.
  revert s. induction fuel as [| fuel IH]; intros s E; simpl in E.
  - discriminate.
  - unfold bind, request in E. simpl in E.
    destruct (completion (List.length (sent (world s))) prompt) as [reply | e] eqn:C;
      [| discriminate].
    assert (forall t,
               fix_json_loop json_loads completion fuel prompt
                 (MkState (memory s) (with_sent (prompt :: sent (world s)) (world s)))
               = (Ok (Some fixed), t) -> rejected json_loads reply ->
               t = s' ->
               is_ok (json_loads fixed) = true /\ memory s' = memory s /\
               exists k,
                 sent (world s') = (repeat prompt (S k) ++ sent (world s))%list
                 /\ (exists r, completion (List.length (sent (world s)) + k)%nat prompt = Ok r
                               /\ msg_content r = Some fixed)
                 /\ (forall i, (i < k)%nat ->
                       exists r, completion (List.length (sent (world s)) + i)%nat prompt = Ok r
                                 /\ rejected json_loads r)) as Again.
    { intros t Et Hrej ->. apply IH in Et as (V & Mem & k & Hs & (r & Hr & Hc) & Hbefore).
      simpl in *. split; [exact V |]. split; [exact Mem |].
      exists (S k). split; [| split].
      - rewrite Hs. apply (repeat_shift prompt (S k)).
      - exists r. split; [| exact Hc]. rewrite <- Hr. f_equal. lia.
      - intros [| i] Hi.
        + exists reply. split; [| exact Hrej]. rewrite <- C. f_equal. lia.
        + destruct (Hbefore i ltac:(lia)) as (r' & Hr' & Hrej').
          exists r'. split; [| exact Hrej']. rewrite <- Hr'. f_equal. lia. }
    destruct (msg_content reply) as [text |] eqn:Ct.
    + destruct (json_loads text) as [v | e] eqn:J.
      * unfold finish, ret in E. inversion E; subst fixed s'. simpl.
        split; [rewrite J; reflexivity |]. split; [reflexivity |].
        exists 0%nat. split; [reflexivity |]. split.
        -- exists reply. split; [| exact Ct]. rewrite <- C. f_equal. lia.
        -- intros i Hi. lia.
      * eapply Again; [exact E | | reflexivity].
        unfold rejected. rewrite Ct, J. reflexivity.
    + eapply Again; [exact E | | reflexivity].
      unfold rejected. rewrite Ct. exact I.
Qed.

(** The loop does return: if the model answers [k] times with something
    that is rejected and then with a text that parses, any fuel above [k]
    yields that text. *)
Lemma fix_json_returns k json_str err_content s reply fixed :
  (forall i, (i < k)%nat ->
     exists r, completion (List.length (sent (world s)) + i)%nat
                          (repair_prompt json_str err_content) = Ok r
               /\ rejected json_loads r) ->
  completion (List.length (sent (world s)) + k)%nat
             (repair_prompt json_str err_content) = Ok reply ->
  msg_content reply = Some fixed ->
  is_ok (json_loads fixed) = true ->
  forall fuel, (k < fuel)%nat ->
    fst (fix_json_with_llm json_loads completion fuel json_str err_content s)
    = Ok (Some fixed).
Proof.
  unfold fix_json_with_llm. set (prompt := repair_prompt json_str err_content).
  revert s. induction k as [| k IH]; intros s Hbefore Hk Hc Hv fuel Hfuel.
  - destruct fuel as [| fuel]; [lia |]. simpl.
    unfold bind, request. simpl.
    replace (List.length (sent (world s)) + 0)%nat
      with (List.length (sent (world s))) in Hk by lia.
    rewrite Hk, Hc. destruct (json_loads fixed); [reflexivity | discriminate].
  - destruct fuel as [| fuel]; [lia |]. simpl.
    unfold bind, request. simpl.
    destruct (Hbefore 0%nat ltac:(lia)) as (r0 & Hr0 & Hrej).
    replace (List.length (sent (world s)) + 0)%nat
      with (List.length (sent (world s))) in Hr0 by lia.
    rewrite Hr0.
    assert (fst (fix_json_loop json_loads completion fuel prompt
                   (MkState (memory s) (with_sent (prompt :: sent (world s)) (world s))))
            = Ok (Some fixed)) as Next.
    { apply IH; simpl; try assumption; try lia.
      - intros i Hi. destruct (Hbefore (S i) ltac:(lia)) as (r & Hr & Hj).
        exists r. split; [| exact Hj]. rewrite <- Hr. f_equal. lia.
      - rewrite <- Hk. f_equal. lia. }
    unfold rejected in Hrej. destruct (msg_content r0) as [text |].
    + destruct (json_loads text); [discriminate | exact Next].
    + exact Next.
Qed.

End RepairFacts.

Section CompactionFacts.

Variable json_loads : string -> result pyval.
Variable py_hash : string -> Z.
Variable completion : nat -> string -> result Reply.

(** C10: on an empty history [compress_memory] returns at once and leaves
    the whole state as it was: no request goes to the model, no block is
    appended, and the history, the key facts, the failure counters and the
    blocks are unchanged. *)
Theorem compress_memory_empty_noop s :
  history (memory s) = [] ->
  compress_memory json_loads completion s = (Ok tt, s).
Proof.
  intros H. unfold compress_memory, bind, the_memory. rewrite H. reflexivity.
Qed.

(** C4, for a threshold of at least 4: in any sequence of calls of
    [add_step] that return, the last call appends its record (state [s2]),
    and then either the length is still below the threshold and nothing
    else happens, or the length has reached the threshold and
    [compress_memory] runs within that call and leaves at most 4 records;
    either way the length after the call does not exceed the threshold.
    And whenever [compress_memory] returns, at most 4 records are left. *)
Theorem add_step_compaction_bound (pre : list pydict) (step : pydict) (s s' : State) :
  4 <= compression_threshold (memory s) ->
  for_each (pre ++ [step])%list (add_step json_loads py_hash completion) s = (Ok tt, s') ->
  (exists s1 s2,
     for_each pre (add_step json_loads py_hash completion) s = (Ok tt, s1)
     /\ history (memory s2) = (history (memory s1) ++ [step])%list
     /\ world s2 = world s1
     /\ (if compression_threshold (memory s) <=? history_len (memory s1) + 1
         then compress_memory json_loads completion s2 = (Ok tt, s')
              /\ history_len (memory s') <= 4
         else s' = s2))
  /\ compression_threshold (memory s') = compression_threshold (memory s)
  /\ history_len (memory s') <= compression_threshold (memory s)
  /\ (forall t t', compress_memory json_loads completion t = (Ok tt, t') ->
                   history_len (memory t') <= 4).
Proof.
  intros Hthr E. rewrite for_each_app in E.
  apply bind_inv in E as [([] & s1 & E1 & E) | (e & _ & D)]; [| discriminate].
  simpl in E.
  apply bind_inv in E as [([] & s1' & E2 & E) | (e & _ & D)]; [| discriminate].
  unfold ret in E. inversion E; subst s1'. clear E.
  assert (compression_threshold (memory s1) = compression_threshold (memory s)) as T1.
  { eapply (keeps_for_each same_threshold same_threshold_refl same_threshold_trans);
      [| exact E1].
    intros a. apply add_step_same_threshold. }
  pose proof (add_step_same_threshold _ _ _ _ _ _ _ E2) as T2.
  unfold same_threshold in T2.
  destruct (add_step_inv _ _ _ _ _ _ _ E2)
    as (s3 & H3 & T3 & W3 & _ & [(e & D & _) | [(C & Ec) | (C & _ & ->)]]);
    [discriminate | |].
  - pose proof (compress_memory_length _ _ _ _ Ec) as L.
    repeat split; try congruence; try lia.
    + exists s1, s3. repeat split; try assumption.
      rewrite <- T1. apply Z.leb_le in C. rewrite C. split; assumption.
    + intros t t'. apply compress_memory_length.
  - assert (history_len (memory s3) = history_len (memory s1) + 1) as L3.
    { unfold history_len. rewrite H3, length_app. simpl. lia. }
    repeat split; try congruence; try lia.
    + exists s1, s3. repeat split; try assumption.
      rewrite <- T1. apply Z.ltb_lt in C. rewrite Z.leb_antisym, C. reflexivity.
    + intros t t'. apply compress_memory_length.
Qed.

(** C7, as the code has it: a compaction that returns on a history that
    is not empty has built a prompt that shows the last five key facts and
    the purpose, command and analysis text of the last
    [compression_threshold] records of the history, which are all the
    records when the history is no longer than the threshold; it has sent
    one request with that prompt; and each block it has appended (one, or
    two) records as [source_steps] the length the history had.  In
    particular, when five calls of [add_step] on a new memory with a
    threshold of 5 all return, the first four send nothing and append no
    block, and the fifth sends one request and leaves blocks that all record
    5 source steps. *)
Theorem compress_memory_prompt_and_stamp s s' :
  history (memory s) <> [] ->
  compress_memory json_loads completion s = (Ok tt, s') ->
  (exists prompt,
     compress_prompt (memory s) = Ok prompt
     /\ sent (world s') = Utils.optimize_text prompt :: sent (world s)
     /\ (forall fact, In fact (last_n 5 (key_facts (memory s))) ->
                      Str.contains (fact_line fact) prompt = true)
     /\ (forall step,
           In step (last_n (compression_threshold (memory s)) (history (memory s))) ->
           embeds_step step prompt)
     /\ (history_len (memory s) <= compression_threshold (memory s) ->
         forall step, In step (history (memory s)) -> embeds_step step prompt))
  /\ (exists new,
        new <> []
        /\ compressed_memory (memory s') = (compressed_memory (memory s) ++ new)%list
        /\ Forall (stamped (history_len (memory s))) new)
  /\ (forall a b c d e max_steps w t,
        for_each [a; b; c; d; e] (add_step json_loads py_hash completion)
                 (MkState (Memory_init max_steps 5) w) = (Ok tt, t) ->
        exists s4,
          for_each [a; b; c; d] (add_step json_loads py_hash completion)
                   (MkState (Memory_init max_steps 5) w) = (Ok tt, s4)
          /\ world s4 = w
          /\ compressed_memory (memory s4) = []
          /\ (exists prompt, sent (world t) = Utils.optimize_text prompt :: sent w)
          /\ compressed_memory (memory t) <> []
          /\ Forall (stamped 5) (compressed_memory (memory t))).
Proof.
  intros Hne E.
  destruct (compress_memory_inv _ _ _ _ Hne E) as (prompt & Hp & Hw & new & N & B & F).
  destruct (compress_prompt_embeds _ _ Hp) as [Hfacts Hsteps].
  split; [| split].
  - exists prompt. repeat split; try assumption.
    intros Hlen step Hin. apply Hsteps.
    rewrite last_n_all; [exact Hin | exact Hlen].
  - exists new. repeat split; assumption.
  - clear. intros a b c d e max_steps w t Et.
    change [a; b; c; d; e] with ([a; b; c; d] ++ [e])%list in Et.
    rewrite for_each_app in Et.
    apply bind_inv in Et as [([] & s4 & E4 & Et) | (x & _ & D)]; [| discriminate].
    simpl in Et.
    apply bind_inv in Et as [([] & s5 & E5 & Et) | (x & _ & D)]; [| discriminate].
    unfold ret in Et. inversion Et; subst s5. clear Et.
    assert (history_len (memory (MkState (Memory_init max_steps 5) w))
            + Z.of_nat (List.length [a; b; c; d])
            < compression_threshold (memory (MkState (Memory_init max_steps 5) w))) as Below
        by (vm_compute; reflexivity).
    destruct (add_steps_below _ _ _ _ _ _ Below E4) as (H4 & W4 & B4 & T4).
    cbn [memory world Memory_init history compressed_memory compression_threshold] in *.
    destruct (add_step_inv _ _ _ _ _ _ _ E5)
      as (s3 & H3 & T3 & W3 & B3 & [(x & D & _) | [(_ & Ec) | (C & _)]]);
      [discriminate | |].
    2:{ unfold history_len in C. rewrite H4, T4 in C. simpl in C. lia. }
    assert (history (memory s3) <> []) as Hne3.
    { rewrite H3. intros D. apply app_eq_nil in D as [_ D]. discriminate. }
    destruct (compress_memory_inv _ _ _ _ Hne3 Ec) as (prompt & _ & Hw & new & N & B & F).
    unfold same_blocks in B3.
    exists s4. repeat split; try assumption.
    + exists prompt. rewrite Hw, W3, W4. reflexivity.
    + rewrite B, B3, B4. simpl. exact N.
    + rewrite B, B3, B4. simpl.
      replace (history_len (memory s3)) with 5 in F; [exact F |].
      unfold history_len. rewrite H3, H4. reflexivity.
Qed.

End CompactionFacts.

(** C10 on a fresh memory. *)
Lemma compress_memory_empty_noop_witness :
  history (memory (Examples.start 5)) = []
  /\ compress_memory Examples.loads (Examples.says Examples.summary_text) (Examples.start 5)
     = (Ok tt, Examples.start 5).
Proof.
  split; [reflexivity |].
  apply (compress_memory_empty_noop Examples.loads (Examples.says Examples.summary_text)).
  reflexivity.
Defined.

(** C4 as stated fails for a threshold of 3: the six calls return, and
    after the fourth, the fifth and the sixth of them the history holds 4
    records, above the threshold three calls in a row. *)
Lemma add_step_bound_counterexample :
  let run := after_steps 3 Examples.summary_text in
  fst (run 6%nat) = Ok tt
  /\ compression_threshold (memory (snd (run 4%nat))) < history_len (memory (snd (run 4%nat)))
  /\ compression_threshold (memory (snd (run 5%nat))) < history_len (memory (snd (run 5%nat)))
  /\ compression_threshold (memory (snd (run 6%nat))) < history_len (memory (snd (run 6%nat))).
Proof. vm_compute. repeat split. Qed.

(** C4 on five steps and a threshold of 5. *)
Lemma add_step_compaction_bound_witness :
  let s' := snd (after_steps 5 Examples.summary_text 5) in
  4 <= compression_threshold (memory (Examples.start 5))
  /\ for_each (firstn 4 Examples.six_steps ++ [Examples.step_of 5 "env"])%list
              (add_step Examples.loads Examples.hash (Examples.says Examples.summary_text))
              (Examples.start 5) = (Ok tt, s')
  /\ history_len (memory s') <= compression_threshold (memory (Examples.start 5))
  /\ history_len (memory s') <= 4.
Proof.
  intros s'.
  assert (4 <= compression_threshold (memory (Examples.start 5))) as Hthr
      by (vm_compute; discriminate).
  assert (for_each (firstn 4 Examples.six_steps ++ [Examples.step_of 5 "env"])%list
            (add_step Examples.loads Examples.hash (Examples.says Examples.summary_text))
            (Examples.start 5) = (Ok tt, s')) as E by (vm_compute; reflexivity).
  split; [exact Hthr |]. split; [exact E |].
  pose proof (add_step_compaction_bound
                Examples.loads Examples.hash (Examples.says Examples.summary_text)
                (firstn 4 Examples.six_steps) (Examples.step_of 5 "env")
                (Examples.start 5) s' Hthr E) as (_ & _ & Hlen & Hfour).
  split; [exact Hlen |].
  vm_compute. discriminate.
Defined.

(** ** The turn *)

Section TurnFacts.

Variable json_loads : string -> result pyval.
Variable py_hash : string -> Z.
Variable completion : nat -> string -> result Reply.
Variable render_analysis : Z -> pyval -> string -> string -> string -> string.
Variable tools : string -> option (nat -> pyval -> result (string * string)).


(** C5, with the termination check that follows the flag check: in a
    turn whose analysis has [flag_found] true, the candidate goes to the
    confirmation callback.  If it is confirmed, the turn returns it and
    the memory is as before.  If it is turned down, [add_step] is called
    on the record of the turn, whose history then ends with that record;
    and when [add_step] returns, the loop goes on, unless the analysis
    also asks to terminate, in which case the turn returns the text of the
    early termination. *)
Theorem flag_check_outcomes (callback : nat -> pyval -> bool)
        step_count arguments content output analysis step s :
  Py.truthy (Dict.get_default "flag_found" (VBool false) analysis) = true ->
  step_record step_count arguments content output (VDict analysis) = Ok step ->
  let flag_candidate := Dict.get_default "flag" (VStr "") analysis in
  let turn := conclude json_loads py_hash completion (Some callback)
                       step_count arguments content output (VDict analysis) in
  if callback (List.length (confirmed (world s))) flag_candidate
  then turn s = (Ok (Return flag_candidate), asked flag_candidate s)
  else exists r s',
      add_step json_loads py_hash completion step (asked flag_candidate s) = (r, s')
      /\ (exists h, history (memory s') = (h ++ [step])%list)
      /\ turn s
         = (match r with
            | Ok _ =>
                Ok (if Py.truthy (Dict.get_default "terminate" (VBool false) analysis)
                    then Return (VStr "Flag not found: terminated early")
                    else Continue)
            | Raise e => Raise e
            end, s').
Proof.
  intros Hf Hs flag_candidate turn. subst turn.
  unfold conclude, bind, lift, confirm. simpl. rewrite Hf. simpl.
  fold flag_candidate.
  destruct (callback (List.length (confirmed (world s))) flag_candidate) eqn:Cb; simpl.
  - reflexivity.
  - rewrite Hs. fold (asked flag_candidate s).
    destruct (add_step json_loads py_hash completion step (asked flag_candidate s))
      as [r s'] eqn:Ea.
    exists r, s'. split; [reflexivity |]. split.
    + eapply add_step_appends. exact Ea.
    + destruct r as [[] | e]; [| reflexivity].
      destruct (Py.truthy (Dict.get_default "terminate" (VBool false) analysis));
        reflexivity.
Qed.

End TurnFacts.

(** C7 as stated fails for a threshold of 3: the fourth call of [add_step]
    compacts a history of four records, the first of which is the step
    [id], and neither the prompt sent by that call nor the prompt built by
    a further call of [compress_memory] on the four records that remain
    shows the command of that step. *)
Lemma compress_prompt_counterexample :
  let s3 := snd (after_steps 3 Examples.summary_text 3) in
  let s4 := snd (after_steps 3 Examples.summary_text 4) in
  hd_error (history (memory s3)) = Some (Examples.step_of 1 "id")
  /\ fst (after_steps 3 Examples.summary_text 4) = Ok tt
  /\ List.length (sent (world s4)) = S (List.length (sent (world s3)))
  /\ option_map (Str.contains "- Command: id") (hd_error (sent (world s4))) = Some false
  /\ option_map (Str.contains "- Command: ps") (hd_error (sent (world s4))) = Some true
  /\ hd_error (history (memory s4)) = Some (Examples.step_of 1 "id")
  /\ match compress_prompt (memory s4) with
     | Ok prompt => Str.contains "- Command: id" prompt
     | Raise _ => true
     end = false
  /\ fst (compress_memory Examples.loads (Examples.says Examples.summary_text) s4) = Ok tt.
Proof. vm_compute. repeat split. Qed.

(** C7 on a compaction of four records under a threshold of 5. *)
Lemma compress_memory_prompt_and_stamp_witness :
  let s := snd (after_steps 5 Examples.summary_text 4) in
  let s' := snd (compress_memory Examples.loads (Examples.says Examples.summary_text) s) in
  history (memory s) <> []
  /\ compress_memory Examples.loads (Examples.says Examples.summary_text) s = (Ok tt, s')
  /\ exists new,
       new <> []
       /\ compressed_memory (memory s') = (compressed_memory (memory s) ++ new)%list
       /\ Forall (stamped (history_len (memory s))) new.
Proof.
  intros s s'.
  assert (history (memory s) <> []) as Hne by (vm_compute; discriminate).
  assert (compress_memory Examples.loads (Examples.says Examples.summary_text) s
          = (Ok tt, s')) as E by (vm_compute; reflexivity).
  split; [exact Hne |]. split; [exact E |].
  exact (proj1 (proj2 (compress_memory_prompt_and_stamp
                         Examples.loads Examples.hash
                         (Examples.says Examples.summary_text) s s' Hne E))).
Defined.



(** C5 as stated fails when the analysis also asks to terminate: the
    candidate is turned down and the turn still ends the loop. *)
Lemma flag_rejected_counterexample :
  Py.get Examples.flag_and_stop "flag_found" (VBool false) = Ok (VBool true)
  /\ Examples.rejects 0 (VStr "flag{demo}") = false
  /\ fst (conclude Examples.loads Examples.hash (Examples.says Examples.summary_text)
                   (Some Examples.rejects) 1 curl_arguments (VStr "curl http://target/")
                   "flag{demo}" Examples.flag_and_stop (Examples.start 5))
     = Ok (Return (VStr "Flag not found: terminated early")).
Proof. vm_compute. repeat split. Qed.

(** C5 on a candidate that is turned down, with no request to terminate. *)
Lemma flag_check_outcomes_witness :
  Py.truthy (Dict.get_default "flag_found" (VBool false)
               [("analysis", VStr "the page prints the flag"); ("success", VBool true);
                ("flag_found", VBool true); ("flag", VStr "flag{demo}");
                ("terminate", VBool false)]) = true
  /\ step_record 1 curl_arguments (VStr "curl http://target/") "flag{demo}" Examples.flag_only
     = Ok (curl_record Examples.flag_only)
  /\ exists r s',
       add_step Examples.loads Examples.hash (Examples.says Examples.summary_text)
                (curl_record Examples.flag_only)
                (asked (VStr "flag{demo}") (Examples.start 5)) = (r, s')
       /\ (exists h, history (memory s') = (h ++ [curl_record Examples.flag_only])%list)
       /\ conclude Examples.loads Examples.hash (Examples.says Examples.summary_text)
                   (Some Examples.rejects) 1 curl_arguments (VStr "curl http://target/")
                   "flag{demo}" Examples.flag_only (Examples.start 5)
          = (match r with
             | Ok _ => Ok Continue
             | Raise e => Raise e
             end, s').
Proof.
  split; [reflexivity |]. split; [reflexivity |].
  exact (flag_check_outcomes
           Examples.loads Examples.hash (Examples.says Examples.summary_text)
           Examples.rejects 1 curl_arguments (VStr "curl http://target/") "flag{demo}"
           [("analysis", VStr "the page prints the flag"); ("success", VBool true);
            ("flag_found", VBool true); ("flag", VStr "flag{demo}");
            ("terminate", VBool false)]
           (curl_record Examples.flag_only) (Examples.start 5) eq_refl eq_refl).
Defined.

(** A repair that takes two requests: C9 on it. *)
Lemma fix_json_returns_valid_json_witness :
  fix_json_with_llm Examples.loads
    (Examples.script [Examples.text_reply Examples.quoted_arguments;
                      Examples.text_reply Examples.repaired_arguments])
    5 Examples.quoted_arguments "Expecting property name enclosed in double quotes"
    (Examples.start 5)
  = (Ok (Some Examples.repaired_arguments),
     MkState (Memory_init 10 5)
             (MkWorld
                (repeat (repair_prompt Examples.quoted_arguments
                           "Expecting property name enclosed in double quotes") 2)
                [] 0%nat [] []))
  /\ is_ok (Examples.loads Examples.repaired_arguments) = true.
Proof.
  assert (fix_json_with_llm Examples.loads
            (Examples.script [Examples.text_reply Examples.quoted_arguments;
                              Examples.text_reply Examples.repaired_arguments])
            5 Examples.quoted_arguments "Expecting property name enclosed in double quotes"
            (Examples.start 5)
          = (Ok (Some Examples.repaired_arguments),
             MkState (Memory_init 10 5)
                     (MkWorld
                        (repeat (repair_prompt Examples.quoted_arguments
                                   "Expecting property name enclosed in double quotes") 2)
                        [] 0%nat [] []))) as E.
  { vm_compute. reflexivity. }
  split; [exact E |].
  exact (proj1 (fix_json_returns_valid_json _ _ _ _ _ _ _ _ E)).
Defined.

(** ** The response normaliser and the generation loop *)

Lemma bindL_inv {S A B} (c : L S A) (k : A -> L S B) s v s' :
  bindL c k s = (Ok (Some v), s') ->
  exists a s1, c s = (Ok (Some a), s1) /\ k a s1 = (Ok (Some v), s').
Proof.
  unfold bindL. intros H.
  apply bind_inv in H as [(o & s1 & H1 & H) | (e & _ & D)]; [| discriminate].
  destruct o as [a |]; [eauto |]. unfold ret in H. discriminate.
Qed.

Lemma parse_finish_dict func_name args v :
  parse_finish func_name args = Ok v -> exists d, v = VDict d.
Proof.
  unfold parse_finish.
  destruct func_name as [f |]; cbn [rbind]; [| discriminate].
  destruct args as [a |]; cbn [rbind]; [| discriminate].
  destruct (Py.getitem a "purpose"); cbn [rbind]; [| discriminate].
  destruct (Py.getitem a "content"); cbn [rbind]; [| discriminate].
  intros H. apply Ok_inj in H. subst v. eexists. reflexivity.
Qed.

Lemma once_parse_finish_dict func_name args (s : State) v s' :
  once (lift (parse_finish func_name args)) s = (Ok (Some v), s') ->
  exists d, v = VDict d.
Proof.
  unfold once, bind, lift, ret.
  destruct (parse_finish func_name args) as [x | e] eqn:P; [| discriminate].
  intros H. inversion H; subst. eapply parse_finish_dict. exact P.
Qed.

Section NormalizerFacts.

Variable json_loads : string -> result pyval.
Variable completion : nat -> string -> result Reply.
Variable render_next : string -> string -> string -> string.

(** Whatever [parse_tool_response] returns is a dict: never [None]. *)
Lemma parse_tool_response_dict fuel response s v s' :
  parse_tool_response json_loads completion fuel response s = (Ok (Some v), s') ->
  exists d, v = VDict d.
Proof.
  unfold parse_tool_response. destruct (msg_tool_calls response) as [| tool_call rest].
  - intros H. apply bind_lift_inv in H as [(text & _ & H) | (e & _ & D & _)];
      [| discriminate].
    destruct (json_loads text) as [data | e].
    + apply bind_lift_inv in H as [(p & _ & H) | (e & _ & D & _)]; [| discriminate].
      eapply once_parse_finish_dict. exact H.
    + destruct (exn_class_eqb (exn_cls e) JSONDecodeError).
      * apply bindL_inv in H as (fixed & s1 & _ & H).
        apply bind_lift_inv in H as [(data & _ & H) | (e' & _ & D & _)]; [| discriminate].
        apply bind_lift_inv in H as [(p & _ & H) | (e' & _ & D & _)]; [| discriminate].
        eapply once_parse_finish_dict. exact H.
      * unfold finish, ret in H. inversion H; subst. eexists. reflexivity.
  - intros H. apply bindL_inv in H as (p & s1 & _ & H).
    eapply once_parse_finish_dict. exact H.
Qed.

(** A structured call whose arguments are not JSON never yields a record:
    whatever the repair returns, it is text, on which [setdefault] raises. *)
Lemma structured_call_never_repaired fuel tool_call rest text e s :
  json_loads (fn_arguments tool_call) = Raise e ->
  exn_cls e = JSONDecodeError ->
  forall v s',
    parse_tool_response json_loads completion fuel
                        (MkReply (tool_call :: rest) text) s <> (Ok (Some v), s').
Proof.
  intros J C v s' H. unfold parse_tool_response in H. cbn [msg_tool_calls] in H.
  apply bindL_inv in H as (p & s1 & H & _).
  unfold parse_structured in H. rewrite J, C in H. cbn [exn_class_eqb] in H.
  apply bindL_inv in H as (args & s2 & H & H2).
  apply bindL_inv in H as (fixed & s3 & _ & H).
  unfold finish, ret in H. inversion H; subst args s3.
  unfold bind, lift in H2. cbn [Py.setdefault] in H2. discriminate.
Qed.

(** The loop of the generation makes one request for an action and no
    more: what it returns is what that request produced, after one sleep
    if it is empty. *)
Lemma generating_single_request fuel problem_class solution_plan s v s' :
  generating json_loads completion render_next fuel problem_class solution_plan s
  = (Ok (Some v), s') ->
  exists fuel' s1,
    fuel = S fuel'
    /\ generate_next_step json_loads completion render_next fuel'
                          problem_class solution_plan s = (Ok (Some v), s1)
    /\ (if Py.truthy v then s' = s1
        else memory s' = memory s1
             /\ sent (world s') = sent (world s1)
             /\ slept (world s') = 10 :: slept (world s1)).
Proof.
  destruct fuel as [| fuel']; [discriminate |]. cbn [generating]. intros H.
  apply bindL_inv in H as (next_step & s1 & G & H).
  assert (exists d, next_step = VDict d) as [d ->].
  { unfold generate_next_step in G.
    apply bind_inv in G as [(summary & s2 & _ & G) | (e & _ & D)]; [| discriminate].
    apply bind_inv in G as [(response & s3 & _ & G) | (e & _ & D)]; [| discriminate].
    eapply parse_tool_response_dict. exact G. }
  exists fuel', s1.
  destruct (Py.truthy (VDict d)) eqn:T.
  - unfold finish, ret in H. inversion H; subst. rewrite T. repeat split. exact G.
  - unfold bind, sleep, on_world, modify, finish, ret in H. inversion H; subst.
    rewrite T. cbn. repeat split. exact G.
Qed.

End NormalizerFacts.

(** ** Where the code departs from its description *)

(** C2: five steps with a threshold of 5, and a model whose summary is a
    JSON object without [key_findings].  No block exists after the fourth
    step; the fifth triggers one compaction (one request), which appends
    two blocks: the parsed object, and then a fallback block, because the
    message printed after the append looks [key_findings] up and the
    [KeyError] lands in the first [except] clause. *)
Theorem compress_memory_appends_two_blocks :
  Examples.loads Examples.status_only_text = Ok (VDict [("current_status", VStr "exploring")])
  /\ compressed_memory (memory (snd (after_steps 5 Examples.status_only_text 4))) = []
  /\ fst (after_steps 5 Examples.status_only_text 5) = Ok tt
  /\ List.length (sent (world (snd (after_steps 5 Examples.status_only_text 5)))) = 1%nat
  /\ compressed_memory (memory (snd (after_steps 5 Examples.status_only_text 5)))
     = [ [("current_status", VStr "exploring"); ("source_steps", VInt 5)];
         [("fallback_summary", VStr Examples.status_only_text); ("source_steps", VInt 5)] ]
  /\ history_len (memory (snd (after_steps 5 Examples.status_only_text 5))) = 4.
Proof. vm_compute. repeat split. Qed.

(** C8: five steps with a threshold of 5, and a model whose summary has the
    four fields with an empty [next_steps].  The compaction stores the block
    without complaint, and from then on [get_summary] raises [IndexError] on
    its [next_steps][0]. *)
Theorem get_summary_fails_on_stored_block :
  fst (after_steps 5 Examples.stuck_text 5) = Ok tt
  /\ compressed_memory (memory (snd (after_steps 5 Examples.stuck_text 5)))
     = [ [("key_findings", VList []); ("failed_attempts", VList []);
          ("current_status", VStr "stuck"); ("next_steps", VList []);
          ("source_steps", VInt 5)] ]
  /\ get_summary true (memory (snd (after_steps 5 Examples.stuck_text 5)))
     = Raise (MkExn IndexError "list index out of range")
  /\ is_ok (get_summary true (memory (snd (after_steps 5 Examples.summary_text 5)))) = true
  /\ get_summary true (Memory_init 10 5) = Ok "No history".
Proof. vm_compute. repeat split. Qed.

(** C3: a structured call whose arguments are not JSON.  The repair returns
    text that parses, but the text itself is bound to [args], so that
    [setdefault] raises [AttributeError] and no record is returned.  The
    free-text branch, on a document with the same flaw, parses the repaired
    text and returns the record with the default purpose filled in. *)
Theorem parse_tool_response_keeps_repaired_text :
  Examples.loads Examples.quoted_arguments = Examples.not_json
  /\ Examples.loads Examples.repaired_arguments = Ok (VDict [("content", VStr "ls")])
  /\ fst (parse_tool_response Examples.loads
            (Examples.script [Examples.text_reply Examples.repaired_arguments]) 5
            (MkReply [MkToolCall "execute_shell_command" Examples.quoted_arguments] None)
            (Examples.start 5))
     = Raise (MkExn AttributeError "'str' object has no attribute 'setdefault'")
  /\ fst (parse_tool_response Examples.loads
            (Examples.script [Examples.text_reply Examples.repaired_action]) 5
            (Examples.text_reply Examples.quoted_action) (Examples.start 5))
     = Ok (Some (VDict [("tool_name", VStr "execute_shell_command");
                        ("arguments", VDict [("content", VStr "ls");
                                             ("purpose", VStr "Execute action")])])).
Proof. vm_compute. repeat split. Qed.

(** C1: two void results.  A free-text reply on which [json.loads] raises
    something other than [JSONDecodeError] makes [parse_tool_response]
    return the empty dict: the loop sleeps once and then ends, as the empty
    dict is not [None], without a second request; the turn goes on to execute
    the empty action and records the output for the tool [None].  A reply
    that is a JSON document without a tool call leaves [func_name] unbound:
    [UnboundLocalError] ends [solve], with no sleep and no retry. *)
Theorem generating_does_not_retry :
  (let run := generating Examples.loads
                (Examples.script [Examples.text_reply Examples.deep_text])
                Examples.next_template 5 "Web" "enumerate the site" (Examples.start 5) in
   fst run = Ok (Some (VDict []))
   /\ slept (world (snd run)) = [10]
   /\ List.length (sent (world (snd run))) = 1%nat)
  /\ (let run := example_turn [Examples.text_reply Examples.deep_text;
                               Examples.text_reply Examples.dull_analysis_text] in
      fst run = Ok (Some Continue)
      /\ map (Dict.get "output") (history (memory (snd run)))
         = [Some (VStr "Error: tool 'None' was not found")])
  /\ (let run := example_solve [Examples.text_reply Examples.no_call_text] in
      fst run = Raise (unbound "func_name")
      /\ slept (world (snd run)) = []
      /\ List.length (sent (world (snd run))) = 1%nat).
Proof. vm_compute. repeat split. Qed.

(** * Further properties *)

(** ** Frames of the memory operations *)

Lemma keeps_weaken {S A} (R R' : S -> S -> Prop) (c : M S A) :
  (forall s s', R s s' -> R' s s') -> keeps R c -> keeps R' c.
Proof. intros H Hc s r s' E. apply H. eapply Hc. exact E. Qed.

Lemma related_refl {A} (f : State -> A) (Q : A -> A -> Prop) :
  (forall a, Q a a) -> forall s, related f Q s s.
Proof. intros H s. apply H. Qed.

Lemma related_trans {A} (f : State -> A) (Q : A -> A -> Prop) :
  (forall a b c, Q a b -> Q b c -> Q a c) ->
  forall s1 s2 s3, related f Q s1 s2 -> related f Q s2 s3 -> related f Q s1 s3.
Proof. intros H s1 s2 s3. apply H. Qed.

Lemma eq_sym_trans {A} (a b c : A) : b = a -> c = b -> c = a.
Proof. congruence. Qed.

Lemma counters_le_refl a : counters_le a a.
Proof. intros k n H. exists n. split; [exact H | lia]. Qed.

Lemma counters_le_trans a b c : counters_le a b -> counters_le b c -> counters_le a c.
Proof.
  intros H1 H2 k n H. destruct (H1 k n H) as (n1 & G1 & L1).
  destruct (H2 k n1 G1) as (n2 & G2 & L2). exists n2. split; [exact G2 | lia].
Qed.

Lemma extends_refl {A} (a : list A) : extends a a.
Proof. exists []. rewrite app_nil_r. reflexivity. Qed.

Lemma extends_trans {A} (a b c : list A) : extends a b -> extends b c -> extends a c.
Proof. intros [x ->] [y ->]. exists (x ++ y)%list. rewrite app_assoc. reflexivity. Qed.

Lemma keys_kept_refl a : keys_kept a a.
Proof. intros k H. exact H. Qed.

Lemma keys_kept_trans a b c : keys_kept a b -> keys_kept b c -> keys_kept a c.
Proof. intros H1 H2 k H. apply H2, H1, H. Qed.

(** A counter that is bumped does not go down, and no other counter moves
    down either. *)
Lemma counters_le_bump k d d' :
  Counters.bump k d = Ok d' -> counters_le d d'.
Proof.
  unfold Counters.bump. destruct (Py.hashable k); [| discriminate].
  intros H. apply Ok_inj in H. subst d'.
  induction d as [| [k0 n0] d IH]; intros j n G; [discriminate |].
  cbn [Counters.get Counters.set] in *.
  destruct (Py.key_eqb k0 k) eqn:E.
  - cbn [Counters.get]. destruct (Py.key_eqb k0 j).
    + inversion G; subst. eexists. split; [reflexivity | lia].
    + exists n. split; [exact G | lia].
  - cbn [Counters.get]. destruct (Py.key_eqb k0 j).
    + exists n. split; [exact G | lia].
    + apply IH. exact G.
Qed.

Lemma dict_has_set {V} (k k' : string) (v : V) (d : list (string * V)) :
  Dict.has k d = true -> Dict.has k (Dict.set k' v d) = true.
Proof.
  unfold Dict.has. induction d as [| [k0 v0] d IH]; cbn [Dict.get Dict.set].
  - discriminate.
  - destruct (String.eqb k' k0) eqn:E'; cbn [Dict.get].
    + apply String.eqb_eq in E'. subst k0. destruct (String.eqb k k'); auto.
    + destruct (String.eqb k k0); auto.
Qed.

Lemma dict_get_set_other {V} (k k' : string) (v : V) (d : list (string * V)) :
  k <> k' -> Dict.get k (Dict.set k' v d) = Dict.get k d.
Proof.
  intros N. induction d as [| [k0 v0] d IH]; cbn [Dict.get Dict.set].
  - destruct (String.eqb k k') eqn:E; [apply String.eqb_eq in E; congruence | reflexivity].
  - destruct (String.eqb k' k0) eqn:E'; cbn [Dict.get].
    + apply String.eqb_eq in E'. subst k0.
      destruct (String.eqb k k') eqn:E; [apply String.eqb_eq in E; congruence | reflexivity].
    + rewrite IH. reflexivity.
Qed.

(** Goals [keeps (related f Q) c] for a preorder [Q] whose two laws are
    among the hypotheses; [leaf] deals with the updates of the memory. *)
Ltac frame_with leaf :=
  repeat first
    [ progress intros
    | match goal with H : context [keeps] |- keeps _ _ => apply H end
    | apply keeps_ret; apply related_refl; assumption
    | apply keeps_raise; apply related_refl; assumption
    | apply keeps_lift; apply related_refl; assumption
    | apply keeps_the_memory; apply related_refl; assumption
    | apply keeps_bind; [apply related_trans; assumption | |]
    | apply keeps_attempt
    | apply keeps_for_each;
      [apply related_refl; assumption | apply related_trans; assumption |]
    | apply keeps_on_memory; intros; unfold related; cbn; leaf
    | match goal with
      | |- keeps _ (if ?b then _ else _) => destruct b
      | |- keeps _ (match ?x with _ => _ end) => destruct x
      end ].

Section MemoryFrames.

Variable json_loads : string -> result pyval.
Variable py_hash : string -> Z.
Variable completion : nat -> string -> result Reply.

Lemma bump_failed_counters k : keeps (related counters_of counters_le) (bump_failed k).
Proof.
  intros s r s' E. unfold bump_failed in E.
  apply bind_inv in E as [(m & s1 & E1 & E) | (e & E1 & _)];
    unfold the_memory in E1; inversion E1; subst.
  apply bind_lift_inv in E as [(f & Hf & E) | (e & _ & _ & ->)];
    [| apply counters_le_refl].
  unfold on_memory, modify in E. inversion E; subst.
  unfold related, counters_of. cbn. eapply counters_le_bump. exact Hf.
Qed.

Lemma request_same_state_memory prompt s r s' :
  request completion prompt s = (r, s') -> memory s' = memory s.
Proof. intros E. unfold request in E. inversion E; subst. reflexivity. Qed.

Lemma request_related {A} (f : State -> A) (Q : A -> A -> Prop) prompt :
  (forall a, Q a a) ->
  (forall s w, f (MkState (memory s) w) = f s) ->
  keeps (related f Q) (request completion prompt).
Proof.
  intros H Hf s r s' E. unfold related. unfold request in E. inversion E; subst.
  rewrite Hf. apply H.
Qed.

(** The failure counters never go down in [compress_memory]. *)
Lemma compress_memory_counters :
  keeps (related counters_of counters_le) (compress_memory json_loads completion).
Proof.
  pose proof counters_le_refl. pose proof counters_le_trans.
  pose proof bump_failed_counters.
  pose proof (fun p => request_related counters_of counters_le p counters_le_refl
                                       (fun s w => eq_refl)).
  unfold compress_memory, compress_attempt, compress_store, compress_except, append_block.
  frame_with ltac:(apply counters_le_refl).
Qed.

Lemma compress_memory_blocks :
  keeps (related blocks_of extends) (compress_memory json_loads completion).
Proof.
  pose proof (@extends_refl pydict). pose proof (@extends_trans pydict).
  pose proof (fun p => request_related blocks_of extends p (@extends_refl pydict)
                                       (fun s w => eq_refl)).
  unfold compress_memory, compress_attempt, compress_store, compress_except, append_block,
    bump_failed.
  frame_with ltac:(first [apply extends_refl | eexists; reflexivity]).
Qed.

Lemma compress_memory_facts :
  keeps (related facts_of eq) (compress_memory json_loads completion).
Proof.
  pose proof (@eq_refl (list (string * string))).
  pose proof (@eq_trans (list (string * string))).
  pose proof (fun p => request_related facts_of eq p (@eq_refl (list (string * string)))
                                       (fun s w => eq_refl)).
  unfold compress_memory, compress_attempt, compress_store, compress_except, append_block,
    bump_failed.
  frame_with ltac:(reflexivity).
Qed.

Lemma track_failure_facts step : keeps (related facts_of eq) (track_failure step).
Proof.
  pose proof (@eq_refl (list (string * string))).
  pose proof (@eq_trans (list (string * string))).
  unfold track_failure, bump_failed. frame_with ltac:(reflexivity).
Qed.

(** X2: however a call of [add_step] ends, every failure counter that
    existed before it still exists, with a value that is not smaller. *)
Theorem failure_counters_never_decrease step s r s' k n :
  add_step json_loads py_hash completion step s = (r, s') ->
  Counters.get k (failed_attempts (memory s)) = Some n ->
  exists n', Counters.get k (failed_attempts (memory s')) = Some n' /\ n <= n'.
Proof.
  intros E G.
  assert (keeps (related counters_of counters_le)
                (add_step json_loads py_hash completion step)) as K.
  { pose proof counters_le_refl. pose proof counters_le_trans.
    pose proof bump_failed_counters. pose proof compress_memory_counters.
    unfold add_step, _extract_key_facts, track_failure, set_fact.
    frame_with ltac:(apply counters_le_refl). }
  exact (K s r s' E k n G).
Qed.

(** X3: however a call of [add_step] ends, the compressed blocks after it
    are the blocks before it followed by what it appended, and every key of
    the key facts is still a key. *)
Theorem blocks_and_facts_never_dropped step s r s' :
  add_step json_loads py_hash completion step s = (r, s') ->
  (exists new,
      compressed_memory (memory s') = (compressed_memory (memory s) ++ new)%list)
  /\ (forall key, Dict.has key (key_facts (memory s)) = true ->
                  Dict.has key (key_facts (memory s')) = true).
Proof.
  intros E. split.
  - assert (keeps (related blocks_of extends)
                  (add_step json_loads py_hash completion step)) as K.
    { pose proof (@extends_refl pydict). pose proof (@extends_trans pydict).
      pose proof compress_memory_blocks.
      unfold add_step, _extract_key_facts, track_failure, set_fact, bump_failed.
      frame_with ltac:(apply extends_refl). }
    exact (K s r s' E).
  - assert (keeps (related facts_of keys_kept)
                  (add_step json_loads py_hash completion step)) as K.
    { pose proof keys_kept_refl. pose proof keys_kept_trans.
      assert (keeps (related facts_of keys_kept)
                    (compress_memory json_loads completion)).
      { eapply keeps_weaken; [| apply compress_memory_facts].
        intros t t' Et. unfold related in *. rewrite Et. apply keys_kept_refl. }
      unfold add_step, _extract_key_facts, track_failure, set_fact, bump_failed.
      frame_with ltac:(first [apply keys_kept_refl
                             | intros k' Hk'; apply dict_has_set; exact Hk']). }
    exact (K s r s' E).
Qed.

End MemoryFrames.

(** ** Key facts and failure counters *)

Lemma length_append (a b : string) :
  String.length (a ++ b) = (String.length a + String.length b)%nat.
Proof. induction a as [| c a IH]; simpl; [reflexivity | rewrite IH; reflexivity]. Qed.

Lemma append_empty (a : string) : a ++ "" = a.
Proof. induction a as [| c a IH]; simpl; [reflexivity | rewrite IH; reflexivity]. Qed.

Lemma take_length (n : nat) (s : string) : (String.length (Str.take n s) <= n)%nat.
Proof.
  revert s. induction n as [| n IH]; intros s; [simpl; lia |].
  destruct s as [| c s]; simpl; [lia |]. specialize (IH s). lia.
Qed.

Lemma take_all (n : nat) (s : string) :
  (String.length s <= n)%nat -> Str.take n s = s.
Proof.
  revert s. induction n as [| n IH]; intros s H.
  - destruct s; [reflexivity | simpl in H; lia].
  - destruct s as [| c s]; [reflexivity |]. simpl in *. rewrite IH by lia. reflexivity.
Qed.

Lemma counters_get_set k v d :
  Py.key_eqb k k = true -> Counters.get k (Counters.set k v d) = Some v.
Proof.
  intros H. induction d as [| [k0 n0] d IH]; cbn [Counters.get Counters.set].
  - rewrite H. reflexivity.
  - destruct (Py.key_eqb k0 k) eqn:E; cbn [Counters.get]; rewrite E; [reflexivity | exact IH].
Qed.

Lemma key_eqb_refl k : Py.hashable k = true -> Py.key_eqb k k = true.
Proof.
  destruct k as [| b | z | t | l | d]; cbn; try discriminate; intros _.
  - reflexivity.
  - destruct b; reflexivity.
  - apply Z.eqb_refl.
  - apply String.eqb_refl.
Qed.

Section FactsAndCounters.

Variable json_loads : string -> result pyval.
Variable py_hash : string -> Z.
Variable completion : nat -> string -> result Reply.

(** X1: a step whose content is a str and whose output is a str of
    ASCII characters leaves, however the call of [add_step] ends, the key
    fact [command] made of its content and of its output, cut after 256
    characters with an ellipsis, so that the part after [Result: ] never
    has more than 259 characters.  (The output is taken to be ASCII
    because a [string] here holds the bytes of the text, which are its
    characters only then.) *)
Theorem command_fact_truncated step command output s r s' :
  Dict.get "content" step = Some (VStr command) ->
  Dict.get "output" step = Some (VStr output) ->
  ascii_text output = true ->
  add_step json_loads py_hash completion step s = (r, s') ->
  exists shown,
    Dict.get "command" (key_facts (memory s'))
    = Some ("Command: " ++ command ++ ", Result: " ++ shown)
    /\ (String.length shown <= 259)%nat
    /\ shown = if (String.length output <=? 256)%nat then output
               else Str.take 256 output ++ "...".
Proof.
  intros Hc Ho _ E.
  set (content := VStr command) in *.
  change command with (Py.str content). clearbody content.
  set (shown := if (String.length output <=? 256)%nat then output
                else Str.take 256 output ++ "...").
  set (fact := "Command: " ++ Py.str content ++ ", Result: " ++ shown).
  exists shown. split; [| split; [| reflexivity]].
  2:{ unfold shown. destruct (Nat.leb_spec (String.length output) 256); [lia |].
      rewrite length_append. pose proof (take_length 256 output).
      change (String.length "...") with 3%nat. lia. }
  (* the first block of [_extract_key_facts] sets the fact *)
  assert (forall t r2 t',
             _extract_key_facts py_hash step t = (r2, t') ->
             Dict.get "command" (key_facts (memory t')) = Some fact) as Hset.
  { intros t r2 t' E2. unfold _extract_key_facts in E2.
    unfold Dict.has in E2. rewrite Hc, Ho in E2. cbn [andb] in E2.
    apply bind_inv in E2 as [([] & t1 & E1 & E2) | (e & E1 & _)].
    2:{ unfold Py.getitem in E1. rewrite Hc, Ho in E1.
        unfold bind, lift, set_fact, on_memory, modify in E1. cbn in E1. discriminate. }
    assert (Dict.get "command" (key_facts (memory t1)) = Some fact) as H1.
    { assert (t1 = MkState
                     (with_key_facts
                        (Dict.set "command"
                           ("Command: " ++ Py.str content ++ ", Result: "
                            ++ (Str.take 256 output
                                ++ (if 256 <? Str.len output then "..." else "")))
                           (key_facts (memory t))) (memory t)) (world t)) as ->.
      { unfold Py.getitem in E1. rewrite Hc, Ho in E1.
        unfold bind, lift, set_fact, on_memory, modify in E1.
        cbn [Py.slice_to Py.len Py.add_str] in E1.
        injection E1 as <-. reflexivity. }
      cbn [memory key_facts with_key_facts].
      rewrite dict_get_set. f_equal. unfold fact, shown, Str.len.
      do 3 f_equal.
      destruct (Nat.leb_spec (String.length output) 256) as [L | L].
      - rewrite take_all by exact L.
        destruct (256 <? Z.of_nat (String.length output)) eqn:Z;
          [apply Z.ltb_lt in Z; lia | apply append_empty].
      - destruct (256 <? Z.of_nat (String.length output)) eqn:Z;
          [reflexivity | apply Z.ltb_ge in Z; lia]. }
    clear E1.
    assert (forall key text,
               Dict.get "command"
                 (Dict.set ("finding:" ++ key) text (key_facts (memory t1)))
               = Some fact) as Hother.
    { intros key text. rewrite dict_get_set_other; [exact H1 |]. discriminate. }
    destruct (Dict.get "analysis" step) as [a |].
    - apply bind_lift_inv in E2 as [(present & _ & E2) | (e & _ & _ & ->)];
        [| exact H1].
      destruct present.
      + apply bind_lift_inv in E2 as [(analysis & _ & E2) | (e & _ & _ & ->)];
          [| exact H1].
        destruct analysis as [| b | z | text | l | d];
          try (unfold ret in E2; inversion E2; subst; exact H1).
        destruct (Str.contains "key finding" (Str.lower text)
                  || Str.contains "key findings" (Str.lower text))%bool.
        * unfold set_fact, on_memory, modify in E2. inversion E2; subst.
          cbn [memory key_facts with_key_facts]. apply Hother.
        * unfold ret in E2. inversion E2; subst. exact H1.
      + unfold ret in E2. inversion E2; subst. exact H1.
    - unfold ret in E2. inversion E2; subst. exact H1. }
  (* nothing after it touches the key facts *)
  unfold add_step in E.
  apply bind_inv in E as [([] & s1 & E1 & E) | (e & E1 & _)];
    [| unfold on_memory, modify in E1; discriminate].
  apply bind_inv in E as [([] & s2 & E2 & E) | (e & E2 & ->)];
    [| eapply Hset; exact E2].
  apply Hset in E2.
  assert (keeps (related facts_of eq)
                (track_failure step ;;
                 m <- the_memory ;;
                 if compression_threshold m <=? history_len m
                 then compress_memory json_loads completion
                 else ret tt)) as K.
  { pose proof (@eq_refl (list (string * string))).
    pose proof (@eq_trans (list (string * string))).
    pose proof (track_failure_facts step).
    pose proof (compress_memory_facts json_loads completion).
    frame_with ltac:(reflexivity). }
  specialize (K s2 r s' E). unfold related, facts_of in K. rewrite <- K. exact E2.
Qed.

(** X4: a step whose analysis has a false [success] is counted as one
    more failure of its content (of the empty string if it has none), and a
    step with no analysis, no [success] or a true one leaves the counters
    alone, when the call returns without reaching the threshold. *)
Theorem failed_step_counted_once step s s' :
  history_len (memory s) + 1 < compression_threshold (memory s) ->
  add_step json_loads py_hash completion step s = (Ok tt, s') ->
  let command := Dict.get_default "content" (VStr "") step in
  match step_failed step with
  | Ok true =>
      Counters.get command (failed_attempts (memory s'))
      = Some (match Counters.get command (failed_attempts (memory s)) with
              | Some n => n + 1
              | None => 1
              end)
  | _ => failed_attempts (memory s') = failed_attempts (memory s)
  end.
Proof.
  intros Hlen E command. unfold add_step in E.
  apply bind_inv in E as [([] & s1 & E1 & E) | (e & _ & D)]; [| discriminate].
  assert (failed_attempts (memory s1) = failed_attempts (memory s)
          /\ history_len (memory s1) = history_len (memory s) + 1
          /\ compression_threshold (memory s1) = compression_threshold (memory s))
    as (F1 & L1 & T1).
  { unfold on_memory, modify in E1. inversion E1; subst.
    unfold history_len. cbn. rewrite length_app. simpl. repeat split. lia. }
  clear E1.
  apply bind_inv in E as [([] & s2 & E2 & E) | (e & _ & D)]; [| discriminate].
  assert (failed_attempts (memory s2) = failed_attempts (memory s1)) as F2.
  { assert (keeps (related counters_of eq) (_extract_key_facts py_hash step)) as K.
    { pose proof (@eq_refl (list (pyval * Z))). pose proof (@eq_trans (list (pyval * Z))).
      unfold _extract_key_facts, set_fact. frame_with ltac:(reflexivity). }
    exact (eq_sym (K s1 _ s2 E2)). }
  destruct (extract_key_facts_same_history _ _ _ _ _ E2) as [H2 T2]. clear E2.
  apply bind_inv in E as [([] & s3 & E3 & E) | (e & _ & D)]; [| discriminate].
  destruct (track_failure_same_history _ _ _ _ E3) as [H3 T3].
  assert (s' = s3) as ->.
  { unfold bind, the_memory in E.
    replace (compression_threshold (memory s3) <=? history_len (memory s3)) with false in E.
    - unfold ret in E. inversion E. reflexivity.
    - symmetry. apply Z.leb_gt. unfold history_len in *. rewrite H3, H2, T3, T2, T1. lia. }
  clear E. unfold track_failure in E3.
  destruct (step_failed step) as [[|] | e].
  - unfold bind, lift in E3. fold command in E3.
    unfold bump_failed, bind, the_memory, lift in E3.
    destruct (Counters.bump command (failed_attempts (memory s2))) as [f |] eqn:B;
      [| discriminate].
    unfold on_memory, modify in E3. injection E3 as <-. cbn [memory failed_attempts with_failed_attempts].
    unfold Counters.bump in B.
    destruct (Py.hashable command) eqn:Hh; [| discriminate].
    apply Ok_inj in B. subst f. rewrite counters_get_set by (apply key_eqb_refl; exact Hh).
    rewrite F2, F1. destruct (Counters.get command (failed_attempts (memory s)));
      reflexivity.
  - unfold bind, lift, ret in E3. injection E3 as <-. congruence.
  - unfold bind, lift in E3. discriminate.
Qed.

End FactsAndCounters.

(** ** Compaction, case by case *)




Section CompactionCases.

Variable json_loads : string -> result pyval.
Variable completion : nat -> string -> result Reply.

Lemma compress_memory_unfold s prompt :
  history (memory s) <> [] ->
  compress_prompt (memory s) = Ok prompt ->
  compress_memory json_loads completion s
  = bind (compress_attempt json_loads completion prompt) (fun _ => on_memory retain) s.
Proof.
  intros Hne Hp. unfold compress_memory. unfold bind at 1, the_memory.
  destruct (history (memory s)) as [| h0 hs]; [congruence |].
  unfold bind at 1, lift. rewrite Hp. reflexivity.
Qed.

(** What the compaction leaves when its [try] statement ends in [t]. *)
Lemma compress_memory_after s prompt t :
  history (memory s) <> [] ->
  compress_prompt (memory s) = Ok prompt ->
  compress_attempt json_loads completion prompt s = (Ok tt, t) ->
  compress_memory json_loads completion s
  = (Ok tt, MkState (retain (memory t)) (world t)).
Proof.
  intros Hne Hp E. rewrite (compress_memory_unfold s prompt Hne Hp).
  unfold bind. rewrite E. reflexivity.
Qed.

(** The state in which the request of the compaction has been sent. *)
Lemma request_ok prompt s reply :
  completion (List.length (sent (world s))) prompt = Ok reply ->
  request completion prompt s
  = (Ok reply, MkState (memory s) (with_sent (prompt :: sent (world s)) (world s))).
Proof. intros H. unfold request. rewrite H. reflexivity. Qed.

(** X5: when the request of the compaction raises, [compress_memory]
    returns all the same: it has appended one block (the fallback block
    with the text [Compression failed] for a [JSONDecodeError] or a
    [KeyError], the error block with the text of the exception otherwise),
    stamped with the length of the history, has kept the last
    [min(4, len)] records, and has left the key facts and the failure
    counters alone. *)
Theorem compaction_absorbs_failed_request s prompt e :
  history (memory s) <> [] ->
  compress_prompt (memory s) = Ok prompt ->
  completion (List.length (sent (world s))) (Utils.optimize_text prompt) = Raise e ->
  exists s',
    compress_memory json_loads completion s = (Ok tt, s')
    /\ compressed_memory (memory s')
       = (compressed_memory (memory s)
          ++ [degraded_block e "Compression failed" (history_len (memory s))])%list
    /\ history (memory s')
       = last_n (Z.min 4 (history_len (memory s))) (history (memory s))
    /\ key_facts (memory s') = key_facts (memory s)
    /\ failed_attempts (memory s') = failed_attempts (memory s)
    /\ sent (world s') = Utils.optimize_text prompt :: sent (world s).
Proof.
  intros Hne Hp Hc.
  assert (exists t,
             compress_attempt json_loads completion prompt s = (Ok tt, t)
             /\ memory t
                = with_compressed_memory
                    (compressed_memory (memory s)
                     ++ [degraded_block e "Compression failed" (history_len (memory s))])
                    (memory s)
             /\ sent (world t) = Utils.optimize_text prompt :: sent (world s))
    as (t & Et & Mt & Wt).
  { unfold compress_attempt, bind, attempt, request. rewrite Hc.
    unfold compress_except, bind, the_memory, lift, append_block, on_memory, modify,
      degraded_block.
    cbn [memory world].
    destruct (exn_class_eqb (exn_cls e) JSONDecodeError
              || exn_class_eqb (exn_cls e) KeyError)%bool;
      eexists; (split; [reflexivity |]); split; reflexivity. }
  eexists. split; [exact (compress_memory_after s prompt t Hne Hp Et) |].
  cbn [memory world]. rewrite Mt. unfold retain, history_len. cbn.
  repeat split. exact Wt.
Qed.

(** X6: when the model answers the compaction with a text of ASCII
    characters that [json.loads] refuses once stripped, [compress_memory]
    returns all the same: it has appended one block (the fallback block
    with the stripped text for a [JSONDecodeError], the error block for
    any other exception), stamped with the length of the history, has
    kept the last [min(4, len)] records, and has left the key facts and
    the failure counters alone.  (The text is taken to be ASCII because
    [Str.strip] removes the ASCII white space only.) *)
Theorem compaction_absorbs_unparsable_reply s prompt reply text e :
  history (memory s) <> [] ->
  compress_prompt (memory s) = Ok prompt ->
  completion (List.length (sent (world s))) (Utils.optimize_text prompt) = Ok reply ->
  msg_content reply = Some text ->
  ascii_text text = true ->
  json_loads (Str.strip text) = Raise e ->
  exists s',
    compress_memory json_loads completion s = (Ok tt, s')
    /\ compressed_memory (memory s')
       = (compressed_memory (memory s)
          ++ [degraded_block e (Str.strip text) (history_len (memory s))])%list
    /\ history (memory s')
       = last_n (Z.min 4 (history_len (memory s))) (history (memory s))
    /\ key_facts (memory s') = key_facts (memory s)
    /\ failed_attempts (memory s') = failed_attempts (memory s)
    /\ sent (world s') = Utils.optimize_text prompt :: sent (world s).
Proof.
  intros Hne Hp Hc Ht _ Hj.
  assert (exists t,
             compress_attempt json_loads completion prompt s = (Ok tt, t)
             /\ memory t
                = with_compressed_memory
                    (compressed_memory (memory s)
                     ++ [degraded_block e (Str.strip text) (history_len (memory s))])
                    (memory s)
             /\ sent (world t) = Utils.optimize_text prompt :: sent (world s))
    as (t & Et & Mt & Wt).
  { unfold compress_attempt, bind, attempt. rewrite (request_ok _ s reply Hc).
    unfold compress_store, bind, lift, content_strip. rewrite Ht, Hj.
    unfold compress_except, bind, the_memory, lift, append_block, on_memory, modify,
      degraded_block, content_strip.
    rewrite Ht. cbn [memory world].
    destruct (exn_class_eqb (exn_cls e) JSONDecodeError
              || exn_class_eqb (exn_cls e) KeyError)%bool;
      eexists; (split; [reflexivity |]); split; reflexivity. }
  eexists. split; [exact (compress_memory_after s prompt t Hne Hp Et) |].
  cbn [memory world]. rewrite Mt. unfold retain, history_len. cbn.
  repeat split. exact Wt.
Qed.

End CompactionCases.


Section CompactionStores.

Variable json_loads : string -> result pyval.
Variable completion : nat -> string -> result Reply.



End CompactionStores.


(** ** The summary *)

(** X8: [get_summary] answers [No history] exactly when there is no
    compressed block, no step in the history and no key fact to show
    (none stored, or the facts not asked for). *)
Theorem no_history_iff (include_key_facts : bool) (m : Memory) :
  get_summary include_key_facts m = Ok "No history"
  <-> compressed_memory m = []
      /\ history m = []
      /\ (include_key_facts = false \/ key_facts m = []).
Proof.
  unfold get_summary. split.
  - intros H.
    destruct (include_key_facts && match key_facts m with [] => false | _ => true end)%bool
      eqn:F.
    + exfalso.
      destruct (match compressed_memory m with [] => Ok "" | _ => _ end) as [b | e];
        cbn [rbind] in H; [| discriminate].
      destruct (match history m with [] => Ok "" | _ => _ end) as [t | e];
        cbn [rbind] in H; [| discriminate].
      simpl in H. discriminate.
    + assert (include_key_facts = false \/ key_facts m = []) as Hf.
      { destruct include_key_facts; [right | left; reflexivity].
        destruct (key_facts m); [reflexivity | discriminate]. }
      destruct (compressed_memory m) as [| b0 bs].
      * cbn [rbind] in H. destruct (history m) as [| h0 hs]; [auto |].
        exfalso.
        destruct (concat_results _) as [t | e]; cbn [rbind] in H; [| discriminate].
        simpl in H. discriminate.
      * exfalso.
        destruct (concat_results _) as [t | e]; cbn [rbind] in H; [| discriminate].
        destruct (match history m with [] => Ok "" | _ => _ end) as [t' | e];
          cbn [rbind] in H; [| discriminate].
        simpl in H. discriminate.
  - intros (Hb & Hh & Hf). rewrite Hb, Hh.
    assert ((include_key_facts && match key_facts m with [] => false | _ => true end)%bool
            = false) as ->.
    { destruct Hf as [-> | ->]; [reflexivity | apply Bool.andb_false_r]. }
    reflexivity.
Qed.


(** X9: the block that an [except] clause of [compress_memory] stores can
    always be printed: whatever the exception and the reply, [get_summary]
    shows for it the block number and the number of source steps, and
    nothing else. *)
Theorem degraded_block_is_printable e response s s' :
  compress_except e response s = (Ok tt, s') ->
  exists blk,
    compressed_memory (memory s') = (compressed_memory (memory s) ++ [blk])%list
    /\ forall total i,
         summary_block total i blk
         = Ok ("Block #" ++ Str.of_Z (total - i) ++ ":" ++ Str.nl
               ++ "- Source: based on " ++ Str.of_Z (history_len (memory s))
               ++ " historical steps" ++ Str.nl ++ Str.nl).
Proof.
  intros E. unfold compress_except in E.
  unfold bind, the_memory, append_block, on_memory, modify, lift in E.
  destruct (exn_class_eqb (exn_cls e) JSONDecodeError || exn_class_eqb (exn_cls e) KeyError)%bool.
  - destruct (match response with
              | Some r => content_strip r
              | None => Ok "Compression failed"
              end) as [fallback | e']; [| discriminate].
    inversion E; subst s'. clear E.
    exists [("fallback_summary", VStr fallback);
            ("source_steps", VInt (history_len (memory s)))].
    split; [destruct (memory s); reflexivity |].
    intros total i. unfold summary_block. cbn [Dict.get String.eqb Ascii.eqb Bool.eqb rbind Py.getitem Py.str Py.repr].
    rewrite !append_assoc. reflexivity.
  - inversion E; subst s'. clear E.
    exists [("error", VStr ("Compression failed: " ++ exn_str e));
            ("source_steps", VInt (history_len (memory s)))].
    split; [destruct (memory s); reflexivity |].
    intros total i. unfold summary_block. cbn [Dict.get String.eqb Ascii.eqb Bool.eqb rbind Py.getitem Py.str Py.repr].
    rewrite !append_assoc. reflexivity.
Qed.

(** ** The normaliser *)

Lemma parse_finish_shape func_name args v :
  parse_finish func_name args = Ok v ->
  exists name arguments purpose content,
    v = VDict [("tool_name", name); ("arguments", VDict arguments)]
    /\ Dict.get "purpose" arguments = Some purpose
    /\ Dict.get "content" arguments = Some content.
Proof.
  unfold parse_finish.
  destruct func_name as [f |]; cbn [rbind]; [| discriminate].
  destruct args as [a |]; cbn [rbind]; [| discriminate].
  destruct a as [| b | z | t | l | d]; try discriminate. cbn [Py.getitem].
  destruct (Dict.get "purpose" d) as [p |] eqn:P; cbn [rbind]; [| discriminate].
  destruct (Dict.get "content" d) as [c |] eqn:C; cbn [rbind]; [| discriminate].
  intros H. apply Ok_inj in H. subst v. exists f, d, p, c. auto.
Qed.

Lemma once_parse_finish_shape func_name args (s : State) v s' :
  once (lift (parse_finish func_name args)) s = (Ok (Some v), s') ->
  exists name arguments purpose content,
    v = VDict [("tool_name", name); ("arguments", VDict arguments)]
    /\ Dict.get "purpose" arguments = Some purpose
    /\ Dict.get "content" arguments = Some content.
Proof.
  unfold once, bind, lift, ret.
  destruct (parse_finish func_name args) as [x | e] eqn:P; [| discriminate].
  intros H. inversion H; subst. eapply parse_finish_shape. exact P.
Qed.

Section NormalizerShape.

Variable json_loads : string -> result pyval.
Variable completion : nat -> string -> result Reply.

(** X10: a record returned by [parse_tool_response] is either the empty
    dict or a dict of exactly [tool_name] and [arguments], where
    [arguments] is a dict that has the keys [purpose] and [content]. *)
Theorem normalised_record_shape fuel response s v s' :
  parse_tool_response json_loads completion fuel response s = (Ok (Some v), s') ->
  v = VDict []
  \/ exists name arguments purpose content,
       v = VDict [("tool_name", name); ("arguments", VDict arguments)]
       /\ Dict.get "purpose" arguments = Some purpose
       /\ Dict.get "content" arguments = Some content.
Proof.
  unfold parse_tool_response. destruct (msg_tool_calls response) as [| tool_call rest].
  - intros H. apply bind_lift_inv in H as [(text & _ & H) | (e & _ & D & _)];
      [| discriminate].
    destruct (json_loads text) as [data | e].
    + apply bind_lift_inv in H as [(p & _ & H) | (e & _ & D & _)]; [| discriminate].
      right. eapply once_parse_finish_shape. exact H.
    + destruct (exn_class_eqb (exn_cls e) JSONDecodeError).
      * apply bindL_inv in H as (fixed & s1 & _ & H).
        apply bind_lift_inv in H as [(data & _ & H) | (e' & _ & D & _)]; [| discriminate].
        apply bind_lift_inv in H as [(p & _ & H) | (e' & _ & D & _)]; [| discriminate].
        right. eapply once_parse_finish_shape. exact H.
      * unfold finish, ret in H. inversion H; subst. left. reflexivity.
  - intros H. apply bindL_inv in H as (p & s1 & _ & H).
    right. eapply once_parse_finish_shape. exact H.
Qed.

End NormalizerShape.


(** ** The approval dialogue *)

Lemma after_typing_zero s : after_typing 0 s = s.
Proof. destruct s as [m [a b c d e]]. reflexivity. Qed.

Lemma after_typing_succ k s : after_typing k (after_typing 1 s) = after_typing (S k) s.
Proof.
  destruct s as [m [a b c d e]]. unfold after_typing. cbn.
  rewrite Nat.add_succ_r. reflexivity.
Qed.

Lemma action_fields_inv next_step f :
  action_fields next_step = Ok f ->
  exists d args,
    next_step = VDict d
    /\ Dict.get_default "arguments" (VDict []) d = VDict args
    /\ f = (Dict.get_default "tool_name" VNone d, VDict args,
            Dict.get_default "content" (VStr "") args).
Proof.
  unfold action_fields.
  destruct next_step as [| b | z | t | l | d]; try discriminate.
  cbn [Py.get rbind].
  destruct (Dict.get_default "arguments" (VDict []) d) as [| b | z | t | l | args] eqn:A;
    try discriminate.
  cbn [Py.get rbind]. intros H. apply Ok_inj in H. subst f.
  exists d, args. auto.
Qed.

Section Approval.

Variable json_loads : string -> result pyval.
Variable py_hash : string -> Z.
Variable completion : nat -> string -> result Reply.
Variable render_reflection : pyval -> string -> string -> string.
Variable render_analysis : Z -> pyval -> string -> string -> string -> string.
Variable user_input : nat -> string.
Variable tools : string -> option (nat -> pyval -> result (string * string)).
Variable confirm_flag_callback : option (nat -> pyval -> bool).

(** Lines that are none of the three choices are read and dropped. *)
Lemma manual_skips_unknown d args k :
  Dict.get_default "arguments" (VDict []) d = VDict args ->
  forall fuel s,
    (forall i, (i < k)%nat -> unknown_choice (user_input (i + typed (world s)))) ->
    manual_approval_step json_loads completion render_reflection user_input
                         (k + fuel) (VDict d) s
    = manual_approval_step json_loads completion render_reflection user_input
                           fuel (VDict d) (after_typing k s).
Proof.
  intros Ha. induction k as [| k IH]; intros fuel s Hk.
  - rewrite after_typing_zero. reflexivity.
  - cbn [Nat.add manual_approval_step Py.get].
    unfold bind at 1, lift. rewrite Ha. cbn [Py.get].
    unfold bind at 1. unfold bind at 1, input at 1.
    destruct (Hk 0%nat ltac:(lia)) as (N1 & N2 & N3). cbn [Nat.add] in N1, N2, N3.
    apply String.eqb_neq in N1, N2, N3. rewrite N1, N2, N3.
    change (MkState (memory s)
              (MkWorld (sent (world s)) (slept (world s)) (S (typed (world s)))
                       (ran (world s)) (confirmed (world s))))
      with (after_typing 1 s).
    rewrite IH.
    + rewrite after_typing_succ. reflexivity.
    + intros i Hi. specialize (Hk (S i) ltac:(lia)).
      replace (i + typed (world (after_typing 1 s)))%nat
        with (S i + typed (world s))%nat; [exact Hk |].
      destruct s as [m [a b c e g]]. cbn. lia.
Qed.

Lemma act_automatic fuel plan step_count next_step tool_name arguments content s :
  action_fields next_step = Ok (tool_name, arguments, content) ->
  act json_loads py_hash completion render_reflection render_analysis user_input
      tools confirm_flag_callback true fuel plan step_count next_step s
  = run_action json_loads py_hash completion render_analysis tools
               confirm_flag_callback fuel plan step_count tool_name arguments content s.
Proof. intros Hf. unfold act, bind, lift. rewrite Hf. reflexivity. Qed.

(** X11: in manual mode, with lines of ASCII characters typed at the
    keyboard: after any number of answers that are none of the three
    choices, the answer [3] ends the run with [Solving aborted]: nothing
    was sent to the model, no tool was run and the memory is as it was;
    only the lines were read.  (The lines are taken to be ASCII because
    [Str.strip] removes the ASCII white space only.) *)
Theorem manual_abort_runs_nothing fuel plan step_count next_step f k s :
  action_fields next_step = Ok f ->
  ascii_lines user_input (typed (world s)) (S k) ->
  (forall i, (i < k)%nat -> unknown_choice (user_input (i + typed (world s)))) ->
  Str.strip (user_input (k + typed (world s))) = "3" ->
  (k < fuel)%nat ->
  act json_loads py_hash completion render_reflection render_analysis user_input
      tools confirm_flag_callback false fuel plan step_count next_step s
  = (Ok (Some (Return (VStr "Solving aborted"))), after_typing (S k) s).
Proof.
  intros Hf _ Hk H3 Hfuel.
  destruct (action_fields_inv _ _ Hf) as (d & args & -> & Ha & _).
  unfold act. unfold bind at 1, lift. rewrite Hf.
  replace fuel with (k + S (fuel - S k))%nat at 1 by lia.
  unfold bindL at 1. unfold bind at 1.
  rewrite (manual_skips_unknown d args k Ha _ s Hk).
  cbn [manual_approval_step Py.get].
  unfold bind at 1, lift. rewrite Ha. cbn [Py.get].
  unfold bind at 1. unfold bind at 1, input at 1.
  assert (typed (world (after_typing k s)) = (k + typed (world s))%nat) as ->
      by reflexivity.
  rewrite H3. cbn [String.eqb Ascii.eqb Bool.eqb]. unfold finish, ret. cbn [fst].
  reflexivity.
Qed.

(** X12: in manual mode, with lines of ASCII characters typed at the
    keyboard: after any number of answers that are none of the three
    choices, the answer [1] lets the turn go on exactly as the automatic
    mode does from the state in which those lines were read.  (The lines
    are taken to be ASCII because [Str.strip] removes the ASCII white
    space only.) *)
Theorem manual_approval_runs_as_automatic fuel plan step_count next_step f k s :
  action_fields next_step = Ok f ->
  ascii_lines user_input (typed (world s)) (S k) ->
  (forall i, (i < k)%nat -> unknown_choice (user_input (i + typed (world s)))) ->
  Str.strip (user_input (k + typed (world s))) = "1" ->
  (k < fuel)%nat ->
  act json_loads py_hash completion render_reflection render_analysis user_input
      tools confirm_flag_callback false fuel plan step_count next_step s
  = act json_loads py_hash completion render_reflection render_analysis user_input
        tools confirm_flag_callback true fuel plan step_count next_step
        (after_typing (S k) s).
Proof.
  intros Hf _ Hk H1 Hfuel.
  destruct (action_fields_inv _ _ Hf) as (d & args & -> & Ha & _).
  destruct f as [[tool_name arguments] content].
  rewrite (act_automatic _ _ _ _ _ _ _ _ Hf).
  unfold act. unfold bind at 1, lift. rewrite Hf.
  replace fuel with (k + S (fuel - S k))%nat at 1 by lia.
  unfold bindL at 1. unfold bind at 1.
  rewrite (manual_skips_unknown d args k Ha _ s Hk).
  cbn [manual_approval_step Py.get].
  unfold bind at 1, lift. rewrite Ha. cbn [Py.get].
  unfold bind at 1. unfold bind at 1, input at 1.
  assert (typed (world (after_typing k s)) = (k + typed (world s))%nat) as ->
      by reflexivity.
  rewrite H1. cbn [String.eqb Ascii.eqb Bool.eqb]. unfold finish, ret. cbn [fst snd].
  unfold bind at 1. rewrite Hf.
  replace (k + S (fuel - S k))%nat with fuel by lia.
  reflexivity.
Qed.

End Approval.


(** ** The turn and the run *)

(** Goals [keeps same_memory c] by the structure of [c]; the leaves are
    taken from the hypotheses. *)
Ltac same_memory_tac :=
  repeat first
    [ progress intros
    | match goal with H : context [keeps] |- keeps _ _ => apply H end
    | apply keeps_ret; exact same_memory_refl
    | apply keeps_raise; exact same_memory_refl
    | apply keeps_lift; exact same_memory_refl
    | apply keeps_the_memory; exact same_memory_refl
    | apply keeps_bind; [exact same_memory_trans | |]
    | apply keeps_attempt
    | apply keeps_on_world; intros; reflexivity
    | match goal with
      | |- keeps _ (if ?b then _ else _) => destruct b
      | |- keeps _ (match ?x with _ => _ end) => destruct x
      end ].

Section TurnFrames.

Variable json_loads : string -> result pyval.
Variable py_hash : string -> Z.
Variable completion : nat -> string -> result Reply.
Variable render_next : string -> string -> string -> string.
Variable render_reflection : pyval -> string -> string -> string.
Variable render_analysis : Z -> pyval -> string -> string -> string -> string.
Variable user_input : nat -> string.
Variable tools : string -> option (nat -> pyval -> result (string * string)).
Variable confirm_flag_callback : option (nat -> pyval -> bool).
Variable auto_mode : bool.

Lemma request_keeps_memory prompt : keeps same_memory (request completion prompt).
Proof. intros s r s' E. unfold request in E. inversion E; subst. reflexivity. Qed.

Lemma input_keeps_memory : keeps same_memory (input user_input).
Proof. intros s r s' E. unfold input in E. inversion E; subst. reflexivity. Qed.

Lemma run_tool_keeps_memory name tool arguments :
  keeps same_memory (run_tool name tool arguments).
Proof. intros s r s' E. unfold run_tool in E. inversion E; subst. reflexivity. Qed.

Lemma confirm_keeps_memory v : keeps same_memory (confirm confirm_flag_callback v).
Proof.
  intros s r s' E. unfold confirm in E.
  destruct confirm_flag_callback; inversion E; subst; reflexivity.
Qed.

Lemma fix_json_keeps_memory fuel json_str err_content :
  keeps same_memory (fix_json_with_llm json_loads completion fuel json_str err_content).
Proof.
  unfold fix_json_with_llm. generalize (repair_prompt json_str err_content) as prompt.
  pose proof request_keeps_memory.
  induction fuel as [| fuel IH]; intros prompt; cbn [fix_json_loop];
    unfold finish; same_memory_tac.
Qed.

Lemma parse_tool_response_keeps_memory fuel response :
  keeps same_memory (parse_tool_response json_loads completion fuel response).
Proof.
  pose proof fix_json_keeps_memory.
  unfold parse_tool_response, parse_structured, bindL, once, finish.
  same_memory_tac.
Qed.

Lemma generate_next_step_keeps_memory fuel problem_class solution_plan :
  keeps same_memory
        (generate_next_step json_loads completion render_next fuel
                            problem_class solution_plan).
Proof.
  pose proof request_keeps_memory. pose proof parse_tool_response_keeps_memory.
  unfold generate_next_step, summary. same_memory_tac.
Qed.

Lemma reflection_keeps_memory fuel purpose feedback :
  keeps same_memory
        (reflection json_loads completion render_reflection fuel purpose feedback).
Proof.
  pose proof request_keeps_memory. pose proof parse_tool_response_keeps_memory.
  unfold reflection, summary. same_memory_tac.
Qed.

Lemma generating_keeps_memory fuel problem_class solution_plan :
  keeps same_memory
        (generating json_loads completion render_next fuel problem_class solution_plan).
Proof.
  pose proof generate_next_step_keeps_memory.
  induction fuel as [| fuel IH]; cbn [generating];
    unfold bindL, finish, sleep; same_memory_tac.
Qed.

Lemma manual_approval_step_keeps_memory fuel :
  forall next_step,
    keeps same_memory
          (manual_approval_step json_loads completion render_reflection user_input
                                fuel next_step).
Proof.
  pose proof reflection_keeps_memory. pose proof input_keeps_memory.
  induction fuel as [| fuel IH]; intros next_step; cbn [manual_approval_step];
    unfold bindL, finish; same_memory_tac.
Qed.

Lemma executing_keeps_memory tool_name arguments :
  keeps same_memory (executing tools tool_name arguments).
Proof.
  pose proof run_tool_keeps_memory.
  unfold executing. same_memory_tac.
Qed.

Lemma analyze_step_output_keeps_memory fuel step_num content output solution_plan :
  keeps same_memory
        (analyze_step_output json_loads completion render_analysis fuel step_num
                             content output solution_plan).
Proof.
  pose proof request_keeps_memory. pose proof fix_json_keeps_memory.
  unfold analyze_step_output, summary, bindL, finish. same_memory_tac.
Qed.

Lemma one_step_more_bind {A B} (c : M State A) (k : A -> M State B) :
  keeps same_memory c ->
  (forall a, keeps (one_step_more json_loads py_hash completion) (k a)) ->
  keeps (one_step_more json_loads py_hash completion) (bind c k).
Proof.
  intros Hc Hk s r s' E.
  apply bind_inv in E as [(a & s1 & E1 & E) | (e & E1 & _)].
  - pose proof (Hc _ _ _ E1) as M1. unfold same_memory in M1.
    destruct (Hk a _ _ _ E) as [M | (step & s2 & r2 & s3 & M & Ea & M3)].
    + left. congruence.
    + right. exists step, s2, r2, s3. split; [congruence | split; assumption].
  - left. exact (Hc _ _ _ E1).
Qed.

Lemma one_step_more_then {A B} (c : M State A) (k : A -> M State B) :
  keeps (one_step_more json_loads py_hash completion) c ->
  (forall a, keeps same_memory (k a)) ->
  keeps (one_step_more json_loads py_hash completion) (bind c k).
Proof.
  intros Hc Hk s r s' E.
  apply bind_inv in E as [(a & s1 & E1 & E) | (e & E1 & _)].
  - pose proof (Hk a _ _ _ E) as M1. unfold same_memory in M1.
    destruct (Hc _ _ _ E1) as [M | (step & s2 & r2 & s3 & M & Ea & M3)].
    + left. congruence.
    + right. exists step, s2, r2, s3. split; [exact M | split; [exact Ea | congruence]].
  - exact (Hc _ _ _ E1).
Qed.

Lemma one_step_more_weaken {A} (c : M State A) :
  keeps same_memory c -> keeps (one_step_more json_loads py_hash completion) c.
Proof. intros Hc s r s' E. left. exact (Hc _ _ _ E). Qed.

Lemma add_step_one_step_more step :
  keeps (one_step_more json_loads py_hash completion)
        (add_step json_loads py_hash completion step).
Proof.
  intros s r s' E. right. exists step, s, r, s'. repeat split. exact E.
Qed.

Lemma conclude_one_step_more step_count arguments content output analysis_result :
  keeps (one_step_more json_loads py_hash completion)
        (conclude json_loads py_hash completion confirm_flag_callback
                  step_count arguments content output analysis_result).
Proof.
  unfold conclude.
  apply one_step_more_bind; [apply keeps_lift; exact same_memory_refl |].
  intros flag_found.
  apply one_step_more_bind.
  { pose proof confirm_keeps_memory. same_memory_tac. }
  intros [flag_candidate |].
  - apply one_step_more_weaken. apply keeps_ret. exact same_memory_refl.
  - apply one_step_more_bind; [apply keeps_lift; exact same_memory_refl |].
    intros step. apply one_step_more_then; [apply add_step_one_step_more |].
    same_memory_tac.
Qed.

Lemma run_action_one_step_more fuel solution_plan step_count tool_name arguments content :
  keeps (one_step_more json_loads py_hash completion)
        (run_action json_loads py_hash completion render_analysis tools
                    confirm_flag_callback fuel solution_plan step_count
                    tool_name arguments content).
Proof.
  unfold run_action.
  apply one_step_more_bind; [apply executing_keeps_memory |].
  intros output. unfold analyzing, bindL.
  apply one_step_more_bind; [apply analyze_step_output_keeps_memory |].
  intros [analysis_result |].
  - unfold once. apply one_step_more_then; [apply conclude_one_step_more |].
    same_memory_tac.
  - apply one_step_more_weaken. apply keeps_ret. exact same_memory_refl.
Qed.

(** X13: a turn of [solve] changes the memory by at most one call of
    [add_step], however the turn ends: the generation, the approval
    dialogue, the reflection, the tool and the analysis leave the memory
    as it is. *)
Theorem turn_changes_memory_by_one_step fuel problem_class solution_plan step_count s r s' :
  solve_turn json_loads py_hash completion render_next render_reflection
             render_analysis user_input tools confirm_flag_callback auto_mode
             fuel problem_class solution_plan step_count s = (r, s') ->
  memory s' = memory s
  \/ exists step s1 r1 s2,
       memory s1 = memory s
       /\ add_step json_loads py_hash completion step s1 = (r1, s2)
       /\ memory s' = memory s2.
Proof.
  revert s r s'.
  change (keeps (one_step_more json_loads py_hash completion)
                (solve_turn json_loads py_hash completion render_next render_reflection
                            render_analysis user_input tools confirm_flag_callback
                            auto_mode fuel problem_class solution_plan step_count)).
  pose proof run_action_one_step_more as Hrun.
  unfold solve_turn, bindL.
  apply one_step_more_bind; [apply generating_keeps_memory |].
  intros [next_step |]; [| apply one_step_more_weaken; apply keeps_ret;
                           exact same_memory_refl].
  unfold act.
  apply one_step_more_bind; [apply keeps_lift; exact same_memory_refl |].
  intros [[tool_name arguments] content].
  destruct auto_mode; [apply Hrun |].
  unfold bindL.
  apply one_step_more_bind; [apply manual_approval_step_keeps_memory |].
  intros [[approved step] |]; [| apply one_step_more_weaken; apply keeps_ret;
                                 exact same_memory_refl].
  cbn [fst snd]. destruct approved.
  - apply one_step_more_bind; [apply keeps_lift; exact same_memory_refl |].
    intros [[tool_name' arguments'] content']. apply Hrun.
  - apply one_step_more_weaken. unfold finish. apply keeps_ret. exact same_memory_refl.
Qed.

Lemma conclude_returns step_count arguments content output analysis_result s v s' :
  conclude json_loads py_hash completion confirm_flag_callback
           step_count arguments content output analysis_result s
  = (Ok (Return v), s') ->
  v = VStr "Flag not found: terminated early"
  \/ accepted_flag confirm_flag_callback v s'.
Proof.
  intros H. unfold conclude in H.
  apply bind_lift_inv in H as [(ff & _ & H) | (e & _ & D & _)]; [| discriminate].
  apply bind_inv in H as [(acc & s1 & A & H) | (e & _ & D)]; [| discriminate].
  destruct acc as [fc |].
  - unfold ret in H. inversion H; subst fc s1. clear H. right.
    destruct (Py.truthy ff); [| unfold ret in A; discriminate].
    apply bind_lift_inv in A as [(fc & _ & A) | (e & _ & D & _)]; [| discriminate].
    apply bind_inv in A as [(yes & s2 & C & A) | (e & _ & D)]; [| discriminate].
    unfold ret in A. destruct yes; inversion A; subst. clear A.
    unfold confirm in C. destruct confirm_flag_callback as [cb |];
      [| unfold ret in C; discriminate].
    inversion C; subst. exists cb, (confirmed (world s)). cbn. auto.
  - left.
    apply bind_lift_inv in H as [(step & _ & H) | (e & _ & D & _)]; [| discriminate].
    apply bind_inv in H as [(u & s2 & _ & H) | (e & _ & D)]; [| discriminate].
    apply bind_lift_inv in H as [(t & _ & H) | (e & _ & D & _)]; [| discriminate].
    destruct (Py.truthy t); unfold ret in H; inversion H. reflexivity.
Qed.

Lemma run_action_returns fuel solution_plan step_count tool_name arguments content s v s' :
  run_action json_loads py_hash completion render_analysis tools
             confirm_flag_callback fuel solution_plan step_count
             tool_name arguments content s
  = (Ok (Some (Return v)), s') ->
  v = VStr "Flag not found: terminated early"
  \/ accepted_flag confirm_flag_callback v s'.
Proof.
  intros H. unfold run_action in H.
  apply bind_inv in H as [(output & s1 & _ & H) | (e & _ & D)]; [| discriminate].
  unfold analyzing in H. apply bindL_inv in H as (a & s2 & _ & H).
  unfold once in H.
  apply bind_inv in H as [(t & s3 & C & H) | (e & _ & D)]; [| discriminate].
  unfold ret in H. inversion H; subst. eapply conclude_returns. exact C.
Qed.

(** X14: whatever [solve] returns is [Solving aborted], or [Flag not
    found: terminated early], or a candidate that the confirmation
    callback has just accepted; without a callback no flag is ever
    returned. *)
Theorem solve_returns_only_confirmed_flags fuel problem_class solution_plan s v s' :
  solve json_loads py_hash completion render_next render_reflection
        render_analysis user_input tools confirm_flag_callback auto_mode
        fuel problem_class solution_plan s = (Ok (Some v), s') ->
  v = VStr "Solving aborted"
  \/ v = VStr "Flag not found: terminated early"
  \/ exists callback rest,
       confirm_flag_callback = Some callback
       /\ confirmed (world s') = v :: rest
       /\ callback (List.length rest) v = true.
Proof.
  unfold solve. generalize 0 as step_count. revert s.
  induction fuel as [| fuel IH]; intros s step_count H; [discriminate |].
  cbn [solve_loop] in H.
  apply bindL_inv in H as (e & s1 & T & H).
  destruct e as [w |]; [| exact (IH _ _ H)].
  unfold finish, ret in H. inversion H; subst w s1. clear H.
  unfold solve_turn in T. apply bindL_inv in T as (next_step & s2 & _ & T).
  unfold act in T.
  apply bind_lift_inv in T as [([[tool_name arguments] content] & _ & T)
                              | (e & _ & D & _)]; [| discriminate].
  destruct auto_mode.
  - right. exact (run_action_returns _ _ _ _ _ _ _ _ _ T).
  - apply bindL_inv in T as ([approved step] & s3 & _ & T). cbn [fst snd] in T.
    destruct approved.
    + apply bind_lift_inv in T as [([[tool_name' arguments'] content'] & _ & T)
                                  | (e & _ & D & _)]; [| discriminate].
      right. exact (run_action_returns _ _ _ _ _ _ _ _ _ T).
    + unfold finish, ret in T. inversion T. left. reflexivity.
Qed.

End TurnFrames.


(** ** The repair and the analyses *)

Section RepairMore.

Variable json_loads : string -> result pyval.
Variable completion : nat -> string -> result Reply.

(** What the repair loop returns parses. *)
Lemma fix_json_loop_valid fuel prompt s fixed s' :
  fix_json_loop json_loads completion fuel prompt s = (Ok (Some fixed), s') ->
  exists v, json_loads fixed = Ok v.
Proof.
  revert s. induction fuel as [| fuel IH]; intros s E; cbn [fix_json_loop] in E;
    [discriminate |].
  apply bind_inv in E as [(reply & s1 & _ & E) | (e & _ & D)]; [| discriminate].
  destruct (msg_content reply) as [text |]; [| exact (IH _ E)].
  destruct (json_loads text) as [v |] eqn:J; [| exact (IH _ E)].
  unfold finish, ret in E. inversion E; subst. exists v. exact J.
Qed.

(** X15: the loop of [fix_json_with_llm] gives up when a request fails:
    if the model answers [k] times with something that is rejected and
    the next request raises, the loop ends with that exception, having
    sent the same prompt [k + 1] times and changed nothing else. *)
Theorem repair_loop_stops_when_request_fails k prompt s e :
  (forall i, (i < k)%nat ->
     exists r, completion (List.length (sent (world s)) + i)%nat prompt = Ok r
               /\ rejected json_loads r) ->
  completion (List.length (sent (world s)) + k)%nat prompt = Raise e ->
  forall fuel, (k < fuel)%nat ->
    fix_json_loop json_loads completion fuel prompt s
    = (Raise e,
       MkState (memory s)
               (with_sent (repeat prompt (S k) ++ sent (world s))%list (world s))).
Proof.
  revert s. induction k as [| k IH]; intros s Hbefore Hk fuel Hfuel.
  - destruct fuel as [| fuel]; [lia |]. cbn [fix_json_loop].
    unfold bind, request.
    replace (List.length (sent (world s)) + 0)%nat
      with (List.length (sent (world s))) in Hk by lia.
    rewrite Hk. reflexivity.
  - destruct fuel as [| fuel]; [lia |]. cbn [fix_json_loop].
    unfold bind at 1. unfold request at 1.
    destruct (Hbefore 0%nat ltac:(lia)) as (r0 & Hr0 & Hrej).
    replace (List.length (sent (world s)) + 0)%nat
      with (List.length (sent (world s))) in Hr0 by lia.
    rewrite Hr0.
    set (s1 := MkState (memory s) (with_sent (prompt :: sent (world s)) (world s))).
    assert (fix_json_loop json_loads completion fuel prompt s1
            = (Raise e,
               MkState (memory s)
                       (with_sent (repeat prompt (S (S k)) ++ sent (world s))%list
                                  (world s)))) as Next.
    { rewrite (IH s1).
      - subst s1. cbn [memory world with_sent sent slept typed ran confirmed].
        rewrite repeat_shift. reflexivity.
      - intros i Hi. destruct (Hbefore (S i) ltac:(lia)) as (r & Hr & Hj).
        exists r. split; [| exact Hj]. rewrite <- Hr. subst s1. cbn. f_equal. lia.
      - rewrite <- Hk. subst s1. cbn. f_equal. lia.
      - lia. }
    unfold rejected in Hrej. destruct (msg_content r0) as [text |].
    + destruct (json_loads text); [discriminate | exact Next].
    + exact Next.
Qed.

Variable render_analysis : Z -> pyval -> string -> string -> string -> string.

(** X16: when the text of the analysis fails [json.loads] with a
    [JSONDecodeError] or a [KeyError] and the repair returns, the parse of
    the repaired text cannot fail, and [analyze_step_output] returns its
    value, whatever JSON value it is: the test for an object is not made
    on this path.  Nothing but the requests of the repair is added to the
    state. *)
Theorem repaired_analysis_is_returned
        fuel step_num content output solution_plan s hs reply text e fixed s2 :
  get_summary true (memory s) = Ok hs ->
  completion (List.length (sent (world s)))
             (Utils.optimize_text
                (render_analysis step_num content (Str.take 4096 output)
                                 solution_plan hs)) = Ok reply ->
  msg_content reply = Some text ->
  json_loads text = Raise e ->
  (exn_class_eqb (exn_cls e) JSONDecodeError
   || exn_class_eqb (exn_cls e) KeyError)%bool = true ->
  fix_json_with_llm json_loads completion fuel text (exn_str e)
    (MkState (memory s)
             (with_sent (Utils.optimize_text
                           (render_analysis step_num content (Str.take 4096 output)
                                            solution_plan hs)
                         :: sent (world s)) (world s)))
  = (Ok (Some fixed), s2) ->
  exists v,
    json_loads fixed = Ok v
    /\ analyze_step_output json_loads completion render_analysis fuel step_num content
                           output solution_plan s
       = (Ok (Some v), s2).
Proof.
  intros Hs Hc Ht Hj Hcls Hfix.
  assert (exists v, json_loads fixed = Ok v) as [v Hv].
  { unfold fix_json_with_llm in Hfix. exact (fix_json_loop_valid _ _ _ _ _ Hfix). }
  exists v. split; [exact Hv |].
  unfold analyze_step_output, summary.
  unfold bind at 1. unfold bind at 1, the_memory, lift. rewrite Hs.
  unfold bind at 1. rewrite (request_ok _ _ s reply Hc).
  rewrite Ht, Hj, Hcls.
  unfold bindL, bind at 1. rewrite Hfix.
  unfold bind, lift. rewrite Hv. reflexivity.
Qed.

(** X17: an analysis that is valid JSON but not an object makes
    [analyze_step_output] return [None], and the turn then fails with an
    [AttributeError] in the flag check: the tool has run, the request has
    been sent, and nothing is recorded in the memory. *)
Theorem non_object_analysis_aborts_turn
        (py_hash : string -> Z) (callback : option (nat -> pyval -> bool))
        fuel solution_plan step_count arguments content output s hs reply text v :
  get_summary true (memory s) = Ok hs ->
  completion (List.length (sent (world s)))
             (Utils.optimize_text
                (render_analysis step_count content (Str.take 4096 output)
                                 solution_plan hs)) = Ok reply ->
  msg_content reply = Some text ->
  json_loads text = Ok v ->
  (forall d, v <> VDict d) ->
  analyzing json_loads py_hash completion render_analysis callback fuel solution_plan
            step_count arguments content output s
  = (Raise (MkExn AttributeError "'NoneType' object has no attribute 'get'"),
     MkState (memory s)
             (with_sent (Utils.optimize_text
                           (render_analysis step_count content (Str.take 4096 output)
                                            solution_plan hs)
                         :: sent (world s)) (world s))).
Proof.
  intros Hs Hc Ht Hj Hv.
  unfold analyzing, bindL, analyze_step_output, summary.
  unfold bind, the_memory, lift, request. rewrite Hs, Hc, Ht, Hj.
  destruct v as [| b | z | t | l | d]; try reflexivity.
  exfalso. exact (Hv d eq_refl).
Qed.

End RepairMore.


(** ** [str.replace] on a template with one placeholder *)









(** ** The dialogues at the keyboard *)

Section DialogueFacts.

Variable json_loads : string -> result pyval.
Variable completion : nat -> string -> result Reply.
Variable user_input : nat -> string.

Lemma input_reads s :
  input user_input s = (Ok (user_input (typed (world s))), after_typing 1 s).
Proof. reflexivity. Qed.

Lemma typed_after_typing k s : typed (world (after_typing k s)) = (k + typed (world s))%nat.
Proof. reflexivity. Qed.

(** X18: with lines of ASCII characters typed at the keyboard,
    [_select_mode] drops every line that is neither [1] nor [2] once
    stripped, and decides on the first line that is: automatic mode for
    [1], manual mode for [2]; it reads no further line.  (The lines are
    taken to be ASCII because [Str.strip] removes the ASCII white space
    only.) *)
Theorem select_mode_takes_first_choice k s :
  ascii_lines user_input (typed (world s)) (S k) ->
  (forall i, (i < k)%nat ->
     Str.strip (user_input (i + typed (world s))) <> "1"
     /\ Str.strip (user_input (i + typed (world s))) <> "2") ->
  Str.strip (user_input (k + typed (world s))) = "1"
  \/ Str.strip (user_input (k + typed (world s))) = "2" ->
  forall fuel, (k < fuel)%nat ->
    _select_mode user_input fuel s
    = (Ok (Some (String.eqb (Str.strip (user_input (k + typed (world s)))) "1")),
       after_typing (S k) s).
Proof.
  intros _. revert s. induction k as [| k IH]; intros s Hbefore Hk fuel Hfuel;
    (destruct fuel as [| fuel]; [lia |]); cbn [_select_mode];
    unfold bind at 1; rewrite input_reads.
  - cbn [Nat.add] in *. destruct Hk as [Hk | Hk]; rewrite Hk; reflexivity.
  - destruct (Hbefore 0%nat ltac:(lia)) as [N1 N2]. cbn [Nat.add] in N1, N2.
    apply String.eqb_neq in N1, N2. rewrite N1, N2.
    rewrite (IH (after_typing 1 s)).
    + rewrite after_typing_succ, typed_after_typing.
      replace (k + (1 + typed (world s)))%nat with (S k + typed (world s))%nat by lia.
      reflexivity.
    + intros i Hi. rewrite typed_after_typing.
      replace (i + (1 + typed (world s)))%nat with (S i + typed (world s))%nat by lia.
      apply Hbefore. lia.
    + rewrite typed_after_typing.
      replace (k + (1 + typed (world s)))%nat with (S k + typed (world s))%nat by lia.
      exact Hk.
    + lia.
Qed.

(** X19: with lines of ASCII characters typed at the keyboard,
    [confirm_flag] drops every line that is neither [y] nor [n] once
    stripped and lowered, and answers with the first line that is: [True]
    for [y], [False] for [n]; the candidate has no part in the answer, and
    nothing but the keyboard is touched.  (The lines are taken to be
    ASCII because [Str.strip] and [Str.lower] deal with the ASCII
    characters only.) *)
Theorem confirm_flag_takes_first_answer flag_candidate k s :
  ascii_lines user_input (typed (world s)) (S k) ->
  (forall i, (i < k)%nat ->
     Str.lower (Str.strip (user_input (i + typed (world s)))) <> "y"
     /\ Str.lower (Str.strip (user_input (i + typed (world s)))) <> "n") ->
  Str.lower (Str.strip (user_input (k + typed (world s)))) = "y"
  \/ Str.lower (Str.strip (user_input (k + typed (world s)))) = "n" ->
  forall fuel, (k < fuel)%nat ->
    confirm_flag user_input fuel flag_candidate s
    = (Ok (Some (String.eqb (Str.lower (Str.strip (user_input (k + typed (world s))))) "y")),
       after_typing (S k) s).
Proof.
  intros _. revert s. induction k as [| k IH]; intros s Hbefore Hk fuel Hfuel;
    (destruct fuel as [| fuel]; [lia |]); cbn [confirm_flag];
    unfold bind at 1; rewrite input_reads.
  - cbn [Nat.add] in *. destruct Hk as [Hk | Hk]; rewrite Hk; reflexivity.
  - destruct (Hbefore 0%nat ltac:(lia)) as [N1 N2]. cbn [Nat.add] in N1, N2.
    apply String.eqb_neq in N1, N2. rewrite N1, N2.
    rewrite (IH (after_typing 1 s)).
    + rewrite after_typing_succ, typed_after_typing.
      replace (k + (1 + typed (world s)))%nat with (S k + typed (world s))%nat by lia.
      reflexivity.
    + intros i Hi. rewrite typed_after_typing.
      replace (i + (1 + typed (world s)))%nat with (S i + typed (world s))%nat by lia.
      apply Hbefore. lia.
    + rewrite typed_after_typing.
      replace (k + (1 + typed (world s)))%nat with (S k + typed (world s))%nat by lia.
      exact Hk.
    + lia.
Qed.



End DialogueFacts.


(** ** The prompts as they are sent *)

Lemma flush_spaces pending :
  Utils.flush Utils.space 2 Utils.nul pending = ""
  \/ Utils.flush Utils.space 2 Utils.nul pending = String Utils.space ""
  \/ Utils.flush Utils.space 2 Utils.nul pending = String Utils.nul "".
Proof.
  destruct pending as [| [| p]]; [left | right; left | right; right]; reflexivity.
Qed.

(** After the runs of spaces have been marked, no two characters that are
    a space or the marker are next to each other. *)
Lemma sub_runs_spaces_apart s :
  has_char Utils.nul s = false ->
  forall pending,
    apart_marked false (Utils.sub_runs Utils.space 2 Utils.nul pending s) = true.
Proof.
  induction s as [| d r IH]; intros Hn pending; cbn [Utils.sub_runs].
  - destruct (flush_spaces pending) as [-> | [-> | ->]]; reflexivity.
  - cbn [has_char] in Hn. apply Bool.orb_false_elim in Hn as [Hd Hr].
    destruct (Ascii.eqb d Utils.space) eqn:Ds; [apply IH; exact Hr |].
    assert (apart_marked false (String d (Utils.sub_runs Utils.space 2 Utils.nul 0 r))
            = true) as Hrest.
    { cbn [apart_marked]. rewrite Ds, Hd. cbn [orb]. apply IH. exact Hr. }
    destruct (flush_spaces pending) as [-> | [-> | ->]].
    + exact Hrest.
    + cbn [append apart_marked] in *. rewrite Ds, Hd in *. cbn in *. exact Hrest.
    + cbn [append apart_marked] in *. rewrite Ds, Hd in *. cbn in *. exact Hrest.
Qed.

Lemma replace_marker_apart s :
  forall prev,
    apart_marked prev s = true ->
    apart Utils.space prev (Utils.replace_char Utils.nul Utils.space s) = true.
Proof.
  induction s as [| a r IH]; intros prev H; [reflexivity |].
  cbn [Utils.replace_char apart apart_marked] in *.
  destruct (Ascii.eqb a Utils.nul) eqn:An.
  - rewrite Ascii.eqb_refl. rewrite Bool.orb_true_r in H.
    apply Bool.andb_true_iff in H as [Hp Hr]. rewrite Hp. apply IH. exact Hr.
  - rewrite Bool.orb_false_r in H. destruct (Ascii.eqb a Utils.space).
    + apply Bool.andb_true_iff in H as [Hp Hr]. rewrite Hp. apply IH. exact Hr.
    + apply IH. exact H.
Qed.

Lemma flush_newlines pending :
  Utils.flush Utils.lf 1 Utils.lf pending
  = match pending with O => "" | _ => String Utils.lf "" end.
Proof. destruct pending; reflexivity. Qed.

(** Collapsing the runs of newlines brings no two spaces together. *)
Lemma sub_runs_newlines_apart s :
  forall pending prev,
    apart Utils.space (match pending with O => prev | _ => false end) s = true ->
    apart Utils.space prev (Utils.sub_runs Utils.lf 1 Utils.lf pending s) = true.
Proof.
  induction s as [| d r IH]; intros pending prev H; cbn [Utils.sub_runs].
  - rewrite flush_newlines. destruct pending; reflexivity.
  - destruct (Ascii.eqb d Utils.lf) eqn:Dl.
    + apply IH. apply Ascii.eqb_eq in Dl. subst d. destruct pending; exact H.
    + rewrite flush_newlines.
      assert (forall p, apart Utils.space p (String d r) = true ->
                        apart Utils.space p
                              (String d (Utils.sub_runs Utils.lf 1 Utils.lf 0 r)) = true)
        as Step.
      { intros p Hp. cbn [apart] in *. destruct (Ascii.eqb d Utils.space).
        - apply Bool.andb_true_iff in Hp as [Hp Hr]. rewrite Hp. apply IH. exact Hr.
        - apply IH. exact Hp. }
      destruct pending; [apply Step; exact H |].
      change (apart Utils.space false
                    (String d (Utils.sub_runs Utils.lf 1 Utils.lf 0 r)) = true).
      apply Step. exact H.
Qed.

Lemma apart_app_l c a b : forall prev,
  apart c prev (a ++ b) = true -> apart c prev a = true.
Proof.
  induction a as [| x a IH]; intros prev H; [reflexivity |].
  cbn [append apart] in *. destruct (Ascii.eqb x c).
  - apply Bool.andb_true_iff in H as [Hp Hr]. rewrite Hp. apply IH. exact Hr.
  - apply IH. exact H.
Qed.

Lemma apart_weaken c s : forall prev,
  apart c prev s = true -> apart c false s = true.
Proof.
  destruct s as [| x r]; intros prev H; [reflexivity |].
  cbn [apart] in *. destruct (Ascii.eqb x c); [| exact H].
  apply Bool.andb_true_iff in H as [_ Hr]. exact Hr.
Qed.

Lemma apart_app_r c a b : forall prev,
  apart c prev (a ++ b) = true -> apart c false b = true.
Proof.
  induction a as [| x a IH]; intros prev H.
  - exact (apart_weaken _ _ _ H).
  - cbn [append apart] in H. destruct (Ascii.eqb x c).
    + apply Bool.andb_true_iff in H as [_ Hr]. exact (IH _ Hr).
    + exact (IH _ H).
Qed.

Lemma apart_tail c x r prev : apart c prev (String x r) = true -> apart c false r = true.
Proof. intros H. exact (apart_app_r c (String x "") r prev H). Qed.

Lemma is_line_end_lf : Utils.is_line_end Utils.lf = true.
Proof. reflexivity. Qed.

(** Every line of a text without two adjacent spaces is such a text. *)
Lemma splitlines_apart n :
  forall s cur,
    (String.length s <= n)%nat ->
    apart Utils.space false (cur ++ s) = true ->
    forallb (apart Utils.space false) (Utils.splitlines cur s) = true.
Proof.
  induction n as [| n IH]; intros s cur Hn H.
  - destruct s as [| c r]; [| cbn in Hn; lia]. cbn [Utils.splitlines].
    rewrite append_empty in H. destruct (String.eqb cur ""); cbn [forallb]; [reflexivity |].
    rewrite H. reflexivity.
  - destruct s as [| c r]; cbn [Utils.splitlines].
    + rewrite append_empty in H. destruct (String.eqb cur ""); cbn [forallb]; [reflexivity |].
      rewrite H. reflexivity.
    + pose proof (apart_app_l _ _ _ _ H) as Hcur.
      pose proof (apart_tail _ _ _ _ (apart_app_r _ _ _ _ H)) as Hr.
      cbn [String.length] in Hn.
      destruct (Utils.is_line_end c).
      * destruct r as [| c2 r2]; [cbn [forallb]; rewrite Hcur; reflexivity |].
        cbn [String.length] in Hn.
        destruct (Nat.eqb (nat_of_ascii c) 13 && Nat.eqb (nat_of_ascii c2) 10)%bool;
          cbn [forallb]; rewrite Hcur; cbn [andb].
        -- apply IH; [lia |]. exact (apart_tail _ _ _ _ Hr).
        -- apply IH; [cbn [String.length]; lia | exact Hr].
      * apply IH; [lia |]. rewrite append_assoc. exact H.
Qed.

Lemma forallb_filter {A} (p q : A -> bool) (l : list A) :
  forallb p l = true -> forallb p (filter q l) = true.
Proof.
  induction l as [| x l IH]; intros H; [reflexivity |].
  cbn [forallb filter] in *. apply Bool.andb_true_iff in H as [Hx Hl].
  destruct (q x); [cbn [forallb]; rewrite Hx |]; apply IH; exact Hl.
Qed.

Lemma apart_app_newline c a b :
  Ascii.eqb Utils.lf c = false ->
  apart c false b = true ->
  forall prev, apart c prev a = true -> apart c prev (a ++ Str.nl ++ b) = true.
Proof.
  intros Hc Hb. induction a as [| x a IH]; intros prev Ha.
  - cbn [append Str.nl apart].
    change (ascii_of_nat 10) with Utils.lf. rewrite Hc. exact Hb.
  - cbn [append apart] in *. destruct (Ascii.eqb x c).
    + apply Bool.andb_true_iff in Ha as [Hp Hr]. rewrite Hp. apply IH. exact Hr.
    + apply IH. exact Ha.
Qed.

Lemma join_apart c lines :
  Ascii.eqb Utils.lf c = false ->
  forallb (apart c false) lines = true ->
  apart c false (Str.join Str.nl lines) = true.
Proof.
  intros Hc. induction lines as [| x rest IH]; intros H; [reflexivity |].
  cbn [forallb] in H. apply Bool.andb_true_iff in H as [Hx Hrest].
  destruct rest as [| y rest]; [exact Hx |].
  change (Str.join Str.nl (x :: y :: rest))
    with (x ++ Str.nl ++ Str.join Str.nl (y :: rest)).
  apply apart_app_newline; [exact Hc | apply IH; exact Hrest | exact Hx].
Qed.

(** X21: in a prompt that [optimize_text] has cleaned, no two spaces are
    next to each other, provided the text did not contain the character
    [\x00] that the function uses as its marker. *)
Theorem optimize_text_leaves_single_spaces text :
  has_char Utils.nul text = false ->
  apart Utils.space false (Utils.optimize_text text) = true.
Proof.
  intros Hn. unfold Utils.optimize_text.
  apply join_apart; [reflexivity |].
  apply forallb_filter.
  eapply splitlines_apart; [apply Nat.le_refl |].
  cbn [append].
  apply (sub_runs_newlines_apart _ 0%nat false).
  apply replace_marker_apart.
  apply sub_runs_spaces_apart. exact Hn.
Qed.


Lemma has_char_app c a b : has_char c (a ++ b) = (has_char c a || has_char c b)%bool.
Proof.
  induction a as [| x a IH]; [reflexivity |].
  cbn [append has_char]. rewrite IH. apply Bool.orb_assoc.
Qed.

Lemma line_end_not_lf c : Utils.is_line_end c = false -> Ascii.eqb c Utils.lf = false.
Proof.
  intros H. destruct (Ascii.eqb c Utils.lf) eqn:E; [| reflexivity].
  apply Ascii.eqb_eq in E. subst c. discriminate.
Qed.

(** No line that [splitlines] cuts holds a newline. *)
Lemma splitlines_no_newline n :
  forall s cur,
    (String.length s <= n)%nat ->
    has_char Utils.lf cur = false ->
    forallb (fun l => negb (has_char Utils.lf l)) (Utils.splitlines cur s) = true.
Proof.
  induction n as [| n IH]; intros s cur Hn H.
  - destruct s as [| c r]; [| cbn in Hn; lia]. cbn [Utils.splitlines].
    destruct (String.eqb cur ""); cbn [forallb]; [reflexivity |].
    rewrite H. reflexivity.
  - destruct s as [| c r]; cbn [Utils.splitlines].
    + destruct (String.eqb cur ""); cbn [forallb]; [reflexivity |].
      rewrite H. reflexivity.
    + cbn [String.length] in Hn.
      destruct (Utils.is_line_end c) eqn:Le.
      * destruct r as [| c2 r2]; [cbn [forallb]; rewrite H; reflexivity |].
        cbn [String.length] in Hn.
        destruct (Nat.eqb (nat_of_ascii c) 13 && Nat.eqb (nat_of_ascii c2) 10)%bool;
          cbn [forallb]; rewrite H; cbn [negb andb].
        -- apply IH; [lia | reflexivity].
        -- apply IH; [cbn [String.length]; lia | reflexivity].
      * apply IH; [lia |]. rewrite has_char_app, H. cbn [has_char orb].
        rewrite (line_end_not_lf _ Le). reflexivity.
Qed.

Lemma forallb_filter_kept {A} (p q : A -> bool) (l : list A) :
  (forall x, q x = true -> p x = true) -> forallb p (filter q l) = true.
Proof.
  intros H. induction l as [| x l IH]; [reflexivity |].
  cbn [filter]. destruct (q x) eqn:Q; [| exact IH].
  cbn [forallb]. rewrite (H x Q). exact IH.
Qed.

Lemma forallb_both {A} (p q : A -> bool) (l : list A) :
  forallb p l = true -> forallb q l = true ->
  forallb (fun x => p x && q x)%bool l = true.
Proof.
  induction l as [| x l IH]; intros Hp Hq; [reflexivity |].
  cbn [forallb] in *.
  apply Bool.andb_true_iff in Hp as [Hp1 Hp2]. apply Bool.andb_true_iff in Hq as [Hq1 Hq2].
  rewrite Hp1, Hq1. apply IH; assumption.
Qed.

(** A text that is not empty and holds no [c] hides what came before. *)
Lemma apart_behind c a b :
  has_char c a = false ->
  forall prev,
    apart c prev (a ++ b) = apart c (match a with "" => prev | _ => false end) b.
Proof.
  induction a as [| x a IH]; intros H prev; [reflexivity |].
  cbn [has_char] in H. apply Bool.orb_false_elim in H as [Hx Ha].
  cbn [append apart]. rewrite Hx. rewrite (IH Ha). destruct a; reflexivity.
Qed.

Lemma join_starts sep y rest : exists tail, Str.join sep (y :: rest) = y ++ tail.
Proof.
  destruct rest as [| z rest].
  - exists "". symmetry. apply append_empty.
  - eexists. reflexivity.
Qed.

(** Lines that are not empty and hold no newline, joined by newlines. *)
Lemma join_lines_apart lines :
  forallb (fun l => negb (has_char Utils.lf l) && negb (String.eqb l ""))%bool lines = true ->
  apart Utils.lf false (Str.join Str.nl lines) = true.
Proof.
  induction lines as [| x rest IH]; intros H; [reflexivity |].
  cbn [forallb] in H. apply Bool.andb_true_iff in H as [Hx Hrest].
  apply Bool.andb_true_iff in Hx as [Hx _]. apply Bool.negb_true_iff in Hx.
  destruct rest as [| y rest].
  - cbn [Str.join]. rewrite <- (append_empty x). rewrite (apart_behind _ _ _ Hx).
    destruct x; reflexivity.
  - specialize (IH Hrest).
    change (Str.join Str.nl (x :: y :: rest))
      with (x ++ Str.nl ++ Str.join Str.nl (y :: rest)).
    rewrite (apart_behind _ _ _ Hx).
    destruct (join_starts Str.nl y rest) as [tail Ht]. rewrite Ht in *.
    cbn [forallb] in Hrest. apply Bool.andb_true_iff in Hrest as [Hy _].
    apply Bool.andb_true_iff in Hy as [Hy Hne].
    apply Bool.negb_true_iff in Hy, Hne.
    rewrite (apart_behind _ _ _ Hy) in IH.
    assert (apart Utils.lf true (y ++ tail) = true) as Hafter.
    { rewrite (apart_behind _ _ _ Hy). destruct y; [discriminate | exact IH]. }
    cbn [Str.nl append apart]. change (ascii_of_nat 10) with Utils.lf.
    rewrite Ascii.eqb_refl. rewrite Hafter. destruct x; reflexivity.
Qed.

(** X22: a prompt that [optimize_text] has cleaned has no empty line:
    no two newlines are next to each other in it. *)
Theorem optimize_text_leaves_no_empty_line text :
  apart Utils.lf false (Utils.optimize_text text) = true.
Proof.
  unfold Utils.optimize_text. apply join_lines_apart.
  apply forallb_both.
  - apply forallb_filter. eapply splitlines_no_newline; [apply Nat.le_refl | reflexivity].
  - apply forallb_filter_kept. intros x Hx.
    destruct x; [discriminate | reflexivity].
Qed.


(** ** The configuration *)

Section ConfigFacts.

Variable json_loads : string -> result pyval.
Variable read_text : string -> option (result string).

Lemma normalize_agents_get agents :
  forall agents' name agent',
    normalize_agents agents = Ok agents' ->
    Dict.get name agents' = Some agent' ->
    exists agent, Dict.get name agents = Some agent /\ normalize_agent agent = Ok agent'.
Proof.
  induction agents as [| [n a] rest IH]; intros agents' name agent' H G.
  - cbn in H. apply Ok_inj in H. subst agents'. discriminate.
  - cbn [normalize_agents] in H.
    destruct (normalize_agent a) as [a' | e] eqn:Na; cbn [rbind] in H; [| discriminate].
    destruct (normalize_agents rest) as [rest' | e] eqn:Nr; cbn [rbind] in H;
      [| discriminate].
    apply Ok_inj in H. subst agents'. cbn [Dict.get] in *.
    destruct (String.eqb name n).
    + injection G as <-. exists a. split; [reflexivity | exact Na].
    + exact (IH _ _ _ eq_refl G).
Qed.

Lemma normalize_agent_model agent d model :
  normalize_agent agent = Ok (VDict d) ->
  Dict.get "model" d = Some model ->
  exists d0 s,
    agent = VDict d0
    /\ Dict.get "model" d0 = Some (VStr s)
    /\ model = VStr ("openai/" ++ s).
Proof.
  unfold normalize_agent. intros H G.
  destruct agent as [| b | z | t | l | d0]; try discriminate.
  - cbn [Py.contains rbind] in H. destruct (Str.contains "model" t).
    + cbn in H. discriminate.
    + discriminate.
  - cbn [Py.contains rbind] in H. destruct (existsb _ l).
    + cbn in H. discriminate.
    + discriminate.
  - cbn [Py.contains rbind Py.getitem] in H. unfold Dict.has in H.
    destruct (Dict.get "model" d0) as [m0 |] eqn:M0.
    + cbn [rbind] in H. destruct m0 as [| b | z | s | l | dm]; try discriminate.
      cbn [prefix_model rbind] in H. apply Ok_inj in H. injection H as <-.
      rewrite dict_get_set in G. injection G as <-.
      exists d0, s. auto.
    + apply Ok_inj in H. injection H as <-. congruence.
Qed.

(** X23: in a configuration that [load_config] returns, every model of
    an agent under [llm] is the model written in the file with [openai/]
    put in front of it. *)
Theorem load_config_prefixes_models config_path config name model :
  load_config json_loads read_text config_path = Ok config ->
  model_of name config = Some model ->
  exists text original s,
    read_text config_path = Some (Ok text)
    /\ json_loads text = Ok original
    /\ model_of name original = Some (VStr s)
    /\ model = VStr ("openai/" ++ s).
Proof.
  unfold load_config. intros H G.
  destruct (read_text config_path) as [[text | e] |]; cbn [rbind] in H;
    [| destruct (exn_class_eqb (exn_cls e) JSONDecodeError); discriminate
     | discriminate].
  destruct (json_loads text) as [original | e] eqn:J;
    [| destruct (exn_class_eqb (exn_cls e) JSONDecodeError); discriminate].
  exists text, original.
  unfold normalize_config in H.
  destruct original as [| b | z | t | l | d0]; try discriminate.
  - cbn [Py.contains rbind] in H. destruct (Str.contains "llm" t).
    + cbn in H. discriminate.
    + apply Ok_inj in H. subst config. discriminate.
  - cbn [Py.contains rbind] in H. destruct (existsb _ l).
    + cbn in H. discriminate.
    + apply Ok_inj in H. subst config. discriminate.
  - cbn [Py.contains rbind Py.getitem] in H. unfold Dict.has in H.
    destruct (Dict.get "llm" d0) as [llm |] eqn:L.
    + cbn [rbind] in H.
      destruct llm as [| b | z | t | l | agents0]; try discriminate.
      cbn [values_of rbind] in H.
      destruct (normalize_agents agents0) as [agents |] eqn:Na; cbn [rbind] in H;
        [| discriminate].
      apply Ok_inj in H. subst config. cbn [model_of] in G.
      rewrite dict_get_set in G.
      destruct (Dict.get name agents) as [[| b | z | t | l | agent] |] eqn:Ga;
        try discriminate.
      destruct (normalize_agents_get _ _ _ _ Na Ga) as (agent0 & G0 & N0).
      destruct (normalize_agent_model _ _ _ N0 G) as (d1 & s & -> & M1 & ->).
      exists s. split; [reflexivity |]. split; [exact J |]. split; [| reflexivity].
      cbn [model_of]. rewrite L, G0. exact M1.
    + apply Ok_inj in H. subst config. cbn [model_of] in G. rewrite L in G.
      discriminate.
Qed.

End ConfigFacts.


Lemma normalize_agent_raises agent e :
  normalize_agent agent = Raise e -> exn_cls e = TypeError.
Proof.
  unfold normalize_agent. intros H.
  destruct agent as [| b | z | t | l | d]; cbn [Py.contains rbind Py.getitem] in H;
    try (injection H as <-; reflexivity).
  - destruct (Str.contains "model" t); cbn [rbind] in H;
      [injection H as <-; reflexivity | discriminate].
  - destruct (existsb _ l); cbn [rbind] in H;
      [injection H as <-; reflexivity | discriminate].
  - unfold Dict.has in H. destruct (Dict.get "model" d) as [m |]; [| discriminate].
    cbn [rbind] in H. destruct m; cbn [prefix_model rbind] in H;
      try (injection H as <-; reflexivity); discriminate.
Qed.

Lemma normalize_agents_raises agents e :
  normalize_agents agents = Raise e -> exn_cls e = TypeError.
Proof.
  induction agents as [| [n a] rest IH]; cbn [normalize_agents]; [discriminate |].
  destruct (normalize_agent a) as [a' | e'] eqn:Na; cbn [rbind].
  - destruct (normalize_agents rest) as [rest' | e'']; cbn [rbind]; [discriminate |].
    intros H. injection H as <-. apply IH. reflexivity.
  - intros H. injection H as <-. exact (normalize_agent_raises _ _ Na).
Qed.

Section ConfigErrors.

Variable json_loads : string -> result pyval.
Variable read_text : string -> option (result string).

(** X24: [load_config] never lets a [JSONDecodeError] through: whatever
    it raises is of another class. *)
Theorem load_config_hides_json_errors config_path e :
  load_config json_loads read_text config_path = Raise e ->
  exn_cls e <> JSONDecodeError.
Proof.
  unfold load_config. intros H.
  destruct (read_text config_path) as [content |];
    [| injection H as <-; discriminate].
  destruct (let* text := content in json_loads text) as [config | e0].
  - assert (exn_cls e = TypeError \/ exn_cls e = AttributeError) as [-> | ->];
      [| discriminate | discriminate].
    unfold normalize_config in H.
    destruct config as [| b | z | t | l | d]; cbn [Py.contains rbind Py.getitem] in H;
      try (injection H as <-; left; reflexivity).
    + destruct (Str.contains "llm" t); cbn [rbind] in H;
        [injection H as <-; left; reflexivity | discriminate].
    + destruct (existsb _ l); cbn [rbind] in H;
        [injection H as <-; left; reflexivity | discriminate].
    + unfold Dict.has in H. destruct (Dict.get "llm" d) as [llm |]; [| discriminate].
      cbn [rbind] in H.
      destruct llm as [| b | z | t | l | agents]; cbn [values_of rbind] in H;
        try (injection H as <-; right; reflexivity).
      destruct (normalize_agents agents) as [agents' | e'] eqn:Na; cbn [rbind] in H;
        [discriminate |].
      injection H as <-. left. exact (normalize_agents_raises _ _ Na).
  - destruct (exn_class_eqb (exn_cls e0) JSONDecodeError) eqn:C;
      injection H as <-; [discriminate |].
    intros D. rewrite D in C. discriminate.
Qed.

End ConfigErrors.


(** * The further properties on examples *)

Lemma failure_counters_never_decrease_witness :
  let step := failed_step "nmap -p 80 target" in
  let run := add_step Examples.loads Examples.hash (Examples.says Examples.summary_text)
                      step after_failures in
  Counters.get (VStr "nmap -p 80 target") (failed_attempts (memory after_failures)) = Some 2
  /\ exists n', Counters.get (VStr "nmap -p 80 target")
                             (failed_attempts (memory (snd run))) = Some n'
                /\ 2 <= n'.
Proof.
  intros step run.
  assert (Counters.get (VStr "nmap -p 80 target") (failed_attempts (memory after_failures))
          = Some 2) as H by (vm_compute; reflexivity).
  split; [exact H |].
  exact (failure_counters_never_decrease
           Examples.loads Examples.hash (Examples.says Examples.summary_text)
           step after_failures (fst run) (snd run) (VStr "nmap -p 80 target") 2
           (surjective_pairing run) H).
Defined.

Lemma blocks_and_facts_never_dropped_witness :
  let s := snd (after_steps 5 Examples.summary_text 4) in
  let run := add_step Examples.loads Examples.hash (Examples.says Examples.summary_text)
                      (Examples.step_of 5 "env") s in
  (exists new, compressed_memory (memory (snd run))
               = (compressed_memory (memory s) ++ new)%list)
  /\ (forall key, Dict.has key (key_facts (memory s)) = true ->
                  Dict.has key (key_facts (memory (snd run))) = true).
Proof.
  intros s run.
  exact (blocks_and_facts_never_dropped
           Examples.loads Examples.hash (Examples.says Examples.summary_text)
           (Examples.step_of 5 "env") s (fst run) (snd run) (surjective_pairing run)).
Defined.

Lemma command_fact_truncated_witness :
  let step := step_with_output long_output in
  let run := add_step Examples.loads Examples.hash (Examples.says Examples.summary_text)
                      step (Examples.start 5) in
  Dict.get "content" step = Some (VStr "curl http://target/")
  /\ Dict.get "output" step = Some (VStr long_output)
  /\ ascii_text long_output = true
  /\ (256 < String.length long_output)%nat
  /\ exists shown,
       Dict.get "command" (key_facts (memory (snd run)))
       = Some ("Command: " ++ "curl http://target/" ++ ", Result: " ++ shown)
       /\ (String.length shown <= 259)%nat
       /\ shown = string_of_list_ascii (repeat "A"%char 256) ++ "...".
Proof.
  intros step run.
  assert (ascii_text long_output = true) as Ha by (vm_compute; reflexivity).
  assert (256 < String.length long_output)%nat as Hl by (vm_compute; lia).
  split; [reflexivity |]. split; [reflexivity |]. split; [exact Ha |]. split; [exact Hl |].
  destruct (command_fact_truncated
              Examples.loads Examples.hash (Examples.says Examples.summary_text)
              step "curl http://target/" long_output (Examples.start 5)
              (fst run) (snd run) eq_refl eq_refl Ha (surjective_pairing run))
    as (shown & F & L & S).
  exists shown. split; [exact F |]. split; [exact L |].
  rewrite S. vm_compute. reflexivity.
Defined.

Lemma failed_step_counted_once_witness :
  let step := failed_step "nmap -p 80 target" in
  let s' := snd (add_step Examples.loads Examples.hash
                          (Examples.says Examples.summary_text) step after_failures) in
  history_len (memory after_failures) + 1 < compression_threshold (memory after_failures)
  /\ add_step Examples.loads Examples.hash (Examples.says Examples.summary_text)
              step after_failures = (Ok tt, s')
  /\ Counters.get (VStr "nmap -p 80 target") (failed_attempts (memory s')) = Some 3.
Proof.
  intros step s'.
  assert (history_len (memory after_failures) + 1
          < compression_threshold (memory after_failures)) as H
      by (vm_compute; reflexivity).
  assert (add_step Examples.loads Examples.hash (Examples.says Examples.summary_text)
                   step after_failures = (Ok tt, s')) as E
      by (vm_compute; reflexivity).
  split; [exact H |]. split; [exact E |].
  pose proof (failed_step_counted_once
                Examples.loads Examples.hash (Examples.says Examples.summary_text)
                step after_failures s' H E) as T.
  assert (step_failed step = Ok true) as F by reflexivity.
  assert (Counters.get (VStr "nmap -p 80 target") (failed_attempts (memory after_failures))
          = Some 2) as G by (vm_compute; reflexivity).
  cbv zeta in T. rewrite F in T.
  change (Dict.get_default "content" (VStr "") step) with (VStr "nmap -p 80 target") in T.
  rewrite G in T. exact T.
Defined.

Lemma compaction_absorbs_failed_request_witness :
  let s := snd (after_steps 5 Examples.summary_text 4) in
  history (memory s) <> []
  /\ exists s',
       compress_memory Examples.loads unreachable s = (Ok tt, s')
       /\ compressed_memory (memory s')
          = [[("error", VStr "Compression failed: Connection error.");
              ("source_steps", VInt 4)]]
       /\ failed_attempts (memory s') = failed_attempts (memory s).
Proof.
  intros s.
  assert (history (memory s) <> []) as Hne by (vm_compute; discriminate).
  assert (exists prompt, compress_prompt (memory s) = Ok prompt) as [prompt Hp]
      by (vm_compute; eexists; reflexivity).
  split; [exact Hne |].
  destruct (compaction_absorbs_failed_request
              Examples.loads unreachable s prompt
              (MkExn OtherException "Connection error.") Hne Hp eq_refl)
    as (s' & E & B & _ & _ & F & _).
  exists s'. split; [exact E |]. split; [exact B | exact F].
Defined.

Lemma compaction_absorbs_unparsable_reply_witness :
  let s := snd (after_steps 5 Examples.summary_text 4) in
  history (memory s) <> []
  /\ ascii_text "Sorry, no summary." = true
  /\ Examples.loads (Str.strip "Sorry, no summary.") = Examples.not_json
  /\ exists s',
       compress_memory Examples.loads (Examples.says "Sorry, no summary.") s = (Ok tt, s')
       /\ compressed_memory (memory s')
          = [[("fallback_summary", VStr "Sorry, no summary."); ("source_steps", VInt 4)]]
       /\ failed_attempts (memory s') = failed_attempts (memory s).
Proof.
  intros s.
  assert (history (memory s) <> []) as Hne by (vm_compute; discriminate).
  assert (exists prompt, compress_prompt (memory s) = Ok prompt) as [prompt Hp]
      by (vm_compute; eexists; reflexivity).
  assert (Examples.loads (Str.strip "Sorry, no summary.") = Examples.not_json) as Hj
      by (vm_compute; reflexivity).
  split; [exact Hne |]. split; [reflexivity |]. split; [exact Hj |].
  destruct (compaction_absorbs_unparsable_reply
              Examples.loads (Examples.says "Sorry, no summary.") s prompt
              (Examples.text_reply "Sorry, no summary.") "Sorry, no summary." _
              Hne Hp eq_refl eq_refl eq_refl Hj)
    as (s' & E & B & _ & _ & F & _).
  exists s'. split; [exact E |]. split; [exact B | exact F].
Defined.


Lemma degraded_block_is_printable_witness :
  let e := MkExn OtherException "Connection error." in
  let s' := snd (compress_except e None (Examples.start 5)) in
  compress_except e None (Examples.start 5) = (Ok tt, s')
  /\ exists blk,
       compressed_memory (memory s') = [blk]
       /\ summary_block 1 0 blk
          = Ok ("Block #" ++ Str.of_Z (1 - 0) ++ ":" ++ Str.nl
                ++ "- Source: based on " ++ Str.of_Z 0 ++ " historical steps"
                ++ Str.nl ++ Str.nl).
Proof.
  intros e s'.
  assert (compress_except e None (Examples.start 5) = (Ok tt, s')) as E
      by (vm_compute; reflexivity).
  split; [exact E |].
  destruct (degraded_block_is_printable e None (Examples.start 5) s' E) as (blk & B & P).
  exists blk. split; [exact B | exact (P 1 0)].
Defined.

Lemma normalised_record_shape_witness :
  let run := parse_tool_response Examples.loads (Examples.script []) 3
                                 (Examples.text_reply Examples.repaired_action)
                                 (Examples.start 5) in
  exists v, fst run = Ok (Some v)
            /\ (v = VDict []
                \/ exists name arguments purpose content,
                     v = VDict [("tool_name", name); ("arguments", VDict arguments)]
                     /\ Dict.get "purpose" arguments = Some purpose
                     /\ Dict.get "content" arguments = Some content).
Proof.
  intros run.
  assert (exists v, run = (Ok (Some v), snd run)) as [v E]
      by (vm_compute; eexists; reflexivity).
  exists v. split; [rewrite E; reflexivity |].
  exact (normalised_record_shape Examples.loads (Examples.script []) 3
           (Examples.text_reply Examples.repaired_action) (Examples.start 5)
           v (snd run) E).
Defined.


Lemma manual_abort_runs_nothing_witness :
  let typed_lines := keyboard ["maybe"; " 3 "] in
  ascii_lines typed_lines 0%nat 2%nat
  /\ unknown_choice (typed_lines 0%nat)
  /\ Str.strip (typed_lines 1%nat) = "3"
  /\ act Examples.loads Examples.hash unreachable Examples.reflection_template
         Examples.analysis_template typed_lines Examples.registry None false
         5 "enumerate the site" 1 ls_action (Examples.start 5)
     = (Ok (Some (Return (VStr "Solving aborted"))), after_typing 2 (Examples.start 5)).
Proof.
  intros typed_lines.
  assert (unknown_choice (typed_lines 0%nat)) as U
      by (vm_compute; repeat split; discriminate).
  assert (Str.strip (typed_lines 1%nat) = "3") as T by (vm_compute; reflexivity).
  assert (ascii_lines typed_lines 0%nat 2%nat) as A.
  { intros i Hi. destruct i as [| [| i]]; [reflexivity | reflexivity | lia]. }
  split; [exact A |]. split; [exact U |]. split; [exact T |].
  apply (manual_abort_runs_nothing
           Examples.loads Examples.hash unreachable Examples.reflection_template
           Examples.analysis_template typed_lines Examples.registry None
           5 "enumerate the site" 1 ls_action
           (VStr "execute_shell_command",
            VDict [("purpose", VStr "list the files"); ("content", VStr "ls")],
            VStr "ls")
           1 (Examples.start 5)).
  - reflexivity.
  - exact A.
  - intros i Hi. assert (i = 0%nat) as -> by lia. exact U.
  - exact T.
  - lia.
Defined.

Lemma manual_approval_runs_as_automatic_witness :
  let typed_lines := keyboard [" 1 "] in
  ascii_lines typed_lines 0%nat 1%nat
  /\ Str.strip (typed_lines 0%nat) = "1"
  /\ act Examples.loads Examples.hash (Examples.says Examples.dull_analysis_text)
         Examples.reflection_template Examples.analysis_template typed_lines
         Examples.registry None false 5 "enumerate the site" 1 ls_action
         (Examples.start 5)
     = act Examples.loads Examples.hash (Examples.says Examples.dull_analysis_text)
           Examples.reflection_template Examples.analysis_template typed_lines
           Examples.registry None true 5 "enumerate the site" 1 ls_action
           (after_typing 1 (Examples.start 5)).
Proof.
  intros typed_lines.
  assert (Str.strip (typed_lines 0%nat) = "1") as T by (vm_compute; reflexivity).
  assert (ascii_lines typed_lines 0%nat 1%nat) as A.
  { intros i Hi. destruct i as [| i]; [reflexivity | lia]. }
  split; [exact A |]. split; [exact T |].
  apply (manual_approval_runs_as_automatic
           Examples.loads Examples.hash (Examples.says Examples.dull_analysis_text)
           Examples.reflection_template Examples.analysis_template typed_lines
           Examples.registry None 5 "enumerate the site" 1 ls_action
           (VStr "execute_shell_command",
            VDict [("purpose", VStr "list the files"); ("content", VStr "ls")],
            VStr "ls")
           0 (Examples.start 5)).
  - reflexivity.
  - exact A.
  - intros i Hi. lia.
  - exact T.
  - lia.
Defined.

Lemma turn_changes_memory_by_one_step_witness :
  let run := example_turn [Examples.text_reply Examples.repaired_action;
                           Examples.text_reply Examples.dull_analysis_text] in
  fst run = Ok (Some Continue)
  /\ (memory (snd run) = memory (Examples.start 5)
      \/ exists step s1 r1 s2,
           memory s1 = memory (Examples.start 5)
           /\ add_step Examples.loads Examples.hash
                       (Examples.script [Examples.text_reply Examples.repaired_action;
                                         Examples.text_reply Examples.dull_analysis_text])
                       step s1 = (r1, s2)
           /\ memory (snd run) = memory s2).
Proof.
  intros run.
  split; [vm_compute; reflexivity |].
  exact (turn_changes_memory_by_one_step
           Examples.loads Examples.hash
           (Examples.script [Examples.text_reply Examples.repaired_action;
                             Examples.text_reply Examples.dull_analysis_text])
           Examples.next_template Examples.reflection_template Examples.analysis_template
           Examples.silent Examples.registry (Some Examples.rejects) true
           5 "Web" "enumerate the site" 1 (Examples.start 5) (fst run) (snd run)
           (surjective_pairing run)).
Defined.

Lemma solve_returns_only_confirmed_flags_witness :
  let run := accepting_solve [Examples.text_reply Examples.repaired_action;
                              Examples.text_reply flag_text] in
  fst run = Ok (Some (VStr "flag{demo}"))
  /\ (VStr "flag{demo}" = VStr "Solving aborted"
      \/ VStr "flag{demo}" = VStr "Flag not found: terminated early"
      \/ exists callback rest,
           Some accepts = Some callback
           /\ confirmed (world (snd run)) = VStr "flag{demo}" :: rest
           /\ callback (List.length rest) (VStr "flag{demo}") = true).
Proof.
  intros run.
  assert (run = (Ok (Some (VStr "flag{demo}")), snd run)) as E
      by (vm_compute; reflexivity).
  split; [rewrite E; reflexivity |].
  exact (solve_returns_only_confirmed_flags
           loads_more Examples.hash
           (Examples.script [Examples.text_reply Examples.repaired_action;
                             Examples.text_reply flag_text])
           Examples.next_template Examples.reflection_template Examples.analysis_template
           Examples.silent Examples.registry (Some accepts) true
           5 "Web" "enumerate the site" (Examples.start 5)
           (VStr "flag{demo}") (snd run) E).
Defined.

Lemma repair_loop_stops_when_request_fails_witness :
  let model := Examples.script [Examples.text_reply Examples.quoted_arguments] in
  let prompt := repair_prompt Examples.quoted_arguments "Expecting property name" in
  rejected Examples.loads (Examples.text_reply Examples.quoted_arguments)
  /\ model 1%nat prompt = Raise (MkExn OtherException "Connection error.")
  /\ fix_json_loop Examples.loads model 5 prompt (Examples.start 5)
     = (Raise (MkExn OtherException "Connection error."),
        MkState (memory (Examples.start 5))
                (with_sent (repeat prompt 2 ++ sent (world (Examples.start 5)))%list
                           (world (Examples.start 5)))).
Proof.
  intros model prompt.
  assert (rejected Examples.loads (Examples.text_reply Examples.quoted_arguments)) as R
      by (vm_compute; reflexivity).
  split; [exact R |]. split; [reflexivity |].
  apply (repair_loop_stops_when_request_fails
           Examples.loads model 1 prompt (Examples.start 5)
           (MkExn OtherException "Connection error.")).
  - intros i Hi. assert (i = 0%nat) as -> by lia.
    exists (Examples.text_reply Examples.quoted_arguments). split; [reflexivity | exact R].
  - reflexivity.
  - lia.
Defined.

Lemma repaired_analysis_is_returned_witness :
  let model := Examples.script [Examples.text_reply Examples.quoted_arguments;
                                Examples.text_reply list_text] in
  let run := analyze_step_output loads_more model Examples.analysis_template
                                 3 1 (VStr "ls") "uid=0(root)" "enumerate the site"
                                 (Examples.start 5) in
  loads_more Examples.quoted_arguments = Examples.not_json
  /\ exists v,
       loads_more list_text = Ok v
       /\ fst run = Ok (Some v)
       /\ v = VList [VInt 1; VInt 2].
Proof.
  intros model run.
  assert (loads_more Examples.quoted_arguments = Examples.not_json) as J
      by (vm_compute; reflexivity).
  split; [exact J |].
  assert (exists s2,
             fix_json_with_llm loads_more model 3 Examples.quoted_arguments
               (exn_str (MkExn JSONDecodeError
                  "Expecting property name enclosed in double quotes: line 1 column 2 (char 1)"))
               (MkState (memory (Examples.start 5))
                  (with_sent
                     (Utils.optimize_text
                        (Examples.analysis_template 1 (VStr "ls")
                           (Str.take 4096 "uid=0(root)") "enumerate the site" "No history")
                      :: sent (world (Examples.start 5)))
                     (world (Examples.start 5))))
             = (Ok (Some list_text), s2)) as [s2 F]
      by (vm_compute; eexists; reflexivity).
  destruct (repaired_analysis_is_returned
              loads_more model Examples.analysis_template
              3 1 (VStr "ls") "uid=0(root)" "enumerate the site" (Examples.start 5)
              "No history" (Examples.text_reply Examples.quoted_arguments)
              Examples.quoted_arguments _ list_text s2
              eq_refl eq_refl eq_refl J eq_refl F)
    as (v & Hv & E).
  exists v. split; [exact Hv |]. split; [unfold run; rewrite E; reflexivity |].
  assert (loads_more list_text = Ok (VList [VInt 1; VInt 2])) as L
      by (vm_compute; reflexivity).
  rewrite L in Hv. injection Hv as <-. reflexivity.
Defined.

Lemma non_object_analysis_aborts_turn_witness :
  let prompt := Utils.optimize_text
                  (Examples.analysis_template 1 (VStr "ls") (Str.take 4096 "uid=0(root)")
                                              "enumerate the site" "No history") in
  loads_more list_text = Ok (VList [VInt 1; VInt 2])
  /\ analyzing loads_more Examples.hash (Examples.says list_text)
               Examples.analysis_template (Some accepts) 3 "enumerate the site" 1
               (VDict [("content", VStr "ls")]) (VStr "ls") "uid=0(root)"
               (Examples.start 5)
     = (Raise (MkExn AttributeError "'NoneType' object has no attribute 'get'"),
        MkState (memory (Examples.start 5))
                (with_sent (prompt :: sent (world (Examples.start 5)))
                           (world (Examples.start 5)))).
Proof.
  intros prompt.
  assert (loads_more list_text = Ok (VList [VInt 1; VInt 2])) as J
      by (vm_compute; reflexivity).
  split; [exact J |].
  apply (non_object_analysis_aborts_turn
           loads_more (Examples.says list_text) Examples.analysis_template
           Examples.hash (Some accepts) 3 "enumerate the site" 1
           (VDict [("content", VStr "ls")]) (VStr "ls") "uid=0(root)"
           (Examples.start 5) "No history" (Examples.text_reply list_text) list_text
           (VList [VInt 1; VInt 2])).
  - reflexivity.
  - reflexivity.
  - reflexivity.
  - exact J.
  - intros d D. discriminate.
Defined.

Lemma select_mode_takes_first_choice_witness :
  let typed_lines := keyboard ["auto"; " 2 "] in
  ascii_lines typed_lines 0%nat 2%nat
  /\ Str.strip (typed_lines 0%nat) <> "1"
  /\ Str.strip (typed_lines 0%nat) <> "2"
  /\ Str.strip (typed_lines 1%nat) = "2"
  /\ _select_mode typed_lines 5 (Examples.start 5)
     = (Ok (Some (String.eqb (Str.strip (typed_lines 1%nat)) "1")),
        after_typing 2 (Examples.start 5)).
Proof.
  intros typed_lines.
  assert (Str.strip (typed_lines 0%nat) <> "1" /\ Str.strip (typed_lines 0%nat) <> "2")
    as U by (vm_compute; split; discriminate).
  assert (Str.strip (typed_lines 1%nat) = "2") as T by (vm_compute; reflexivity).
  assert (ascii_lines typed_lines 0%nat 2%nat) as A.
  { intros i Hi. destruct i as [| [| i]]; [reflexivity | reflexivity | lia]. }
  split; [exact A |].
  split; [exact (proj1 U) |]. split; [exact (proj2 U) |]. split; [exact T |].
  apply (select_mode_takes_first_choice typed_lines 1 (Examples.start 5)).
  - exact A.
  - intros i Hi. assert (i = 0%nat) as -> by lia. exact U.
  - right. exact T.
  - lia.
Defined.

Lemma confirm_flag_takes_first_answer_witness :
  let typed_lines := keyboard ["maybe"; " Y "] in
  ascii_lines typed_lines 0%nat 2%nat
  /\ Str.lower (Str.strip (typed_lines 0%nat)) <> "y"
  /\ Str.lower (Str.strip (typed_lines 0%nat)) <> "n"
  /\ Str.lower (Str.strip (typed_lines 1%nat)) = "y"
  /\ confirm_flag typed_lines 5 (VStr "flag{demo}") (Examples.start 5)
     = (Ok (Some (String.eqb (Str.lower (Str.strip (typed_lines 1%nat))) "y")),
        after_typing 2 (Examples.start 5)).
Proof.
  intros typed_lines.
  assert (Str.lower (Str.strip (typed_lines 0%nat)) <> "y"
          /\ Str.lower (Str.strip (typed_lines 0%nat)) <> "n")
    as U by (vm_compute; split; discriminate).
  assert (Str.lower (Str.strip (typed_lines 1%nat)) = "y") as T
      by (vm_compute; reflexivity).
  assert (ascii_lines typed_lines 0%nat 2%nat) as A.
  { intros i Hi. destruct i as [| [| i]]; [reflexivity | reflexivity | lia]. }
  split; [exact A |].
  split; [exact (proj1 U) |]. split; [exact (proj2 U) |]. split; [exact T |].
  apply (confirm_flag_takes_first_answer typed_lines (VStr "flag{demo}") 1
                                         (Examples.start 5)).
  - exact A.
  - intros i Hi. assert (i = 0%nat) as -> by lia. exact U.
  - left. exact T.
  - lia.
Defined.


Lemma optimize_text_leaves_single_spaces_witness :
  has_char Utils.nul "curl   -s    http://target/" = false
  /\ apart Utils.space false (Utils.optimize_text "curl   -s    http://target/") = true.
Proof.
  split; [reflexivity |].
  apply optimize_text_leaves_single_spaces. reflexivity.
Defined.

Lemma load_config_prefixes_models_witness :
  load_config loads_config one_file "./config.json"
  = Ok (VDict [("llm", VDict [("solve_agent",
                               VDict [("model", VStr "openai/gpt-4o");
                                      ("api_key", VStr "k")])]);
               ("compression_threshold", VInt 5)])
  /\ exists text original s,
       one_file "./config.json" = Some (Ok text)
       /\ loads_config text = Ok original
       /\ model_of "solve_agent" original = Some (VStr s)
       /\ VStr "openai/gpt-4o" = VStr ("openai/" ++ s).
Proof.
  assert (load_config loads_config one_file "./config.json"
          = Ok (VDict [("llm", VDict [("solve_agent",
                                       VDict [("model", VStr "openai/gpt-4o");
                                              ("api_key", VStr "k")])]);
                       ("compression_threshold", VInt 5)])) as E
      by (vm_compute; reflexivity).
  split; [exact E |].
  exact (load_config_prefixes_models loads_config one_file "./config.json" _
           "solve_agent" (VStr "openai/gpt-4o") E eq_refl).
Defined.

Lemma load_config_hides_json_errors_witness :
  load_config Examples.loads broken_file "./config.json"
  = Raise (MkExn OtherException "Configuration file ./config.json is not valid JSON")
  /\ OtherException <> JSONDecodeError.
Proof.
  assert (load_config Examples.loads broken_file "./config.json"
          = Raise (MkExn OtherException
                         "Configuration file ./config.json is not valid JSON")) as E
      by (vm_compute; reflexivity).
  split; [exact E |].
  exact (load_config_hides_json_errors Examples.loads broken_file "./config.json" _ E).
Defined.
